(** * IoT node: gateway orchestration of [custom.ts]

    A shallow embedding of the gateway side of the [IoT] namespace of
    [custom.ts] (registry, message assembler, polling scheduler, uplink
    command relay), followed by the properties of the specification that
    concern it.

    Modelling conventions.
    - JavaScript numbers are integers or [NaN] (type [number]); fractional
      values are outside the model.  Serial numbers, timers and the loss
      counter are integers ([Z]).
    - The namespace variables are the fields of [State]; the running time
      and the trace of input/output calls are two more fields.
    - A handler is a computation in the monad [M]: it threads the state and
      may stop early, with a [TypeError] (a method called on [null] or
      [undefined]) or with the device restart of [control.reset]. *)

From Stdlib Require Import ZArith List String Ascii Bool Lia.
From Stdlib Require Import DecimalString RelationClasses.
Import ListNotations.

Local Open Scope list_scope.
Local Open Scope string_scope.
Local Open Scope Z_scope.

(* ================================================================== *)
(** ** Numbers and strings of the run-time *)
(* ================================================================== *)

Inductive number : Type :=
| Int (z : Z)
| NaN.

(** [a + b] on numbers. *)
Definition num_add (a b : number) : number :=
  match a, b with
  | Int x, Int y => Int (x + y)
  | _, _ => NaN
  end.

(** [a % b]: the remainder has the sign of the dividend; [x % 0] is [NaN]. *)
Definition num_rem (a b : number) : number :=
  match a, b with
  | Int x, Int y => if y =? 0 then NaN else Int (Z.rem x y)
  | _, _ => NaN
  end.

(** [a == b] on numbers: [NaN] is equal to nothing. *)
Definition num_eqb (a b : number) : bool :=
  match a, b with
  | Int x, Int y => x =? y
  | _, _ => false
  end.

(** [a > b] and [a >= b] on numbers: false as soon as one side is [NaN]. *)
Definition num_gtb (a b : number) : bool :=
  match a, b with
  | Int x, Int y => x >? y
  | _, _ => false
  end.

Definition num_geb (a b : number) : bool :=
  match a, b with
  | Int x, Int y => x >=? y
  | _, _ => false
  end.

(** [a < b] on numbers. *)
Definition num_ltb (a b : number) : bool :=
  match a, b with
  | Int x, Int y => x <? y
  | _, _ => false
  end.

(** The decimal text of an integer, as string concatenation gives it. *)
Definition show_Z (z : Z) : string := NilZero.string_of_int (Z.to_int z).

(** The text of a number, as string concatenation gives it. *)
Definition show (n : number) : string :=
  match n with
  | Int z => show_Z z
  | NaN => "NaN"
  end.

(** [s.includes(sub)]. *)
Fixpoint includes (s sub : string) : bool :=
  String.prefix sub s ||
  match s with
  | EmptyString => false
  | String _ r => includes r sub
  end.

(** [s.substr(0, n)] for [n] a length: negative lengths give the empty string. *)
Definition substr0 (s : string) (n : Z) : string :=
  String.substring 0 (Z.to_nat n) s.

(** [s.length]. *)
Definition strlen (s : string) : Z := Z.of_nat (String.length s).

(** [s.isEmpty()]. *)
Definition isEmpty (s : string) : bool :=
  match s with
  | EmptyString => true
  | String _ _ => false
  end.

(** [s.split(sep)] for a separator of one character. *)
Fixpoint split (sep : ascii) (s : string) : list string :=
  match s with
  | EmptyString => [EmptyString]
  | String c r =>
      if Ascii.eqb c sep then EmptyString :: split sep r
      else match split sep r with
           | h :: t => String c h :: t
           | [] => [String c EmptyString]
           end
  end.

(** [a.indexOf(x)] on an array of integers: first position, or [-1]. *)
Fixpoint indexOf (a : list Z) (x : Z) : Z :=
  match a with
  | [] => -1
  | y :: r =>
      if y =? x then 0
      else let i := indexOf r x in if i <? 0 then -1 else i + 1
  end.

(** [a.indexOf(x)] on an array of strings. *)
Fixpoint indexOf_str (a : list string) (x : string) : Z :=
  match a with
  | [] => -1
  | y :: r =>
      if String.eqb y x then 0
      else let i := indexOf_str r x in if i <? 0 then -1 else i + 1
  end.

(** [a.length]. *)
Definition alen {A : Type} (a : list A) : Z := Z.of_nat (List.length a).

(** [a[i]] on an array whose elements may be [null]: [None] stands for
    [null] and for [undefined] (an index out of range, negative or [NaN]);
    the program tells them apart nowhere. *)
Definition js_get {A : Type} (a : list (option A)) (i : number) : option A :=
  match i with
  | Int z =>
      if z <? 0 then None
      else match nth_error a (Z.to_nat z) with
           | Some (Some v) => Some v
           | _ => None
           end
  | NaN => None
  end.

Fixpoint replace_nth {A : Type} (a : list A) (n : nat) (v : A) : list A :=
  match a, n with
  | [], _ => []
  | _ :: r, O => v :: r
  | x :: r, S m => x :: replace_nth r m v
  end.

(** [a[i] = v]: an index within the array overwrites the element, an index
    at or beyond the length grows the array (the holes read as
    [undefined]), a negative index or [NaN] sets a property of the object
    and leaves the elements alone. *)
Definition js_set {A : Type} (a : list (option A)) (i : number) (v : option A)
  : list (option A) :=
  match i with
  | Int z =>
      if z <? 0 then a
      else if z <? alen a then replace_nth a (Z.to_nat z) v
      else (a ++ repeat None (Z.to_nat z - List.length a) ++ [v])%list
  | NaN => a
  end.

(** Text with the apostrophe standing for the double quote: [dq "{'a':1}"]
    is the text [{"a":1}]. *)
Fixpoint dq (s : string) : string :=
  match s with
  | EmptyString => EmptyString
  | String c r =>
      String (if Ascii.eqb c (ascii_of_nat 39) then ascii_of_nat 34 else c) (dq r)
  end.

(* ================================================================== *)
(** ** The state of the node and its input/output *)
(* ================================================================== *)

Inductive Mode : Type := EndPoint | Gateway.

Inductive Dimension : Type := DimX | DimY | DimZ | Strength.
Inductive Rotation : Type := Pitch | Roll.
Inductive Pin : Type := P0 | P1 | P2.
Inductive IconNames : Type := Heart | Happy | Sad | Chessboard | Square | Scissors.

(** The calls of the program to the radio, the serial line, the display
    and the pins, in the order they are made. *)
Inductive Effect : Type :=
| SerialWriteLine (s : string)
| RadioSendValue (name : string) (v : number)
| RadioSendString (s : string)
| LedPlot (x : number) (y : Z)
| LedUnplot (x : number) (y : Z)
| ShowString (s : string)
| ShowNumber (n : number)
| ShowIcon (i : IconNames)
| ClearScreen
| DigitalWritePin (p : Pin) (v : number)
| AnalogWritePin (p : Pin) (v : number)
| ServoWritePin (p : Pin) (v : number)
| LedToggle (x y : Z).

(** The variables of the namespace [IoT], then the running time of the
    board and the trace of its input/output calls (latest last). *)
Record State : Type := mkState {
  deviceMode : Mode;
  showDebug : bool;
  doTelemetry : bool;
  device_telemetry : list (option string);
  device_property : list (option string);
  device_log : list (option string);
  device_registrar : list Z;
  packet_loss : Z;
  timerRadioRequest : Z;
  timerGatewayRequest : Z;
  microbit_ID : number;
  activeRadioRequest : bool;
  identity : number;
  doProperty : bool;
  propString : list string;
  propValue : list number;
  doAccelerometer : bool;
  doMagneticForce : bool;
  doRotation : bool;
  doDigitalRead : bool;
  doAnalogRead : bool;
  doCompass : bool;
  doTemperature : bool;
  doLightLevel : bool;
  doCommands : bool;
  runningTime : Z;
  trace : list Effect
}.

Definition set_deviceMode (v : Mode) (s : State) : State :=
  mkState v (showDebug s) (doTelemetry s) (device_telemetry s)
    (device_property s) (device_log s) (device_registrar s) (packet_loss s)
    (timerRadioRequest s) (timerGatewayRequest s) (microbit_ID s)
    (activeRadioRequest s) (identity s) (doProperty s) (propString s)
    (propValue s) (doAccelerometer s) (doMagneticForce s) (doRotation s)
    (doDigitalRead s) (doAnalogRead s) (doCompass s) (doTemperature s)
    (doLightLevel s) (doCommands s) (runningTime s) (trace s).

Definition set_showDebug (v : bool) (s : State) : State :=
  mkState (deviceMode s) v (doTelemetry s) (device_telemetry s)
    (device_property s) (device_log s) (device_registrar s) (packet_loss s)
    (timerRadioRequest s) (timerGatewayRequest s) (microbit_ID s)
    (activeRadioRequest s) (identity s) (doProperty s) (propString s)
    (propValue s) (doAccelerometer s) (doMagneticForce s) (doRotation s)
    (doDigitalRead s) (doAnalogRead s) (doCompass s) (doTemperature s)
    (doLightLevel s) (doCommands s) (runningTime s) (trace s).

Definition set_doTelemetry (v : bool) (s : State) : State :=
  mkState (deviceMode s) (showDebug s) v (device_telemetry s)
    (device_property s) (device_log s) (device_registrar s) (packet_loss s)
    (timerRadioRequest s) (timerGatewayRequest s) (microbit_ID s)
    (activeRadioRequest s) (identity s) (doProperty s) (propString s)
    (propValue s) (doAccelerometer s) (doMagneticForce s) (doRotation s)
    (doDigitalRead s) (doAnalogRead s) (doCompass s) (doTemperature s)
    (doLightLevel s) (doCommands s) (runningTime s) (trace s).

Definition set_device_telemetry (v : list (option string)) (s : State) : State :=
  mkState (deviceMode s) (showDebug s) (doTelemetry s) v (device_property s)
    (device_log s) (device_registrar s) (packet_loss s) (timerRadioRequest s)
    (timerGatewayRequest s) (microbit_ID s) (activeRadioRequest s)
    (identity s) (doProperty s) (propString s) (propValue s)
    (doAccelerometer s) (doMagneticForce s) (doRotation s) (doDigitalRead s)
    (doAnalogRead s) (doCompass s) (doTemperature s) (doLightLevel s)
    (doCommands s) (runningTime s) (trace s).

Definition set_device_property (v : list (option string)) (s : State) : State :=
  mkState (deviceMode s) (showDebug s) (doTelemetry s) (device_telemetry s)
    v (device_log s) (device_registrar s) (packet_loss s)
    (timerRadioRequest s) (timerGatewayRequest s) (microbit_ID s)
    (activeRadioRequest s) (identity s) (doProperty s) (propString s)
    (propValue s) (doAccelerometer s) (doMagneticForce s) (doRotation s)
    (doDigitalRead s) (doAnalogRead s) (doCompass s) (doTemperature s)
    (doLightLevel s) (doCommands s) (runningTime s) (trace s).

Definition set_device_log (v : list (option string)) (s : State) : State :=
  mkState (deviceMode s) (showDebug s) (doTelemetry s) (device_telemetry s)
    (device_property s) v (device_registrar s) (packet_loss s)
    (timerRadioRequest s) (timerGatewayRequest s) (microbit_ID s)
    (activeRadioRequest s) (identity s) (doProperty s) (propString s)
    (propValue s) (doAccelerometer s) (doMagneticForce s) (doRotation s)
    (doDigitalRead s) (doAnalogRead s) (doCompass s) (doTemperature s)
    (doLightLevel s) (doCommands s) (runningTime s) (trace s).

Definition set_device_registrar (v : list Z) (s : State) : State :=
  mkState (deviceMode s) (showDebug s) (doTelemetry s) (device_telemetry s)
    (device_property s) (device_log s) v (packet_loss s)
    (timerRadioRequest s) (timerGatewayRequest s) (microbit_ID s)
    (activeRadioRequest s) (identity s) (doProperty s) (propString s)
    (propValue s) (doAccelerometer s) (doMagneticForce s) (doRotation s)
    (doDigitalRead s) (doAnalogRead s) (doCompass s) (doTemperature s)
    (doLightLevel s) (doCommands s) (runningTime s) (trace s).

Definition set_packet_loss (v : Z) (s : State) : State :=
  mkState (deviceMode s) (showDebug s) (doTelemetry s) (device_telemetry s)
    (device_property s) (device_log s) (device_registrar s) v
    (timerRadioRequest s) (timerGatewayRequest s) (microbit_ID s)
    (activeRadioRequest s) (identity s) (doProperty s) (propString s)
    (propValue s) (doAccelerometer s) (doMagneticForce s) (doRotation s)
    (doDigitalRead s) (doAnalogRead s) (doCompass s) (doTemperature s)
    (doLightLevel s) (doCommands s) (runningTime s) (trace s).

Definition set_timerRadioRequest (v : Z) (s : State) : State :=
  mkState (deviceMode s) (showDebug s) (doTelemetry s) (device_telemetry s)
    (device_property s) (device_log s) (device_registrar s) (packet_loss s)
    v (timerGatewayRequest s) (microbit_ID s) (activeRadioRequest s)
    (identity s) (doProperty s) (propString s) (propValue s)
    (doAccelerometer s) (doMagneticForce s) (doRotation s) (doDigitalRead s)
    (doAnalogRead s) (doCompass s) (doTemperature s) (doLightLevel s)
    (doCommands s) (runningTime s) (trace s).

Definition set_timerGatewayRequest (v : Z) (s : State) : State :=
  mkState (deviceMode s) (showDebug s) (doTelemetry s) (device_telemetry s)
    (device_property s) (device_log s) (device_registrar s) (packet_loss s)
    (timerRadioRequest s) v (microbit_ID s) (activeRadioRequest s)
    (identity s) (doProperty s) (propString s) (propValue s)
    (doAccelerometer s) (doMagneticForce s) (doRotation s) (doDigitalRead s)
    (doAnalogRead s) (doCompass s) (doTemperature s) (doLightLevel s)
    (doCommands s) (runningTime s) (trace s).

Definition set_microbit_ID (v : number) (s : State) : State :=
  mkState (deviceMode s) (showDebug s) (doTelemetry s) (device_telemetry s)
    (device_property s) (device_log s) (device_registrar s) (packet_loss s)
    (timerRadioRequest s) (timerGatewayRequest s) v (activeRadioRequest s)
    (identity s) (doProperty s) (propString s) (propValue s)
    (doAccelerometer s) (doMagneticForce s) (doRotation s) (doDigitalRead s)
    (doAnalogRead s) (doCompass s) (doTemperature s) (doLightLevel s)
    (doCommands s) (runningTime s) (trace s).

Definition set_activeRadioRequest (v : bool) (s : State) : State :=
  mkState (deviceMode s) (showDebug s) (doTelemetry s) (device_telemetry s)
    (device_property s) (device_log s) (device_registrar s) (packet_loss s)
    (timerRadioRequest s) (timerGatewayRequest s) (microbit_ID s) v
    (identity s) (doProperty s) (propString s) (propValue s)
    (doAccelerometer s) (doMagneticForce s) (doRotation s) (doDigitalRead s)
    (doAnalogRead s) (doCompass s) (doTemperature s) (doLightLevel s)
    (doCommands s) (runningTime s) (trace s).

Definition set_identity (v : number) (s : State) : State :=
  mkState (deviceMode s) (showDebug s) (doTelemetry s) (device_telemetry s)
    (device_property s) (device_log s) (device_registrar s) (packet_loss s)
    (timerRadioRequest s) (timerGatewayRequest s) (microbit_ID s)
    (activeRadioRequest s) v (doProperty s) (propString s) (propValue s)
    (doAccelerometer s) (doMagneticForce s) (doRotation s) (doDigitalRead s)
    (doAnalogRead s) (doCompass s) (doTemperature s) (doLightLevel s)
    (doCommands s) (runningTime s) (trace s).

Definition set_doProperty (v : bool) (s : State) : State :=
  mkState (deviceMode s) (showDebug s) (doTelemetry s) (device_telemetry s)
    (device_property s) (device_log s) (device_registrar s) (packet_loss s)
    (timerRadioRequest s) (timerGatewayRequest s) (microbit_ID s)
    (activeRadioRequest s) (identity s) v (propString s) (propValue s)
    (doAccelerometer s) (doMagneticForce s) (doRotation s) (doDigitalRead s)
    (doAnalogRead s) (doCompass s) (doTemperature s) (doLightLevel s)
    (doCommands s) (runningTime s) (trace s).

Definition set_propString (v : list string) (s : State) : State :=
  mkState (deviceMode s) (showDebug s) (doTelemetry s) (device_telemetry s)
    (device_property s) (device_log s) (device_registrar s) (packet_loss s)
    (timerRadioRequest s) (timerGatewayRequest s) (microbit_ID s)
    (activeRadioRequest s) (identity s) (doProperty s) v (propValue s)
    (doAccelerometer s) (doMagneticForce s) (doRotation s) (doDigitalRead s)
    (doAnalogRead s) (doCompass s) (doTemperature s) (doLightLevel s)
    (doCommands s) (runningTime s) (trace s).

Definition set_propValue (v : list number) (s : State) : State :=
  mkState (deviceMode s) (showDebug s) (doTelemetry s) (device_telemetry s)
    (device_property s) (device_log s) (device_registrar s) (packet_loss s)
    (timerRadioRequest s) (timerGatewayRequest s) (microbit_ID s)
    (activeRadioRequest s) (identity s) (doProperty s) (propString s) v
    (doAccelerometer s) (doMagneticForce s) (doRotation s) (doDigitalRead s)
    (doAnalogRead s) (doCompass s) (doTemperature s) (doLightLevel s)
    (doCommands s) (runningTime s) (trace s).

Definition set_doAccelerometer (v : bool) (s : State) : State :=
  mkState (deviceMode s) (showDebug s) (doTelemetry s) (device_telemetry s)
    (device_property s) (device_log s) (device_registrar s) (packet_loss s)
    (timerRadioRequest s) (timerGatewayRequest s) (microbit_ID s)
    (activeRadioRequest s) (identity s) (doProperty s) (propString s)
    (propValue s) v (doMagneticForce s) (doRotation s) (doDigitalRead s)
    (doAnalogRead s) (doCompass s) (doTemperature s) (doLightLevel s)
    (doCommands s) (runningTime s) (trace s).

Definition set_doMagneticForce (v : bool) (s : State) : State :=
  mkState (deviceMode s) (showDebug s) (doTelemetry s) (device_telemetry s)
    (device_property s) (device_log s) (device_registrar s) (packet_loss s)
    (timerRadioRequest s) (timerGatewayRequest s) (microbit_ID s)
    (activeRadioRequest s) (identity s) (doProperty s) (propString s)
    (propValue s) (doAccelerometer s) v (doRotation s) (doDigitalRead s)
    (doAnalogRead s) (doCompass s) (doTemperature s) (doLightLevel s)
    (doCommands s) (runningTime s) (trace s).

Definition set_doRotation (v : bool) (s : State) : State :=
  mkState (deviceMode s) (showDebug s) (doTelemetry s) (device_telemetry s)
    (device_property s) (device_log s) (device_registrar s) (packet_loss s)
    (timerRadioRequest s) (timerGatewayRequest s) (microbit_ID s)
    (activeRadioRequest s) (identity s) (doProperty s) (propString s)
    (propValue s) (doAccelerometer s) (doMagneticForce s) v
    (doDigitalRead s) (doAnalogRead s) (doCompass s) (doTemperature s)
    (doLightLevel s) (doCommands s) (runningTime s) (trace s).

Definition set_doDigitalRead (v : bool) (s : State) : State :=
  mkState (deviceMode s) (showDebug s) (doTelemetry s) (device_telemetry s)
    (device_property s) (device_log s) (device_registrar s) (packet_loss s)
    (timerRadioRequest s) (timerGatewayRequest s) (microbit_ID s)
    (activeRadioRequest s) (identity s) (doProperty s) (propString s)
    (propValue s) (doAccelerometer s) (doMagneticForce s) (doRotation s) v
    (doAnalogRead s) (doCompass s) (doTemperature s) (doLightLevel s)
    (doCommands s) (runningTime s) (trace s).

Definition set_doAnalogRead (v : bool) (s : State) : State :=
  mkState (deviceMode s) (showDebug s) (doTelemetry s) (device_telemetry s)
    (device_property s) (device_log s) (device_registrar s) (packet_loss s)
    (timerRadioRequest s) (timerGatewayRequest s) (microbit_ID s)
    (activeRadioRequest s) (identity s) (doProperty s) (propString s)
    (propValue s) (doAccelerometer s) (doMagneticForce s) (doRotation s)
    (doDigitalRead s) v (doCompass s) (doTemperature s) (doLightLevel s)
    (doCommands s) (runningTime s) (trace s).

Definition set_doCompass (v : bool) (s : State) : State :=
  mkState (deviceMode s) (showDebug s) (doTelemetry s) (device_telemetry s)
    (device_property s) (device_log s) (device_registrar s) (packet_loss s)
    (timerRadioRequest s) (timerGatewayRequest s) (microbit_ID s)
    (activeRadioRequest s) (identity s) (doProperty s) (propString s)
    (propValue s) (doAccelerometer s) (doMagneticForce s) (doRotation s)
    (doDigitalRead s) (doAnalogRead s) v (doTemperature s) (doLightLevel s)
    (doCommands s) (runningTime s) (trace s).

Definition set_doTemperature (v : bool) (s : State) : State :=
  mkState (deviceMode s) (showDebug s) (doTelemetry s) (device_telemetry s)
    (device_property s) (device_log s) (device_registrar s) (packet_loss s)
    (timerRadioRequest s) (timerGatewayRequest s) (microbit_ID s)
    (activeRadioRequest s) (identity s) (doProperty s) (propString s)
    (propValue s) (doAccelerometer s) (doMagneticForce s) (doRotation s)
    (doDigitalRead s) (doAnalogRead s) (doCompass s) v (doLightLevel s)
    (doCommands s) (runningTime s) (trace s).

Definition set_doLightLevel (v : bool) (s : State) : State :=
  mkState (deviceMode s) (showDebug s) (doTelemetry s) (device_telemetry s)
    (device_property s) (device_log s) (device_registrar s) (packet_loss s)
    (timerRadioRequest s) (timerGatewayRequest s) (microbit_ID s)
    (activeRadioRequest s) (identity s) (doProperty s) (propString s)
    (propValue s) (doAccelerometer s) (doMagneticForce s) (doRotation s)
    (doDigitalRead s) (doAnalogRead s) (doCompass s) (doTemperature s) v
    (doCommands s) (runningTime s) (trace s).

Definition set_doCommands (v : bool) (s : State) : State :=
  mkState (deviceMode s) (showDebug s) (doTelemetry s) (device_telemetry s)
    (device_property s) (device_log s) (device_registrar s) (packet_loss s)
    (timerRadioRequest s) (timerGatewayRequest s) (microbit_ID s)
    (activeRadioRequest s) (identity s) (doProperty s) (propString s)
    (propValue s) (doAccelerometer s) (doMagneticForce s) (doRotation s)
    (doDigitalRead s) (doAnalogRead s) (doCompass s) (doTemperature s)
    (doLightLevel s) v (runningTime s) (trace s).

Definition set_runningTime (v : Z) (s : State) : State :=
  mkState (deviceMode s) (showDebug s) (doTelemetry s) (device_telemetry s)
    (device_property s) (device_log s) (device_registrar s) (packet_loss s)
    (timerRadioRequest s) (timerGatewayRequest s) (microbit_ID s)
    (activeRadioRequest s) (identity s) (doProperty s) (propString s)
    (propValue s) (doAccelerometer s) (doMagneticForce s) (doRotation s)
    (doDigitalRead s) (doAnalogRead s) (doCompass s) (doTemperature s)
    (doLightLevel s) (doCommands s) v (trace s).

Definition set_trace (v : list Effect) (s : State) : State :=
  mkState (deviceMode s) (showDebug s) (doTelemetry s) (device_telemetry s)
    (device_property s) (device_log s) (device_registrar s) (packet_loss s)
    (timerRadioRequest s) (timerGatewayRequest s) (microbit_ID s)
    (activeRadioRequest s) (identity s) (doProperty s) (propString s)
    (propValue s) (doAccelerometer s) (doMagneticForce s) (doRotation s)
    (doDigitalRead s) (doAnalogRead s) (doCompass s) (doTemperature s)
    (doLightLevel s) (doCommands s) (runningTime s) v.

(** What the board and the run-time library supply: the serial number of
    the device, the sensor and pin readings (functions of the running time
    at which they are read), [randint] and [parseFloat]. *)
Record Platform : Type := mkPlatform {
  deviceSerialNumber : Z;
  parseFloat : string -> number;
  temperature : Z -> number;
  lightLevel : Z -> number;
  acceleration : Dimension -> Z -> number;
  magneticForce : Dimension -> Z -> number;
  rotation : Rotation -> Z -> number;
  digitalReadPin : Pin -> Z -> number;
  analogReadPin : Pin -> Z -> number;
  randint : Z -> Z -> Z -> number
}.

(** The properties of a received radio packet. *)
Record Packet : Type := mkPacket {
  SerialNumber : Z;
  Time : Z;
  SignalStrength : Z
}.

(* ================================================================== *)
(** ** The monad of handlers *)
(* ================================================================== *)

(** How a handler or a call ends when it does not return: a method called
    on [null] or [undefined] raises a [TypeError], [control.reset] restarts
    the device, and the loop of [registerDevice] may still be running when
    the rounds of it that a run follows are over. *)
Inductive Abort : Type := TypeError | DeviceReset | StillRunning.

Inductive Result (A : Type) : Type :=
| Done (a : A)
| Aborted (e : Abort).

Arguments Done {A} a.
Arguments Aborted {A} e.

Definition M (A : Type) : Type := State -> Result A * State.

Definition ret {A : Type} (a : A) : M A := fun s => (Done a, s).

Definition bind {A B : Type} (m : M A) (k : A -> M B) : M B :=
  fun s =>
    match m s with
    | (Done a, s') => k a s'
    | (Aborted e, s') => (Aborted e, s')
    end.

Definition throw {A : Type} (e : Abort) : M A := fun s => (Aborted e, s).

Definition get : M State := fun s => (Done s, s).

Definition gets {A : Type} (f : State -> A) : M A := fun s => (Done (f s), s).

Definition modify (f : State -> State) : M unit := fun s => (Done tt, f s).

Declare Scope monad_scope.
Delimit Scope monad_scope with monad.
Notation "x <- m ;; k" := (bind m (fun x => k))
  (at level 61, m at next level, right associativity) : monad_scope.
Notation "m ;; k" := (bind m (fun _ => k))
  (at level 61, right associativity) : monad_scope.
Local Open Scope monad_scope.

(** [if (b) { m }]. *)
Definition when (b : bool) (m : M unit) : M unit :=
  if b then m else ret tt.

(** [for (x of l) { f(x) }]. *)
Fixpoint forM_ {A : Type} (l : list A) (f : A -> M unit) : M unit :=
  match l with
  | [] => ret tt
  | x :: r => f x ;; forM_ r f
  end.

(** A method call on a value that may be [null] or [undefined]. *)
Definition deref {A : Type} (o : option A) : M A :=
  match o with
  | Some v => ret v
  | None => throw TypeError
  end.

(** The state and the result a computation ends with. *)
Definition exec {A : Type} (m : M A) (s : State) : State := snd (m s).
Definition result {A : Type} (m : M A) (s : State) : Result A := fst (m s).

Definition emit (e : Effect) : M unit :=
  modify (fun s => set_trace (trace s ++ [e])%list s).

(** [basic.pause(ms)]. *)
Definition pause (ms : Z) : M unit :=
  modify (fun s => set_runningTime (runningTime s + ms) s).

Definition is_gateway (m : Mode) : bool :=
  match m with Gateway => true | EndPoint => false end.

Definition is_endpoint (m : Mode) : bool :=
  match m with EndPoint => true | Gateway => false end.

Definition opt_eqb (o : option string) (s : string) : bool :=
  match o with
  | Some x => String.eqb x s
  | None => false
  end.

(* ================================================================== *)
(** ** The gateway: timers, diagnostics and the message assembler *)
(* ================================================================== *)

Definition init_telemetry : string := dq "{'topic':'telemetry'}".
Definition init_property : string := dq "{'topic':'property'}".
Definition init_log : string := dq "{'topic':'device_log'}".

(** [let delay = 20], assigned nowhere else. *)
Definition delay : Z := 20.

Section Program.

Variable hw : Platform.

(** [debug(s, v?)]. *)
Definition debug (s : string) (v : option number) : M unit :=
  mode <- gets deviceMode ;;
  when (is_gateway mode) (
    dbg <- gets showDebug ;;
    when dbg (
      let topic := dq "{'topic':'debug'," in
      let t1 := dq "'debug': '" ++ s in
      let v1 := match v with
                | Some n => " = " ++ show n ++ dq "'}"
                | None => dq "'}"
                end in
      emit (SerialWriteLine (topic ++ t1 ++ v1)) ;;
      pause 20)).

(** [t || d] for an optional timer argument: [undefined] and [0] give [d]. *)
Definition or_default (t : option Z) (d : Z) : Z :=
  match t with
  | Some x => if x =? 0 then d else x
  | None => d
  end.

Definition setTimerRadioRequest (t : option Z) : M unit :=
  mode <- gets deviceMode ;;
  when (is_gateway mode) (
    let v := or_default t 400 in
    modify (fun s => set_timerRadioRequest (runningTime s + v) s)).

Definition setTimerGatewayRequest (t : option Z) : M unit :=
  mode <- gets deviceMode ;;
  when (is_gateway mode) (
    let v := or_default t 250 in
    modify (fun s => set_timerGatewayRequest (runningTime s + v) s)).

(** The reopening step shared by the three assemblers: a text that
    includes a closing brace loses its last character and gets the
    separator. *)
Definition reopen (JSON : string) : string :=
  if includes JSON "}" then substr0 JSON (strlen JSON - 1) ++ "," else JSON.

(** The field [text:num] as it is appended: the key between double
    quotes, the colon, the number and the closing brace. *)
Definition field (text : string) (num : number) : string :=
  dq "'" ++ text ++ dq "'" ++ ":" ++ show num ++ "}".

(** The flush of a completed buffer to the serial line, between the
    [led.plot] and [led.unplot] of the device's column. *)
Definition flush (sn : Z) (JSON : string) : M unit :=
  i <- gets (fun s => indexOf (device_registrar s) sn) ;;
  emit (LedPlot (Int i) 4) ;;
  emit (SerialWriteLine JSON) ;;
  pause delay ;;
  emit (SerialWriteLine EmptyString) ;;
  pause delay ;;
  i <- gets (fun s => indexOf (device_registrar s) sn) ;;
  emit (LedUnplot (Int i) 4).

Definition gatewaySendProperty (sn : Z) (text : string) (num : number) : M unit :=
  mode <- gets deviceMode ;;
  when (is_gateway mode) (
    modify (fun s => set_microbit_ID (Int (indexOf (device_registrar s) sn)) s) ;;
    id <- gets microbit_ID ;;
    debug ("ID=" ++ show id ++ " sn=" ++ show_Z sn ++ " property(" ++ text ++ ","
           ++ show num ++ ")") None ;;
    slot <- gets (fun s => js_get (device_property s) (microbit_ID s)) ;;
    JSON <- deref slot ;;
    let JSON := reopen JSON in
    let JSON := JSON ++ field text num in
    JSON <- (if includes JSON "eom"
             then debug "eom property" None ;;
                  flush sn JSON ;;
                  ret init_property
             else ret JSON) ;;
    modify (fun s =>
      set_device_property (js_set (device_property s) (microbit_ID s) (Some JSON)) s)).

Definition gatewaySendLog (sn : Z) (text : string) (num : number) : M unit :=
  mode <- gets deviceMode ;;
  when (is_gateway mode) (
    modify (fun s => set_microbit_ID (Int (indexOf (device_registrar s) sn)) s) ;;
    id <- gets microbit_ID ;;
    debug ("ID=" ++ show id ++ " sn=" ++ show_Z sn ++ " log(" ++ text ++ ","
           ++ show num ++ ")") None ;;
    slot <- gets (fun s => js_get (device_log s) (microbit_ID s)) ;;
    JSON <- deref slot ;;
    let JSON := reopen JSON in
    let JSON := JSON ++ field text num in
    JSON <- (if includes JSON "eom"
             then debug "eom log" None ;;
                  flush sn JSON ;;
                  ret init_log
             else ret JSON) ;;
    modify (fun s =>
      set_device_log (js_set (device_log s) (microbit_ID s) (Some JSON)) s)).

Definition gatewaySendTelemetry (sn : Z) (text : string) (num : number) : M unit :=
  mode <- gets deviceMode ;;
  when (is_gateway mode) (
    modify (fun s => set_microbit_ID (Int (indexOf (device_registrar s) sn)) s) ;;
    id <- gets microbit_ID ;;
    debug ("ID=" ++ show id ++ " telemetry(" ++ text ++ "," ++ show num ++ ")") None ;;
    slot <- gets (fun s => js_get (device_telemetry s) (microbit_ID s)) ;;
    JSON <- deref slot ;;
    let JSON := reopen JSON in
    JSON <- (if includes JSON "id" || String.eqb text "id"
             then ret (JSON ++ field text num)
             else debug ("skipped: " ++ text ++ ":" ++ show num) None ;;
                  ret JSON) ;;
    JSON <- (if includes JSON "eom"
             then flush sn JSON ;;
                  ret init_telemetry
             else ret JSON) ;;
    modify (fun s =>
      set_device_telemetry (js_set (device_telemetry s) (microbit_ID s) (Some JSON)) s)).

(** A sensor or pin read at the current running time. *)
Definition reading (f : Z -> number) : M number :=
  gets (fun s => f (runningTime s)).

Definition gatewaySubmitTelemetry : M unit :=
  mode <- gets deviceMode ;;
  when (is_gateway mode) (
    tel <- gets doTelemetry ;;
    when tel (
      debug "submit gateway telemetry data" None ;;
      let sn := deviceSerialNumber hw in
      gatewaySendTelemetry sn "id" (Int 0) ;;
      gatewaySendTelemetry sn "sn" (Int sn) ;;
      (v <- reading Int ;; gatewaySendTelemetry sn "time" v) ;;
      (v <- gets packet_loss ;; gatewaySendTelemetry sn "packetLoss" (Int v)) ;;
      gatewaySendTelemetry sn "signal" (Int 100) ;;
      (b <- gets doTemperature ;;
       when b (v <- reading (temperature hw) ;; gatewaySendTelemetry sn "temperature" v)) ;;
      (b <- gets doLightLevel ;;
       when b (v <- reading (lightLevel hw) ;; gatewaySendTelemetry sn "lightLevel" v)) ;;
      (b <- gets doAccelerometer ;;
       when b (
         (v <- reading (acceleration hw DimX) ;; gatewaySendTelemetry sn "accelerometerX" v) ;;
         (v <- reading (acceleration hw DimY) ;; gatewaySendTelemetry sn "accelerometerY" v) ;;
         (v <- reading (acceleration hw DimZ) ;; gatewaySendTelemetry sn "accelerometerZ" v) ;;
         (v <- reading (acceleration hw Strength) ;;
          gatewaySendTelemetry sn "accelerometerS" v))) ;;
      (b <- gets doMagneticForce ;;
       when b (
         (v <- reading (magneticForce hw DimX) ;; gatewaySendTelemetry sn "magneticForceX" v) ;;
         (v <- reading (magneticForce hw DimY) ;; gatewaySendTelemetry sn "magneticForceY" v) ;;
         (v <- reading (magneticForce hw DimZ) ;; gatewaySendTelemetry sn "magneticForceZ" v) ;;
         (v <- reading (magneticForce hw Strength) ;;
          gatewaySendTelemetry sn "magneticForceS" v))) ;;
      (b <- gets doRotation ;;
       when b (
         (v <- reading (rotation hw Pitch) ;; gatewaySendTelemetry sn "rotationPitch" v) ;;
         (v <- reading (rotation hw Roll) ;; gatewaySendTelemetry sn "rotationRoll" v))) ;;
      (b <- gets doCompass ;;
       when b (gatewaySendTelemetry sn "compass" (Int 1))) ;;
      (b <- gets doDigitalRead ;;
       when b (
         (v <- reading (digitalReadPin hw P0) ;; gatewaySendTelemetry sn "digitalPinP0" v) ;;
         (v <- reading (digitalReadPin hw P1) ;; gatewaySendTelemetry sn "digitalPinP1" v) ;;
         (v <- reading (digitalReadPin hw P2) ;; gatewaySendTelemetry sn "digitalPinP2" v))) ;;
      (b <- gets doAnalogRead ;;
       when b (
         (v <- reading (analogReadPin hw P0) ;; gatewaySendTelemetry sn "analogPinP0" v) ;;
         (v <- reading (analogReadPin hw P1) ;; gatewaySendTelemetry sn "analogPinP1" v) ;;
         (v <- reading (analogReadPin hw P2) ;; gatewaySendTelemetry sn "analogPinP2" v))) ;;
      gatewaySendTelemetry sn "eom" (Int 1))).

(** [propString] and [propValue] are pushed and overwritten together by
    [addProperty] and by nothing else, so the loop over the indices of
    [propString] reads the two arrays pairwise. *)
Definition gatewaySubmitProperty : M unit :=
  mode <- gets deviceMode ;;
  when (is_gateway mode) (
    b <- gets (fun s => doProperty s && (alen (propString s) >? 0)) ;;
    when b (
      let sn := deviceSerialNumber hw in
      (id <- gets microbit_ID ;; gatewaySendProperty sn "id" id) ;;
      (props <- gets (fun s => combine (propString s) (propValue s)) ;;
       forM_ props (fun p => gatewaySendProperty sn (fst p) (snd p))) ;;
      gatewaySendProperty sn "eom" (Int 1))).

(* ------------------------------------------------------------------ *)
(** *** The polling scheduler *)

(** An array element passed where a number is expected: [undefined] is [NaN]. *)
Definition to_number (o : option Z) : number :=
  match o with
  | Some z => Int z
  | None => NaN
  end.

Definition request_next_mb : M unit :=
  mode <- gets deviceMode ;;
  when (is_gateway mode) (
    modify (fun s =>
      set_microbit_ID
        (num_rem (num_add (microbit_ID s) (Int 1)) (Int (alen (device_registrar s)))) s) ;;
    (id <- gets microbit_ID ;; debug "request next microbit" (Some id)) ;;
    slot <- gets (fun s => js_get (device_telemetry s) (microbit_ID s)) ;;
    match slot with
    | Some _ =>
        (id <- gets microbit_ID ;;
         when (num_eqb id (Int (-1))) (
           debug ("exception > device_telemetry[" ++ show id ++ "] = -1") None)) ;;
        (id <- gets microbit_ID ;;
         when (num_eqb id (Int 0)) (
           debug "request data from gateway" None ;;
           setTimerGatewayRequest None ;;
           gatewaySubmitTelemetry ;;
           gatewaySubmitProperty)) ;;
        (id <- gets microbit_ID ;;
         when (num_gtb id (Int 0)) (
           debug "request data from remote IoT microbit" None ;;
           (tok <- gets (fun s => js_get (map Some (device_registrar s)) (microbit_ID s)) ;;
            debug "send token" (option_map Int tok)) ;;
           setTimerRadioRequest None ;;
           modify (set_activeRadioRequest true) ;;
           (tok <- gets (fun s => js_get (map Some (device_registrar s)) (microbit_ID s)) ;;
            emit (RadioSendValue "token" (to_number tok)))))
    | None =>
        id <- gets microbit_ID ;;
        debug ("exception > device_telemetry[" ++ show id ++ "] = null") None
    end).

Definition runGatewayOrchestrator : M unit :=
  mode <- gets deviceMode ;;
  when (is_gateway mode) (
    (active <- gets activeRadioRequest ;;
     when active (
       elapsed <- gets (fun s => runningTime s >? timerRadioRequest s) ;;
       if elapsed
       then modify (fun s => set_packet_loss (packet_loss s + 1) s) ;;
            (v <- gets packet_loss ;; debug "packet_loss" (Some (Int v))) ;;
            request_next_mb
       else ret tt)) ;;
    (active <- gets activeRadioRequest ;;
     when (negb active) request_next_mb)).

(* ------------------------------------------------------------------ *)
(** *** The device registry *)

Definition delMicrobit (sn : Z) : M unit :=
  mode <- gets deviceMode ;;
  when (is_gateway mode) (
    debug "delMicrobit() > sn" (Some (Int sn)) ;;
    id <- gets (fun s => indexOf (device_registrar s) sn) ;;
    debug "delMicrobit() > id" (Some (Int id)) ;;
    when (id >=? 0) (
      slot <- gets (fun s => js_get (device_telemetry s) (Int id)) ;;
      match slot with
      | Some _ =>
          modify (fun s =>
            set_device_telemetry (js_set (device_telemetry s) (Int id) None) s) ;;
          emit (RadioSendString ("setId(-1," ++ show_Z sn ++ ")")) ;;
          debug "delMicrobit > radio.sendString > setId(-1,sn)" (Some (Int sn))
      | None => ret tt
      end)).

(** [a.push(x)]. *)
Definition push {A : Type} (a : list A) (x : A) : list A := (a ++ [x])%list.

Definition addMicrobit (sn : Z) : M unit :=
  mode <- gets deviceMode ;;
  when (is_gateway mode) (
    id <- gets (fun s => indexOf (device_registrar s) sn) ;;
    debug ("addMicrobit(" ++ show_Z sn ++ ")") None ;;
    debug "id" (Some (Int id)) ;;
    if id <? 0
    then
      debug "id < 0" None ;;
      modify (fun s => set_device_registrar (push (device_registrar s) sn) s) ;;
      modify (fun s => set_device_telemetry (push (device_telemetry s) (Some init_telemetry)) s) ;;
      modify (fun s => set_device_property (push (device_property s) (Some init_property)) s) ;;
      modify (fun s => set_device_log (push (device_log s) (Some init_log)) s) ;;
      (i <- gets (fun s => indexOf (device_registrar s) sn) ;;
       emit (RadioSendString ("setId(" ++ show_Z i ++ "," ++ show_Z sn ++ ")"))) ;;
      (i <- gets (fun s => indexOf (device_registrar s) sn) ;;
       debug ("setId(" ++ show_Z i ++ "," ++ show_Z sn ++ ")") None) ;;
      setTimerRadioRequest (Some 1000) ;;
      setTimerGatewayRequest (Some 1000)
    else
      debug "id >= 0" None).

Definition setDeviceMode (mode : Mode) : M unit :=
  match mode with
  | EndPoint =>
      modify (set_deviceMode EndPoint) ;;
      modify (set_identity (Int (-1)))
  | Gateway =>
      modify (set_deviceMode Gateway) ;;
      modify (set_identity (Int 0)) ;;
      addMicrobit (deviceSerialNumber hw)
  end.

Definition enableDebug (on : bool) : M unit := modify (set_showDebug on).

Definition sendTelemetry (b : bool) : M unit := modify (set_doTelemetry b).

Definition sendProperty (b : bool) : M unit := modify (set_doProperty b).

Definition sendAccelerometer (b : bool) : M unit := modify (set_doAccelerometer b).

Definition sendMagneticForce (b : bool) : M unit := modify (set_doMagneticForce b).

Definition sendRotation (b : bool) : M unit := modify (set_doRotation b).

Definition sendAnalogRead (b : bool) : M unit := modify (set_doAnalogRead b).

Definition sendDigitalRead (b : bool) : M unit := modify (set_doDigitalRead b).

Definition sendTemperature (b : bool) : M unit := modify (set_doTemperature b).

Definition sendLightLevel (b : bool) : M unit := modify (set_doLightLevel b).

Definition sendCompass (b : bool) : M unit := modify (set_doCompass b).

(** [addProperty(p, v)]: the reported properties, keys unique, last write wins. *)
Definition addProperty (p : string) (v : number) : M unit :=
  index <- gets (fun s => indexOf_str (propString s) p) ;;
  if index <? 0
  then modify (fun s => set_propString (push (propString s) p) s) ;;
       modify (fun s => set_propValue (push (propValue s) v) s)
  else modify (fun s => set_propString (replace_nth (propString s) (Z.to_nat index) p) s) ;;
       modify (fun s => set_propValue (replace_nth (propValue s) (Z.to_nat index) v) s).

(* ------------------------------------------------------------------ *)
(** *** The leaf side of the handshake *)

Definition leafSendTelemetry : M unit :=
  mode <- gets deviceMode ;;
  when (is_endpoint mode) (
    tel <- gets doTelemetry ;;
    when tel (
      let send (name : string) (v : number) : M unit :=
        emit (RadioSendValue name v) ;; pause delay in
      (i <- gets identity ;; send "id" i) ;;
      send "sn" (Int 0) ;;
      send "time" (Int 0) ;;
      send "packet" (Int 0) ;;
      send "signal" (Int 0) ;;
      (b <- gets doTemperature ;;
       when b (v <- reading (temperature hw) ;; send "temp" v)) ;;
      (b <- gets doLightLevel ;;
       when b (v <- reading (lightLevel hw) ;; send "light" v)) ;;
      (b <- gets doAccelerometer ;;
       when b (
         (v <- reading (acceleration hw DimX) ;; send "accX" v) ;;
         (v <- reading (acceleration hw DimY) ;; send "accY" v) ;;
         (v <- reading (acceleration hw DimZ) ;; send "accZ" v) ;;
         (v <- reading (acceleration hw Strength) ;; send "accS" v))) ;;
      (b <- gets doMagneticForce ;;
       when b (
         (v <- reading (magneticForce hw DimX) ;; send "magX" v) ;;
         (v <- reading (magneticForce hw DimY) ;; send "magY" v) ;;
         (v <- reading (magneticForce hw DimZ) ;; send "magZ" v) ;;
         (v <- reading (magneticForce hw Strength) ;; send "magS" v))) ;;
      (b <- gets doCompass ;;
       when b (send "comp" (Int 1))) ;;
      (b <- gets doDigitalRead ;;
       when b (
         (v <- reading (digitalReadPin hw P0) ;; send "dP0" v) ;;
         (v <- reading (digitalReadPin hw P1) ;; send "dP1" v) ;;
         (v <- reading (digitalReadPin hw P2) ;; send "dP2" v))) ;;
      (b <- gets doAnalogRead ;;
       when b (
         (v <- reading (analogReadPin hw P0) ;; send "aP0" v) ;;
         (v <- reading (analogReadPin hw P1) ;; send "aP1" v) ;;
         (v <- reading (analogReadPin hw P2) ;; send "aP2" v))))).

Definition leafSendProperty : M unit :=
  mode <- gets deviceMode ;;
  when (is_endpoint mode) (
    b <- gets doProperty ;;
    when b (
      props <- gets (fun s => combine (propString s) (propValue s)) ;;
      forM_ props (fun p => emit (RadioSendValue (fst p) (snd p)) ;; pause delay))).

Definition leafSendEndOfMessage : M unit :=
  mode <- gets deviceMode ;;
  when (is_endpoint mode) (
    emit (RadioSendValue "eom" (Int 1)) ;;
    pause delay).

(* ------------------------------------------------------------------ *)
(** *** The commands *)

Definition who : M unit :=
  i <- gets identity ;; emit (ShowNumber i).

Definition clear : M unit := emit ClearScreen.

Definition setAnalogPin (pin value : number) : M unit :=
  emit (ShowString "a") ;;
  when (num_eqb pin (Int 0)) (emit (AnalogWritePin P0 value)) ;;
  when (num_eqb pin (Int 1)) (emit (AnalogWritePin P1 value)) ;;
  when (num_eqb pin (Int 2)) (emit (AnalogWritePin P2 value)).

Definition setDigitalPin (pin value : number) : M unit :=
  emit (ShowString "d") ;;
  when (num_eqb pin (Int 0)) (emit (DigitalWritePin P0 value)) ;;
  when (num_eqb pin (Int 1)) (emit (DigitalWritePin P1 value)) ;;
  when (num_eqb pin (Int 2)) (emit (DigitalWritePin P2 value)).

(** [control.reset()] restarts the device: the handler ends there. *)
Definition setReset : M unit :=
  emit (ShowString "reset") ;;
  throw DeviceReset.

Definition setIcon (name : option string) : M unit :=
  if opt_eqb name "heart" then emit (ShowIcon Heart)
  else if opt_eqb name "happy" then emit (ShowIcon Happy)
  else if opt_eqb name "cls" then emit ClearScreen
  else if opt_eqb name "sad" then emit (ShowIcon Sad)
  else if opt_eqb name "random" then
    iconnumber <- reading (randint hw 0 2) ;;
    emit ClearScreen ;;
    pause 500 ;;
    if num_eqb iconnumber (Int 0) then emit (ShowIcon Chessboard)
    else if num_eqb iconnumber (Int 1) then emit (ShowIcon Square)
    else if num_eqb iconnumber (Int 2) then emit (ShowIcon Scissors)
    else ret tt
  else ret tt.

Definition setServo (value : number) : M unit :=
  emit (ShowString "s") ;;
  emit (ServoWritePin P0 value) ;;
  pause 1000 ;;
  emit ClearScreen.

(** The body of [setRGB] is commented out in the source. *)
Definition setRGB (r g b : number) : M unit := ret tt.

Definition setIdentity (i v : number) : M unit :=
  when (num_eqb v (Int (deviceSerialNumber hw))) (
    modify (set_identity i) ;;
    who).

(** The body of [setBrightness] is commented out in the source. *)
Definition setBrightness (value : number) : M unit := ret tt.

Definition setColor (color : option string) : M unit :=
  emit (ShowString "c").

(** [parseFloat(p)] for an argument that may be missing:
    [parseFloat(undefined)] is [NaN]. *)
Definition parseFloat_arg (p : option string) : number :=
  match p with
  | Some s => parseFloat hw s
  | None => NaN
  end.

Definition invokeCommands (cmd : string) (p1 p2 p3 : option string) : M unit :=
  modify (set_doCommands false) ;;
  when (String.eqb cmd "setId") (setIdentity (parseFloat_arg p1) (parseFloat_arg p2)) ;;
  when (String.eqb cmd "who") who ;;
  when (String.eqb cmd "clear") clear ;;
  when (String.eqb cmd "rgb")
    (setRGB (parseFloat_arg p1) (parseFloat_arg p2) (parseFloat_arg p3)) ;;
  when (String.eqb cmd "color") (setColor p1) ;;
  when (String.eqb cmd "icon") (setIcon p1) ;;
  when (String.eqb cmd "reset") setReset ;;
  when (String.eqb cmd "brightness") (setBrightness (parseFloat_arg p1)) ;;
  when (String.eqb cmd "servo") (setServo (parseFloat_arg p1)) ;;
  when (String.eqb cmd "digitalWrite")
    (setDigitalPin (parseFloat_arg p1) (parseFloat_arg p2)) ;;
  when (String.eqb cmd "analogWrite")
    (setAnalogPin (parseFloat_arg p1) (parseFloat_arg p2)).

(** The call [NAME(p1,p2,p3)] taken apart and dispatched; [call.split("(")[1]]
    is [undefined] when the text has no opening parenthesis, and the
    [split] called on it raises the [TypeError]. *)
Definition parseCall (call : string) : M unit :=
  let t1 := split "(" call in
  args <- deref (nth_error t1 1) ;;
  let t2 := split ")" args in
  let t3 := split "," (hd EmptyString t2) in
  let cmd := hd EmptyString t1 in
  let p1 := nth_error t3 0 in
  let p2 := nth_error t3 1 in
  let p3 := nth_error t3 2 in
  invokeCommands cmd p1 p2 p3.

Definition processC2D (s : string) : M unit :=
  when (negb (isEmpty s)) (
    let t0 := split ":" s in
    when (alen t0 =? 1) (parseCall s) ;;
    when (alen t0 =? 2) (
      id <- gets identity ;;
      when (num_eqb (parseFloat hw (hd EmptyString t0)) id) (
        parseCall (nth 1 t0 EmptyString)))).

(* ------------------------------------------------------------------ *)
(** *** Registration at the gateway, on the side of the leaf *)

(** The loop [while (identity < 0) { ... }] of [registerDevice].  Handlers
    run to completion, one at a time: none runs while the loop does, so
    nothing assigns [identity] between two tests of the loop.  [rounds]
    is the number of rounds the loop is followed for; if the test still
    holds then, the call has not returned. *)
Fixpoint register_loop (rounds : nat) : M unit :=
  id <- gets identity ;;
  if num_ltb id (Int 0)
  then match rounds with
       | O => throw StillRunning
       | S n =>
           emit (RadioSendValue "register" (Int (deviceSerialNumber hw))) ;;
           emit (LedToggle 2 2) ;;
           pause 200 ;;
           register_loop n
       end
  else ret tt.

Definition registerDevice (rounds : nat) : M unit :=
  emit ClearScreen ;;
  id <- gets identity ;;
  (if num_ltb id (Int 0)
   then register_loop rounds
   else emit (ShowString "already registered")) ;;
  emit ClearScreen ;;
  who.

Definition unregisterDevice : M unit :=
  emit ClearScreen ;;
  id <- gets identity ;;
  if num_geb id (Int 0)
  then emit (RadioSendValue "del" (Int (deviceSerialNumber hw))) ;;
       emit (LedToggle 2 2) ;;
       pause 1000
  else emit (ShowString "already deleted").

(* ------------------------------------------------------------------ *)
(** *** The event handlers *)

Definition onReceivedValue (name : string) (value : number) (pkt : Packet) : M unit :=
  (mode <- gets deviceMode ;;
   when (is_gateway mode) (
     debug ("radio.onReceivedValue(" ++ name ++ "," ++ show value ++ ")") None ;;
     setTimerRadioRequest None ;;
     let sn := SerialNumber pkt in
     debug "radio.onReceivedValue() > sn" (Some (Int sn)) ;;
     if String.eqb name "register" || String.eqb name "del"
     then
       if String.eqb name "register" then addMicrobit sn
       else if String.eqb name "del" then delMicrobit sn
       else ret tt
     else
       id <- gets (fun s => indexOf (device_registrar s) sn) ;;
       debug "radio.onReceivedValue() > id" (Some (Int id)) ;;
       emit (LedPlot (Int id) 3) ;;
       (if String.eqb name "id" then gatewaySendTelemetry sn "id" value
        else if String.eqb name "sn" then gatewaySendTelemetry sn "sn" (Int sn)
        else if String.eqb name "time" then gatewaySendTelemetry sn "time" (Int (Time pkt))
        else if String.eqb name "packet" then
          v <- gets packet_loss ;; gatewaySendTelemetry sn "packetLoss" (Int v)
        else if String.eqb name "signal" then
          gatewaySendTelemetry sn "signalStrength" (Int (SignalStrength pkt))
        else if String.eqb name "light" then gatewaySendTelemetry sn "lightLevel" value
        else if String.eqb name "accX" then gatewaySendTelemetry sn "accelerometerX" value
        else if String.eqb name "accY" then gatewaySendTelemetry sn "accelerometerY" value
        else if String.eqb name "accZ" then gatewaySendTelemetry sn "accelerometerZ" value
        else if String.eqb name "accS" then gatewaySendTelemetry sn "accelerometerS" value
        else if String.eqb name "magX" then gatewaySendTelemetry sn "magneticForceX" value
        else if String.eqb name "magY" then gatewaySendTelemetry sn "magneticForceY" value
        else if String.eqb name "magZ" then gatewaySendTelemetry sn "magneticForceZ" value
        else if String.eqb name "magS" then gatewaySendTelemetry sn "magneticForceS" value
        else if String.eqb name "rotP" then gatewaySendTelemetry sn "rotationPitch" value
        else if String.eqb name "rotR" then gatewaySendTelemetry sn "rotationRoll" value
        else if String.eqb name "comp" then gatewaySendTelemetry sn "compass" value
        else if String.eqb name "dP0" then gatewaySendTelemetry sn "digitalPinP0" value
        else if String.eqb name "dP1" then gatewaySendTelemetry sn "digitalPinP1" value
        else if String.eqb name "dP2" then gatewaySendTelemetry sn "digitalPinP2" value
        else if String.eqb name "aP0" then gatewaySendTelemetry sn "analogPinP0" value
        else if String.eqb name "aP1" then gatewaySendTelemetry sn "analogPinP1" value
        else if String.eqb name "aP2" then gatewaySendTelemetry sn "analogPinP2" value
        else if String.eqb name "temp" then gatewaySendTelemetry sn "temperature" value
        else if String.eqb name "eom" then
          gatewaySendTelemetry sn "eom" value ;;
          modify (set_activeRadioRequest false)
        else if String.eqb (substr0 name 2) "d:" then ret tt
        else gatewaySendProperty sn name value) ;;
       emit (LedUnplot (Int id) 3))) ;;
  (mode <- gets deviceMode ;;
   when (is_endpoint mode) (
     id <- gets identity ;;
     when (num_geb id (Int 0)) (
       when (String.eqb name "token" && num_eqb value (Int (deviceSerialNumber hw))) (
         leafSendTelemetry ;;
         leafSendProperty ;;
         leafSendEndOfMessage)))).

(** [serial.onDataReceived]: [serialRead] is the line read up to the delimiter. *)
Definition onDataReceived (serialRead : string) : M unit :=
  mode <- gets deviceMode ;;
  when (is_gateway mode) (
    debug ("serial.onDataReceived() > serialRead =" ++ serialRead) None ;;
    when (negb (isEmpty serialRead)) (
      let t0 := split ":" serialRead in
      when (alen t0 =? 1) (
        processC2D serialRead ;;
        emit (RadioSendString serialRead) ;;
        debug ("serial.onDataReceived() > radio.sendString(" ++ serialRead ++ ")") None) ;;
      when (alen t0 =? 2) (
        let t1 := split "," (hd EmptyString t0) in
        forM_ t1 (fun a =>
          let cmd := a ++ ":" ++ nth 1 t0 EmptyString in
          processC2D cmd ;;
          emit (RadioSendString cmd) ;;
          debug ("serial.onDataReceived() > radio.sendString(" ++ cmd ++ ")") None ;;
          pause 20)))).

Definition onReceivedString (receivedString : string) : M unit :=
  mode <- gets deviceMode ;;
  when (is_endpoint mode) (
    modify (set_doCommands true) ;;
    processC2D receivedString).

End Program.

(* ================================================================== *)
(** ** Initial state and a sample platform *)
(* ================================================================== *)

(** The values the namespace variables are initialised with. *)
Definition init_state : State :=
  {| deviceMode := Gateway; showDebug := true; doTelemetry := true;
     device_telemetry := []; device_property := []; device_log := [];
     device_registrar := []; packet_loss := 0;
     timerRadioRequest := 0; timerGatewayRequest := 0;
     microbit_ID := Int 0; activeRadioRequest := false;
     identity := Int (-1); doProperty := true;
     propString := []; propValue := [];
     doAccelerometer := true; doMagneticForce := true; doRotation := true;
     doDigitalRead := false; doAnalogRead := false; doCompass := false;
     doTemperature := true; doLightLevel := true;
     doCommands := true; runningTime := 0; trace := [] |}.

(** A platform to run the handlers on: serial number 100, sensors that read
    zero, and a [parseFloat] that reads decimal integers. *)
Definition parseFloat_decimal (s : string) : number :=
  match s with
  | EmptyString => NaN
  | _ => match NilZero.int_of_string s with
         | Some d => Int (Z.of_int d)
         | None => NaN
         end
  end.

Definition sample_platform : Platform :=
  {| deviceSerialNumber := 100;
     parseFloat := parseFloat_decimal;
     temperature := fun _ => Int 0;
     lightLevel := fun _ => Int 0;
     acceleration := fun _ _ => Int 0;
     magneticForce := fun _ _ => Int 0;
     rotation := fun _ _ => Int 0;
     digitalReadPin := fun _ _ => Int 0;
     analogReadPin := fun _ _ => Int 0;
     randint := fun lo _ _ => Int lo |}.

(** A gateway with two registered leaves (serial numbers 11 and 22), all
    buffers at their empty templates, diagnostics off. *)
Definition three_nodes : State :=
  set_showDebug false
    (set_trace []
      (exec (addMicrobit 22)
        (exec (addMicrobit 11)
          (exec (setDeviceMode sample_platform Gateway)
            (set_showDebug false init_state))))).

(* ================================================================== *)
(** ** Observations on traces and states *)
(* ================================================================== *)

(** A change of the running time and of the trace only. *)
Definition world (dt : Z) (evs : list Effect) (s : State) : State :=
  set_trace (trace s ++ evs)%list (set_runningTime (runningTime s + dt) s).

Definition is_radio (e : Effect) : bool :=
  match e with
  | RadioSendValue _ _ | RadioSendString _ => true
  | _ => false
  end.

(** What a trace sends on the radio. *)
Definition radio (tr : list Effect) : list Effect := filter is_radio tr.

(** The lines a trace writes on the serial line. *)
Fixpoint serial (tr : list Effect) : list string :=
  match tr with
  | [] => []
  | SerialWriteLine s :: r => s :: serial r
  | _ :: r => serial r
  end.

(** The line a call [debug(s, v)] writes. *)
Definition debug_line (s : string) (v : option number) : string :=
  dq "{'topic':'debug'," ++ (dq "'debug': '" ++ s) ++
  match v with
  | Some n => " = " ++ show n ++ dq "'}"
  | None => dq "'}"
  end.

(** Traces made of diagnostic records only. *)
Definition diagnostics (evs : list Effect) : Prop :=
  Forall (fun e => exists s v, e = SerialWriteLine (debug_line s v)) evs.

(** What a call of [debug] adds to the trace and to the running time. *)
Definition debug_out (st : State) (s : string) (v : option number) : list Effect :=
  if is_gateway (deviceMode st) && showDebug st
  then [SerialWriteLine (debug_line s v)] else [].

Definition debug_time (st : State) : Z :=
  if is_gateway (deviceMode st) && showDebug st then 20 else 0.

(** What one flush of the line [JSON] of the device in column [i] does. *)
Definition flush_out (i : Z) (JSON : string) : list Effect :=
  [LedPlot (Int i) 4; SerialWriteLine JSON; SerialWriteLine EmptyString;
   LedUnplot (Int i) 4].

(** The buffers of the three streams at the index [i]. *)
Definition buffers_at (s : State) (i : number)
  : option string * option string * option string :=
  (js_get (device_telemetry s) i, js_get (device_property s) i,
   js_get (device_log s) i).

(** The telemetry slot at an index is neither [null] nor [undefined]. *)
Definition live (s : State) (i : number) : bool :=
  match js_get (device_telemetry s) i with
  | Some _ => true
  | None => false
  end.

(** The four arrays of the registry have one length. *)
Definition registry_aligned (s : State) : Prop :=
  List.length (device_telemetry s) = List.length (device_registrar s) /\
  List.length (device_property s) = List.length (device_registrar s) /\
  List.length (device_log s) = List.length (device_registrar s).

(* ================================================================== *)
(** ** Relations between the state before and after a computation *)
(* ================================================================== *)

(** The state a computation ends in, normally or not, is related by [R] to
    the state it started in. *)
Definition respects (R : State -> State -> Prop) {A : Type} (m : M A) : Prop :=
  forall s, R s (exec m s).

(** A computation that ends normally from every state. *)
Definition total {A : Type} (m : M A) : Prop :=
  forall s, exists a, result m s = Done a.

(** A computation that returns from every state and sends [out], and
    nothing else, on the radio. *)
Definition broadcasts (m : M unit) (out : list Effect) : Prop :=
  forall s, result m s = Done tt /\ radio (trace (exec m s)) = (radio (trace s) ++ out)%list.

(** The loss counter does not go down. *)
Definition loss_le (s s' : State) : Prop := packet_loss s <= packet_loss s'.

(** A request in flight stays in flight. *)
Definition active_stays (s s' : State) : Prop :=
  activeRadioRequest s = true -> activeRadioRequest s' = true.

(** Nothing more is sent on the radio. *)
Definition radio_kept (s s' : State) : Prop := radio (trace s') = radio (trace s).

(** The registry stays aligned and the registered serial numbers keep
    their index. *)
Definition registry_kept (s s' : State) : Prop :=
  (registry_aligned s -> registry_aligned s') /\
  (forall sn, 0 <= indexOf (device_registrar s) sn ->
              indexOf (device_registrar s') sn = indexOf (device_registrar s) sn).

(** What an event named [name] of the sender [sn], other than a
    registration or a deactivation, may change: the buffers at the index
    of the sender, the poll cursor (to that index), and the in-flight flag
    (cleared, by the terminator key). *)
Definition stray_kept (sn : Z) (name : string) (s s' : State) : Prop :=
  device_registrar s' = device_registrar s /\
  (forall j, j <> Int (indexOf (device_registrar s) sn) ->
             buffers_at s' j = buffers_at s j) /\
  (microbit_ID s' = microbit_ID s \/
   microbit_ID s' = Int (indexOf (device_registrar s) sn)) /\
  (activeRadioRequest s' = activeRadioRequest s \/
   name = "eom" /\ activeRadioRequest s' = false).

(** What the local submission of the gateway [own] keeps: the mode, the
    registrar, the loss counter, the in-flight flag, what was sent on the
    radio, and, when the gateway is the entry 0 of the registry, the poll
    cursor at 0. *)
Definition local_kept (own : Z) (s s' : State) : Prop :=
  deviceMode s' = deviceMode s /\
  device_registrar s' = device_registrar s /\
  packet_loss s' = packet_loss s /\
  activeRadioRequest s' = activeRadioRequest s /\
  radio (trace s') = radio (trace s) /\
  (indexOf (device_registrar s) own = 0 -> microbit_ID s = Int 0 ->
   microbit_ID s' = Int 0).

(* ================================================================== *)
(** ** The message assembler as a function on texts *)
(* ================================================================== *)

(** The text of a telemetry buffer after [text:num] is appended to it. *)
Definition telemetry_step (buf text : string) (num : number) : string :=
  let JSON := reopen buf in
  if includes JSON "id" || String.eqb text "id" then JSON ++ field text num
  else JSON.

(** The text of a property or log buffer after [text:num] is appended. *)
Definition property_step (buf text : string) (num : number) : string :=
  reopen buf ++ field text num.

(** What a buffer holds after an append: its template if the text is
    flushed, the text otherwise. *)
Definition after_append (template JSON : string) : string :=
  if includes JSON "eom" then template else JSON.

(** The three streams of the assembler, with the array, the template, the
    append of the program and the text an append produces for each. *)
Inductive Stream : Type := Telemetry | Property | Log.

Definition buffers (k : Stream) (s : State) : list (option string) :=
  match k with
  | Telemetry => device_telemetry s
  | Property => device_property s
  | Log => device_log s
  end.

Definition template (k : Stream) : string :=
  match k with
  | Telemetry => init_telemetry
  | Property => init_property
  | Log => init_log
  end.

Definition append_to (k : Stream) : Z -> string -> number -> M unit :=
  match k with
  | Telemetry => gatewaySendTelemetry
  | Property => gatewaySendProperty
  | Log => gatewaySendLog
  end.

Definition appended (k : Stream) (buf text : string) (num : number) : string :=
  match k with
  | Telemetry => telemetry_step buf text num
  | Property | Log => property_step buf text num
  end.

Definition set_buffers (k : Stream) (a : list (option string)) (s : State) : State :=
  match k with
  | Telemetry => set_device_telemetry a s
  | Property => set_device_property a s
  | Log => set_device_log a s
  end.

(** The computation [m], run on [st], returns, leaves the text [buf'] in
    the buffer of the device [sn] for the stream [k], and adds to the trace
    diagnostic records followed by [out], and nothing else. *)
Definition ends_with (k : Stream) (sn : Z) (m : M unit) (st : State)
    (buf' : string) (out : list Effect) : Prop :=
  result m st = Done tt /\
  js_get (buffers k (exec m st)) (Int (indexOf (device_registrar st) sn)) = Some buf' /\
  exists d, diagnostics d /\ trace (exec m st) = (trace st ++ d ++ out)%list.

(** [m] takes the buffer of [sn] from [buf] to [buf'] with the output
    [out], on every gateway state where that buffer is live, and keeps the
    mode and the registrar. *)
Definition assembles (k : Stream) (sn : Z) (m : M unit) (buf buf' : string)
    (out : Z -> list Effect) : Prop :=
  forall st,
    deviceMode st = Gateway ->
    js_get (buffers k st) (Int (indexOf (device_registrar st) sn)) = Some buf ->
    deviceMode (exec m st) = Gateway /\
    device_registrar (exec m st) = device_registrar st /\
    ends_with k sn m st buf' (out (indexOf (device_registrar st) sn)).

(* ================================================================== *)
(** ** The scheduler and the command relay *)
(* ================================================================== *)

(** The poll cursor after the step of [request_next_mb]:
    [(microbit_ID + 1) % device_registrar.length]. *)
Definition next_cursor (s : State) : number :=
  num_rem (num_add (microbit_ID s) (Int 1)) (Int (alen (device_registrar s))).

(** The serial number the last token of a trace carries: the device a
    gateway with a request in flight awaits the reply of. *)
Fixpoint last_token (tr : list Effect) : option number :=
  match tr with
  | [] => None
  | RadioSendValue name v :: r =>
      match last_token r with
      | Some w => Some w
      | None => if String.eqb name "token" then Some v else None
      end
  | _ :: r => last_token r
  end.

(** A call [NAME(args)] the dispatcher runs to completion: it has an
    opening parenthesis and its name is not [reset]. *)
Definition call_ok (call : string) : bool :=
  (1 <? alen (split "(" call)) &&
  negb (String.eqb (hd EmptyString (split "(" call)) "reset").

(** A command whose call, if [processC2D] finds one to take apart, is such
    a call. *)
Definition command_ok (cmd : string) : bool :=
  (if alen (split ":" cmd) =? 1 then call_ok cmd else true) &&
  (if alen (split ":" cmd) =? 2 then call_ok (nth 1 (split ":" cmd) EmptyString)
   else true).

(** The commands a line with one [:] fans out to, one per address. *)
Definition fan_out (serialRead : string) : list string :=
  let t0 := split ":" serialRead in
  map (fun a => a ++ ":" ++ nth 1 t0 EmptyString) (split "," (hd EmptyString t0)).

(** The address [a] of a command, read as a number, is the identity of
    the node: [processC2D] executes the call of such a command. *)
Definition addressed_here (hw : Platform) (s : State) (a : string) : bool :=
  num_eqb (parseFloat hw a) (identity s).

(** The elements of a list before the first one that satisfies [p]. *)
Fixpoint before_first {A : Type} (p : A -> bool) (l : list A) : list A :=
  match l with
  | [] => []
  | x :: r => if p x then [] else x :: before_first p r
  end.

(** One round of the loop of the serial handler over the addresses of a
    line, for the address [a] and the call [call]. *)
Definition relay_one (hw : Platform) (call : string) (a : string) : M unit :=
  let cmd := a ++ ":" ++ call in
  processC2D hw cmd ;;
  emit (RadioSendString cmd) ;;
  debug ("serial.onDataReceived() > radio.sendString(" ++ cmd ++ ")") None ;;
  pause 20.

(* ================================================================== *)
(** ** Runs of the program *)
(* ================================================================== *)

(** What happens to the node: the events the run-time delivers to the
    three handlers of the program (a radio value, a radio text, a serial
    line), and the calls of the sixteen exported functions of the
    namespace [IoT].  [runGatewayOrchestrator] is the scheduler tick; a
    call of [registerDevice] is followed for a number of rounds of its
    loop. *)
Inductive Event : Type :=
| Tick
| RadioValue (name : string) (value : number) (pkt : Packet)
| RadioString (receivedString : string)
| SerialLine (serialRead : string)
| SetDeviceMode (mode : Mode)
| EnableDebug (on : bool)
| SendTelemetry (b : bool)
| SendProperty (b : bool)
| AddProperty (p : string) (v : number)
| SendAccelerometer (b : bool)
| SendMagneticForce (b : bool)
| SendRotation (b : bool)
| SendAnalogRead (b : bool)
| SendDigitalRead (b : bool)
| SendTemperature (b : bool)
| SendLightLevel (b : bool)
| SendCompass (b : bool)
| RegisterDevice (rounds : nat)
| UnregisterDevice.

Definition handle (hw : Platform) (ev : Event) : M unit :=
  match ev with
  | Tick => runGatewayOrchestrator hw
  | RadioValue name value pkt => onReceivedValue hw name value pkt
  | RadioString s => onReceivedString hw s
  | SerialLine s => onDataReceived hw s
  | SetDeviceMode mode => setDeviceMode hw mode
  | EnableDebug on => enableDebug on
  | SendTelemetry b => sendTelemetry b
  | SendProperty b => sendProperty b
  | AddProperty p v => addProperty p v
  | SendAccelerometer b => sendAccelerometer b
  | SendMagneticForce b => sendMagneticForce b
  | SendRotation b => sendRotation b
  | SendAnalogRead b => sendAnalogRead b
  | SendDigitalRead b => sendDigitalRead b
  | SendTemperature b => sendTemperature b
  | SendLightLevel b => sendLightLevel b
  | SendCompass b => sendCompass b
  | RegisterDevice rounds => registerDevice hw rounds
  | UnregisterDevice => unregisterDevice hw
  end.

(** A run of the program: the handlers and calls run to completion one
    after the other; one that does not return ends the run (a [TypeError]
    halts the program, [control.reset] restarts the device, and a call of
    [registerDevice] that has not returned lets nothing else run). *)
Fixpoint run_events (hw : Platform) (evs : list Event) (s : State) : State :=
  match evs with
  | [] => s
  | ev :: r =>
      match handle hw ev s with
      | (Done _, s') => run_events hw r s'
      | (Aborted _, s') => s'
      end
  end.

(* ================================================================== *)
(** ** Sample states *)
(* ================================================================== *)

(** The state [three_nodes] with the telemetry buffer of leaf 11 set. *)
Definition with_buffer_11 (buf : string) : State :=
  set_device_telemetry [Some init_telemetry; Some buf; Some init_telemetry] three_nodes.

(** The state [three_nodes] while the gateway awaits the reply of leaf 11,
    the entry 1 of the registry. *)
Definition polling_11 : State :=
  set_activeRadioRequest true (set_microbit_ID (Int 1) three_nodes).

(** The state [three_nodes] when the deadline of the request to leaf 11 has
    passed. *)
Definition overdue_11 : State := set_runningTime 2000 polling_11.

(** The state [overdue_11] with leaf 22, the entry after the polled one,
    deactivated. *)
Definition overdue_before_gap : State :=
  set_device_telemetry [Some init_telemetry; Some init_telemetry; None] overdue_11.

(** The gateway [three_nodes] has polled leaf 11 and its deadline has
    passed. *)
Definition awaiting_11 : State :=
  set_runningTime 2000 (run_events sample_platform [Tick] three_nodes).

(** The gateway [three_nodes] awaits the reply of leaf 22 when a value of
    leaf 11 arrives: leaf 11 has been polled and has closed its reply,
    leaf 22 has been polled, and the value of leaf 11 has moved the poll
    cursor back to the entry 1.  Then the deadline passes. *)
Definition stray_while_awaiting_22 : State :=
  set_runningTime 2000
    (run_events sample_platform
       [Tick; RadioValue "eom" (Int 1) (mkPacket 11 0 0); Tick;
        RadioValue "temp" (Int 21) (mkPacket 11 0 0)]
       three_nodes).

(* ================================================================== *)
(** ** Further observations: the registry over runs, the reported
       properties, the leaf side *)
(* ================================================================== *)

(** The registry is aligned and no serial number is registered twice. *)
Definition registry_ok (s : State) : Prop :=
  registry_aligned s /\ NoDup (device_registrar s).

(** The registry keeps its invariants and only grows at its end. *)
Definition registry_grows (s s' : State) : Prop :=
  (registry_aligned s -> registry_aligned s') /\
  (NoDup (device_registrar s) -> NoDup (device_registrar s')) /\
  exists ext, device_registrar s' = (device_registrar s ++ ext)%list.

(** [propValue[propString.indexOf(p)]]: the reported value of [p]. *)
Definition reported (s : State) (p : string) : option number :=
  let i := indexOf_str (propString s) p in
  if i <? 0 then None else nth_error (propValue s) (Z.to_nat i).

(** The reported properties are a map: one value per key, no key twice. *)
Definition properties_ok (s : State) : Prop :=
  List.length (propString s) = List.length (propValue s) /\ NoDup (propString s).

Definition properties_kept (s s' : State) : Prop :=
  properties_ok s -> properties_ok s'.

(** What a leaf sends for a list of named values. *)
Definition values_out (vals : list (string * number)) : list Effect :=
  map (fun p => RadioSendValue (fst p) (snd p)) vals.

(** Named values are sent while time passes, and nothing else happens. *)
Definition sends_values (s s' : State) : Prop :=
  exists dt vals, s' = world dt (values_out vals) s.

(** The command names whose call does something: [rgb] and [brightness]
    are dispatched to functions whose body is commented out. *)
Definition effective_commands : list string :=
  ["setId"; "who"; "clear"; "color"; "icon"; "reset"; "servo";
   "digitalWrite"; "analogWrite"].

Definition inert_command (cmd : string) : bool :=
  negb (existsb (String.eqb cmd) effective_commands).

(** What the execution of a command may change: the identity, the flag
    [doCommands], the display and the pins, while time passes.  Every other
    variable is as before and nothing goes to the radio or the serial line. *)
Definition command_kept (s s' : State) : Prop :=
  set_identity (identity s)
    (set_doCommands (doCommands s)
       (set_runningTime (runningTime s) (set_trace (trace s) s'))) = s /\
  radio (trace s') = radio (trace s) /\
  serial (trace s') = serial (trace s).

(** A leaf that has not been given an identity, and one with identity 1. *)
Definition fresh_leaf : State := exec (setDeviceMode sample_platform EndPoint) init_state.

Definition leaf_1 : State := set_identity (Int 1) fresh_leaf.

(** The character [c] occurs in the text [s]. *)
Fixpoint occurs (c : ascii) (s : string) : bool :=
  match s with
  | EmptyString => false
  | String x r => Ascii.eqb x c || occurs c r
  end.

(** A text free of the four characters the command parser splits at. *)
Definition plain (s : string) : bool :=
  negb (occurs ":" s || occurs "(" s || occurs ")" s || occurs "," s).

(** The sample platform with another serial number. *)
Definition sample_leaf (sn : Z) : Platform :=
  {| deviceSerialNumber := sn;
     parseFloat := parseFloat sample_platform;
     temperature := temperature sample_platform;
     lightLevel := lightLevel sample_platform;
     acceleration := acceleration sample_platform;
     magneticForce := magneticForce sample_platform;
     rotation := rotation sample_platform;
     digitalReadPin := digitalReadPin sample_platform;
     analogReadPin := analogReadPin sample_platform;
     randint := randint sample_platform |}.

(** Texts flushed to the serial line: each one, then an empty line. *)
Definition framed (msgs : list string) : list string :=
  flat_map (fun m => [m; EmptyString]) msgs.

(** With diagnostics off, they stay off and the serial line gets framed
    texts that include [eom], and nothing else. *)
Definition uplink_kept (s s' : State) : Prop :=
  showDebug s = false ->
  showDebug s' = false /\
  exists msgs,
    serial (trace s') = (serial (trace s) ++ framed msgs)%list /\
    Forall (fun m => includes m "eom" = true) msgs.

(** The events that do not switch the diagnostics on. *)
Definition keeps_diagnostics_off (ev : Event) : Prop := ev <> EnableDebug true.

(** The gateway can append for the device [sn]: the telemetry and the
    property slot at the index of [sn] are live. *)
Definition ready (sn : Z) (s : State) : Prop :=
  deviceMode s = Gateway /\
  js_get (device_telemetry s) (Int (indexOf (device_registrar s) sn)) <> None /\
  js_get (device_property s) (Int (indexOf (device_registrar s) sn)) <> None.

(** A computation that, on a gateway ready for [sn], returns and leaves
    it ready. *)
Definition safe (sn : Z) {A : Type} (m : M A) : Prop :=
  forall s, ready sn s -> exists a, result m s = Done a /\ ready sn (exec m s).

(** The gateway [own] is the entry 0 of the registry and the property
    slot of that entry is live. *)
Definition gateway_first (own : Z) (s : State) : Prop :=
  indexOf (device_registrar s) own = 0 /\
  js_get (device_property s) (Int 0) <> None.

Definition gateway_first_kept (own : Z) (s s' : State) : Prop :=
  gateway_first own s -> gateway_first own s'.

(** The loss counter is as before, and the in-flight flag is not raised. *)
Definition polling_kept (s s' : State) : Prop :=
  packet_loss s' = packet_loss s /\
  (activeRadioRequest s = false -> activeRadioRequest s' = false).

(** The mode of the node is as before. *)
Definition mode_kept (s s' : State) : Prop :=
  deviceMode s' = deviceMode s.

(** The gateway mode never set up: the initial values, and one leaf that
    has registered by radio. *)
Definition unset_gateway : State :=
  exec (onReceivedValue sample_platform "register" (Int 0) (mkPacket 11 0 0)) init_state.


(* ================================================================== *)
(** ** Arrays *)
(* ================================================================== *)

Lemma indexOf_lt (a : list Z) (x : Z) : -1 <= indexOf a x < alen a.
Proof.
  unfold alen. induction a as [|y r IH]; simpl indexOf.
  - simpl. lia.
  - rewrite length_cons. destruct (y =? x).
    + lia.
    + destruct (indexOf r x <? 0) eqn:E; [lia|].
      apply Z.ltb_ge in E. lia.
Qed.

Lemma indexOf_nth (a : list Z) (x : Z) :
  0 <= indexOf a x -> nth_error a (Z.to_nat (indexOf a x)) = Some x.
Proof.
  induction a as [|y r IH]; simpl indexOf.
  - lia.
  - destruct (y =? x) eqn:E.
    + apply Z.eqb_eq in E. subst. reflexivity.
    + destruct (indexOf r x <? 0) eqn:E'; [lia|].
      apply Z.ltb_ge in E'. intros _.
      replace (Z.to_nat (indexOf r x + 1)) with (S (Z.to_nat (indexOf r x))) by lia.
      simpl. auto.
Qed.

Lemma indexOf_app_old (a b : list Z) (x : Z) :
  0 <= indexOf a x -> indexOf (a ++ b) x = indexOf a x.
Proof.
  induction a as [|y r IH]; simpl.
  - lia.
  - destruct (y =? x); [reflexivity|].
    destruct (indexOf r x <? 0) eqn:E; [lia|].
    pose proof E as E'. apply Z.ltb_ge in E'. intros _.
    rewrite IH by assumption. rewrite E. reflexivity.
Qed.

Lemma indexOf_push_new (a : list Z) (x : Z) :
  indexOf a x = -1 -> indexOf (push a x) x = alen a.
Proof.
  unfold push, alen. induction a as [|y r IH]; simpl indexOf.
  - rewrite Z.eqb_refl. reflexivity.
  - rewrite length_cons. destruct (y =? x); [lia|].
    pose proof (indexOf_lt r x) as Hr.
    destruct (indexOf r x <? 0) eqn:E.
    + apply Z.ltb_lt in E. intros _. rewrite IH by lia.
      destruct (Z.of_nat (Datatypes.length r) <? 0) eqn:E2;
        [apply Z.ltb_lt in E2|]; lia.
    + lia.
Qed.

Lemma length_replace_nth {A : Type} (a : list A) (n : nat) (v : A) :
  List.length (replace_nth a n v) = List.length a.
Proof.
  revert n. induction a as [|x r IH]; intros [|n]; simpl; auto.
Qed.

Lemma nth_error_replace_nth {A : Type} (a : list A) (n m : nat) (v : A) :
  nth_error (replace_nth a n v) m =
  if Nat.eqb n m then option_map (fun _ => v) (nth_error a m) else nth_error a m.
Proof.
  revert n m. induction a as [|x r IH]; intros [|n] [|m]; simpl; auto.
  all: try (destruct (Nat.eqb n m); reflexivity).
Qed.

(** An assignment at an index that reads as an element keeps the length. *)
Lemma length_js_set_live {A : Type} (a : list (option A)) (i : number) (x : A) v :
  js_get a i = Some x -> List.length (js_set a i v) = List.length a.
Proof.
  unfold js_get, js_set, alen. destruct i as [z|]; [|discriminate].
  destruct (z <? 0) eqn:E; [discriminate|].
  destruct (nth_error a (Z.to_nat z)) eqn:En; [|discriminate].
  intros _. apply Z.ltb_ge in E.
  assert (Z.to_nat z < List.length a)%nat
    by (apply nth_error_Some; congruence).
  destruct (z <? Z.of_nat (Datatypes.length a)) eqn:E2.
  - apply length_replace_nth.
  - apply Z.ltb_ge in E2. lia.
Qed.

Lemma js_get_set_same {A : Type} (a : list (option A)) (i : number) (x : A) v :
  js_get a i = Some x -> js_get (js_set a i v) i = v.
Proof.
  unfold js_get, js_set, alen. destruct i as [z|]; [|discriminate].
  destruct (z <? 0) eqn:E; [discriminate|].
  destruct (nth_error a (Z.to_nat z)) as [o|] eqn:En; [|discriminate].
  intros _. apply Z.ltb_ge in E.
  assert (Z.to_nat z < List.length a)%nat
    by (apply nth_error_Some; congruence).
  destruct (z <? Z.of_nat (Datatypes.length a)) eqn:E2.
  - rewrite nth_error_replace_nth, Nat.eqb_refl, En. simpl. destruct v; reflexivity.
  - apply Z.ltb_ge in E2. lia.
Qed.

(** An assignment at one index leaves what the other indices read. *)
Lemma js_get_set_other {A : Type} (a : list (option A)) (i j : number) v :
  i <> j -> js_get (js_set a i v) j = js_get a j.
Proof.
  intros Hij. unfold js_get, js_set, alen.
  destruct i as [z|]; [|reflexivity].
  destruct j as [w|]; [|reflexivity].
  destruct (z <? 0) eqn:E; [reflexivity|].
  destruct (w <? 0) eqn:Ew; [reflexivity|].
  apply Z.ltb_ge in E, Ew.
  assert (Hn : Z.to_nat z <> Z.to_nat w) by (intro; apply Hij; f_equal; lia).
  destruct (z <? Z.of_nat (Datatypes.length a)) eqn:E2.
  - rewrite nth_error_replace_nth.
    destruct (Nat.eqb (Z.to_nat z) (Z.to_nat w)) eqn:E3; [|reflexivity].
    apply Nat.eqb_eq in E3. contradiction.
  - apply Z.ltb_ge in E2.
    destruct (Nat.lt_ge_cases (Z.to_nat w) (List.length a)) as [Hlt|Hge].
    + rewrite nth_error_app1 by assumption. reflexivity.
    + rewrite nth_error_app2 by assumption.
      rewrite (proj2 (nth_error_None a (Z.to_nat w))) by assumption.
      remember (Z.to_nat w - List.length a)%nat as k.
      remember (Z.to_nat z - List.length a)%nat as h.
      assert (Hk : k <> h) by lia.
      destruct (Nat.lt_ge_cases k h) as [Hkh|Hkh].
      * rewrite nth_error_app1 by (rewrite repeat_length; assumption).
        rewrite nth_error_repeat by assumption. reflexivity.
      * rewrite nth_error_app2 by (rewrite repeat_length; assumption).
        rewrite repeat_length.
        destruct (k - h)%nat as [|q] eqn:Eq; [lia|].
        simpl. destruct q; reflexivity.
Qed.

Lemma js_get_push_old {A : Type} (a : list (option A)) (i : number) v :
  i <> Int (alen a) -> js_get (push a v) i = js_get a i.
Proof.
  intros Hi. unfold js_get, push, alen in *. destruct i as [z|]; [|reflexivity].
  destruct (z <? 0) eqn:E; [reflexivity|]. apply Z.ltb_ge in E.
  destruct (Nat.lt_ge_cases (Z.to_nat z) (List.length a)) as [Hlt|Hge].
  - rewrite nth_error_app1 by assumption. reflexivity.
  - rewrite nth_error_app2 by assumption.
    rewrite (proj2 (nth_error_None a (Z.to_nat z))) by assumption.
    destruct (Z.to_nat z - List.length a)%nat as [|q] eqn:Eq.
    + exfalso. apply Hi. f_equal. lia.
    + simpl. destruct q; reflexivity.
Qed.

Lemma js_get_in_range {A : Type} (a : list (option A)) (z : Z) (x : A) :
  js_get a (Int z) = Some x -> 0 <= z < alen a.
Proof.
  unfold js_get, alen. destruct (z <? 0) eqn:E; [discriminate|].
  destruct (nth_error a (Z.to_nat z)) eqn:En; [|discriminate].
  intros _. apply Z.ltb_ge in E.
  assert (Z.to_nat z < List.length a)%nat by (apply nth_error_Some; congruence).
  lia.
Qed.

Lemma radio_app (a b : list Effect) : radio (a ++ b) = (radio a ++ radio b)%list.
Proof. apply filter_app. Qed.

Lemma diagnostics_app (a b : list Effect) :
  diagnostics a -> diagnostics b -> diagnostics (a ++ b).
Proof. unfold diagnostics. intros. apply Forall_app. auto. Qed.

Lemma diagnostics_nil : diagnostics [].
Proof. constructor. Qed.

Lemma diagnostics_radio (d : list Effect) : diagnostics d -> radio d = [].
Proof.
  induction 1 as [|e d [s [v He]] _ IH]; [reflexivity|].
  subst e. simpl. exact IH.
Qed.
(* ================================================================== *)
(** ** Relations kept by every step of a computation *)
(* ================================================================== *)

Section Frame.

Variable R : State -> State -> Prop.
Context {HR : PreOrder R}.

Lemma respects_ret {A : Type} (a : A) : respects R (ret a).
Proof. intro s. reflexivity. Qed.

Lemma respects_throw {A : Type} (e : Abort) : respects R (@throw A e).
Proof. intro s. reflexivity. Qed.

Lemma respects_gets {A : Type} (f : State -> A) : respects R (gets f).
Proof. intro s. reflexivity. Qed.

Lemma respects_get : respects R get.
Proof. intro s. reflexivity. Qed.

Lemma respects_deref {A : Type} (o : option A) : respects R (deref o).
Proof. destruct o; intro s; reflexivity. Qed.

Lemma respects_modify (f : State -> State) :
  (forall s, R s (f s)) -> respects R (modify f).
Proof. intros H s. apply H. Qed.

Lemma respects_bind {A B : Type} (m : M A) (k : A -> M B) :
  respects R m -> (forall a, respects R (k a)) -> respects R (bind m k).
Proof.
  intros Hm Hk s. specialize (Hm s). unfold exec, bind in *.
  destruct (m s) as [[a|e] s']; simpl in *.
  - etransitivity; [exact Hm | apply Hk].
  - exact Hm.
Qed.

Lemma respects_when (b : bool) (m : M unit) : respects R m -> respects R (when b m).
Proof. intros H. destruct b; [exact H | apply respects_ret]. Qed.

Lemma respects_forM_ {A : Type} (l : list A) (f : A -> M unit) :
  (forall a, respects R (f a)) -> respects R (forM_ l f).
Proof.
  intros H. induction l as [|x r IH]; simpl.
  - apply respects_ret.
  - apply respects_bind; auto.
Qed.

End Frame.

Create HintDb frame.

Ltac head_of t :=
  lazymatch t with
  | ?f _ => head_of f
  | _ => t
  end.

(** One step down the structure of a computation; a function of the
    program that no hint covers is unfolded. *)
Ltac frame_step :=
  cbv beta zeta;
  lazymatch goal with
  | |- respects _ (bind _ _) => apply respects_bind; [ exact _ | | intro ]
  | |- respects _ (ret _) => apply respects_ret; exact _
  | |- respects _ (throw _) => apply respects_throw; exact _
  | |- respects _ (gets _) => apply respects_gets; exact _
  | |- respects _ get => apply respects_get; exact _
  | |- respects _ (deref _) => apply respects_deref; exact _
  | |- respects _ (when _ _) => apply respects_when; [ exact _ | ]
  | |- respects _ (forM_ _ _) => apply respects_forM_; [ exact _ | intro ]
  | |- respects _ (modify _) => apply respects_modify; intro
  | |- respects _ (if ?b then _ else _) =>
      let E := fresh "E" in destruct b eqn:E
  | |- respects _ (match ?o with _ => _ end) => destruct o
  | |- respects _ (register_loop _ ?n) =>
      lazymatch goal with
      | _ : respects _ (register_loop _ _) |- _ => fail "the loop is open"
      | _ => generalize n; let m := fresh "n" in
             intro m; induction m; cbn [register_loop]
      end
  | |- respects _ ?m => let h := head_of m in unfold h
  end.

Ltac frame :=
  repeat first [ solve [auto with frame nocore] | frame_step ].


(** Setters and projections computed, innermost first. *)
Ltac setters :=
  cbv [world set_deviceMode set_showDebug set_doTelemetry set_device_telemetry set_device_property
       set_device_log set_device_registrar set_packet_loss set_timerRadioRequest set_timerGatewayRequest set_microbit_ID set_activeRadioRequest set_identity set_doProperty
       set_propString set_propValue set_doAccelerometer set_doMagneticForce set_doRotation set_doDigitalRead set_doAnalogRead
       set_doCompass set_doTemperature set_doLightLevel set_doCommands set_runningTime set_trace
       deviceMode showDebug doTelemetry device_telemetry device_property device_log device_registrar packet_loss
       timerRadioRequest timerGatewayRequest microbit_ID activeRadioRequest identity doProperty propString propValue
       doAccelerometer doMagneticForce doRotation doDigitalRead doAnalogRead doCompass doTemperature doLightLevel doCommands runningTime trace].

(** Projections of states built by setters, on a state left abstract. *)
Ltac fields :=
  cbn [world set_deviceMode set_showDebug set_doTelemetry set_device_telemetry set_device_property
       set_device_log set_device_registrar set_packet_loss set_timerRadioRequest set_timerGatewayRequest set_microbit_ID set_activeRadioRequest set_identity set_doProperty
       set_propString set_propValue set_doAccelerometer set_doMagneticForce set_doRotation set_doDigitalRead set_doAnalogRead
       set_doCompass set_doTemperature set_doLightLevel set_doCommands set_runningTime set_trace
       deviceMode showDebug doTelemetry device_telemetry device_property device_log device_registrar packet_loss
       timerRadioRequest timerGatewayRequest microbit_ID activeRadioRequest identity doProperty propString propValue
       doAccelerometer doMagneticForce doRotation doDigitalRead doAnalogRead doCompass doTemperature doLightLevel doCommands runningTime trace].


(* ================================================================== *)
(** ** Running the primitives *)
(* ================================================================== *)

Ltac assoc_trace :=
  repeat match goal with
         | |- context [((?t ++ ?a) ++ ?b)%list] =>
             is_var t; rewrite <- (app_assoc t a b)
         end;
  cbn [app].

Lemma diagnostics_one s v : diagnostics [SerialWriteLine (debug_line s v)].
Proof. constructor; [eauto | constructor]. Qed.

Lemma diagnostics_debug_out st s v : diagnostics (debug_out st s v).
Proof.
  unfold debug_out. destruct (_ && _);
    [apply diagnostics_one | apply diagnostics_nil].
Qed.

Lemma world_0 s : world 0 [] s = s.
Proof. destruct s. setters. rewrite app_nil_r, Z.add_0_r. reflexivity. Qed.

Lemma world_world d1 e1 d2 e2 s :
  world d2 e2 (world d1 e1 s) = world (d1 + d2) (e1 ++ e2) s.
Proof. destruct s. setters. rewrite app_assoc, Z.add_assoc. reflexivity. Qed.

Lemma debug_run s v st :
  debug s v st = (Done tt, world (debug_time st) (debug_out st s v) st).
Proof.
  unfold debug, debug_time, debug_out, bind, gets, when.
  destruct (deviceMode st); simpl.
  - rewrite world_0. reflexivity.
  - destruct (showDebug st); simpl.
    + reflexivity.
    + rewrite world_0; reflexivity.
Qed.

Lemma emit_run e st : emit e st = (Done tt, world 0 [e] st).
Proof. destruct st. unfold emit, modify. setters. do 3 f_equal. lia. Qed.

Lemma pause_run ms st : pause ms st = (Done tt, world ms [] st).
Proof.
  destruct st. unfold pause, modify. setters. do 3 f_equal.
  symmetry. apply app_nil_r.
Qed.

Lemma flush_run sn JSON st :
  flush sn JSON st =
  (Done tt, world 40 (flush_out (indexOf (device_registrar st) sn) JSON) st).
Proof.
  destruct st. unfold flush, flush_out, bind, gets, emit, pause, modify, delay.
  setters. assoc_trace. do 2 f_equal. lia.
Qed.

(** Symbolic execution of a computation on a state. *)
Ltac run :=
  repeat (cbv [bind gets modify ret when deref throw is_gateway is_endpoint negb];
          rewrite ?debug_run, ?flush_run, ?emit_run, ?pause_run).

(** The same, with the equation [H] (the mode of the device, as a rule)
    used wherever it applies. *)
Ltac run_with H := repeat progress (run; fields; rewrite ?H).

(** The same, with a tactic for the tests the run stops at. *)
Ltac run_using tac := repeat progress (run; fields; tac).

(** Two states built from one state by setters are equal. *)
Ltac state_eq :=
  lazymatch goal with
  | |- @eq State _ _ =>
      match goal with
      | st : State |- _ =>
          clear - st; destruct st; cbv [debug_time debug_out]; setters; assoc_trace;
          f_equal; rewrite <- ?app_assoc, ?app_nil_r; cbn [app];
          try lia; try reflexivity
      end
  end.

(* ================================================================== *)
(** ** The message assembler, one append at a time *)
(* ================================================================== *)

(** An append to the telemetry buffer of a registered device whose slot is
    live: it returns, moves [microbit_ID] to the index of the device,
    writes diagnostics and, if the text now includes [eom], the one flush
    of the whole text, and stores the template or the text. *)
Lemma gatewaySendTelemetry_live sn text num st buf :
  deviceMode st = Gateway ->
  js_get (device_telemetry st) (Int (indexOf (device_registrar st) sn)) = Some buf ->
  let i := indexOf (device_registrar st) sn in
  let JSON := telemetry_step buf text num in
  exists dt d, diagnostics d /\
  gatewaySendTelemetry sn text num st =
  (Done tt,
   set_device_telemetry
     (js_set (device_telemetry st) (Int i) (Some (after_append init_telemetry JSON)))
     (world dt (d ++ (if includes JSON "eom" then flush_out i JSON else []))
        (set_microbit_ID (Int i) st))).
Proof.
  intros Hg Hb i JSON. unfold gatewaySendTelemetry. run.
  rewrite Hg. run. fields. rewrite Hb. run.
  subst JSON i. unfold telemetry_step, after_append.
  set (m1 := "ID=" ++ _).
  destruct (includes (reopen buf) "id" || String.eqb text "id").
  - run. destruct (includes (reopen buf ++ field text num) "eom").
    + run. fields.
      exists (debug_time st + 40), (debug_out st m1 None).
      split; [apply diagnostics_debug_out|]. f_equal. state_eq.
    + run. fields.
      exists (debug_time st), (debug_out st m1 None).
      split; [apply diagnostics_debug_out|]. f_equal. state_eq.
  - run. set (m2 := "skipped: " ++ _).
    destruct (includes (reopen buf) "eom").
    + run. fields.
      exists (debug_time st + debug_time st + 40),
        (debug_out st m1 None ++ debug_out st m2 None)%list.
      split; [apply diagnostics_app; apply diagnostics_debug_out|]. f_equal. state_eq.
    + run. fields.
      exists (debug_time st + debug_time st),
        (debug_out st m1 None ++ debug_out st m2 None)%list.
      split; [apply diagnostics_app; apply diagnostics_debug_out|]. f_equal. state_eq.
Qed.

(** An append for a sender that is not registered, or whose slot is
    [null]: [JSON.includes] raises the [TypeError]; [microbit_ID] has moved
    and nothing else but diagnostics has happened. *)
Lemma gatewaySendTelemetry_null sn text num st :
  deviceMode st = Gateway ->
  js_get (device_telemetry st) (Int (indexOf (device_registrar st) sn)) = None ->
  exists dt d, diagnostics d /\
  gatewaySendTelemetry sn text num st =
  (Aborted TypeError,
   world dt d (set_microbit_ID (Int (indexOf (device_registrar st) sn)) st)).
Proof.
  intros Hg Hb. unfold gatewaySendTelemetry. run.
  rewrite Hg. run. fields. rewrite Hb. run.
  eexists _, _. split; [apply diagnostics_debug_out|]. reflexivity.
Qed.

Lemma gatewaySendProperty_live sn text num st buf :
  deviceMode st = Gateway ->
  js_get (device_property st) (Int (indexOf (device_registrar st) sn)) = Some buf ->
  let i := indexOf (device_registrar st) sn in
  let JSON := property_step buf text num in
  exists dt d, diagnostics d /\
  gatewaySendProperty sn text num st =
  (Done tt,
   set_device_property
     (js_set (device_property st) (Int i) (Some (after_append init_property JSON)))
     (world dt (d ++ (if includes JSON "eom" then flush_out i JSON else []))
        (set_microbit_ID (Int i) st))).
Proof.
  intros Hg Hb i JSON. unfold gatewaySendProperty. run.
  rewrite Hg. run. fields. rewrite Hb. run.
  subst JSON i. unfold property_step, after_append.
  set (m1 := "ID=" ++ _).
  destruct (includes (reopen buf ++ field text num) "eom").
  - run. fields.
    exists (debug_time st + debug_time st + 40),
      (debug_out st m1 None ++ debug_out st "eom property" None)%list.
    split; [apply diagnostics_app; apply diagnostics_debug_out|]. f_equal. state_eq.
  - run. fields.
    exists (debug_time st), (debug_out st m1 None).
    split; [apply diagnostics_debug_out|]. f_equal. state_eq.
Qed.

Lemma gatewaySendProperty_null sn text num st :
  deviceMode st = Gateway ->
  js_get (device_property st) (Int (indexOf (device_registrar st) sn)) = None ->
  exists dt d, diagnostics d /\
  gatewaySendProperty sn text num st =
  (Aborted TypeError,
   world dt d (set_microbit_ID (Int (indexOf (device_registrar st) sn)) st)).
Proof.
  intros Hg Hb. unfold gatewaySendProperty. run.
  rewrite Hg. run. fields. rewrite Hb. run.
  eexists _, _. split; [apply diagnostics_debug_out|]. reflexivity.
Qed.

Lemma gatewaySendLog_live sn text num st buf :
  deviceMode st = Gateway ->
  js_get (device_log st) (Int (indexOf (device_registrar st) sn)) = Some buf ->
  let i := indexOf (device_registrar st) sn in
  let JSON := property_step buf text num in
  exists dt d, diagnostics d /\
  gatewaySendLog sn text num st =
  (Done tt,
   set_device_log
     (js_set (device_log st) (Int i) (Some (after_append init_log JSON)))
     (world dt (d ++ (if includes JSON "eom" then flush_out i JSON else []))
        (set_microbit_ID (Int i) st))).
Proof.
  intros Hg Hb i JSON. unfold gatewaySendLog. run.
  rewrite Hg. run. fields. rewrite Hb. run.
  subst JSON i. unfold property_step, after_append.
  set (m1 := "ID=" ++ _).
  destruct (includes (reopen buf ++ field text num) "eom").
  - run. fields.
    exists (debug_time st + debug_time st + 40),
      (debug_out st m1 None ++ debug_out st "eom log" None)%list.
    split; [apply diagnostics_app; apply diagnostics_debug_out|]. f_equal. state_eq.
  - run. fields.
    exists (debug_time st), (debug_out st m1 None).
    split; [apply diagnostics_debug_out|]. f_equal. state_eq.
Qed.

Lemma gatewaySendLog_null sn text num st :
  deviceMode st = Gateway ->
  js_get (device_log st) (Int (indexOf (device_registrar st) sn)) = None ->
  exists dt d, diagnostics d /\
  gatewaySendLog sn text num st =
  (Aborted TypeError,
   world dt d (set_microbit_ID (Int (indexOf (device_registrar st) sn)) st)).
Proof.
  intros Hg Hb. unfold gatewaySendLog. run.
  rewrite Hg. run. fields. rewrite Hb. run.
  eexists _, _. split; [apply diagnostics_debug_out|]. reflexivity.
Qed.

(* ================================================================== *)
(** ** Strings *)
(* ================================================================== *)

Lemma includes_prefix (s sub : string) :
  String.prefix sub s = true -> includes s sub = true.
Proof. intros H. destruct s; cbn [includes]; rewrite H; reflexivity. Qed.

Lemma includes_app_right (a b sub : string) :
  includes b sub = true -> includes (a ++ b) sub = true.
Proof.
  intros H. induction a as [|c r IH].
  - exact H.
  - cbn [append includes]. rewrite IH. apply orb_true_r.
Qed.

(** The field of the terminator key includes [eom]. *)
Lemma field_eom (num : number) : includes (field "eom" num) "eom" = true.
Proof. reflexivity. Qed.

(* ================================================================== *)
(** ** What one append does, for the three streams alike *)
(* ================================================================== *)

Lemma append_summary (k : Stream) sn text num st buf :
  deviceMode st = Gateway ->
  js_get (buffers k st) (Int (indexOf (device_registrar st) sn)) = Some buf ->
  let i := indexOf (device_registrar st) sn in
  let JSON := appended k buf text num in
  let st' := exec (append_to k sn text num) st in
  result (append_to k sn text num) st = Done tt /\
  deviceMode st' = Gateway /\
  device_registrar st' = device_registrar st /\
  showDebug st' = showDebug st /\
  js_get (buffers k st') (Int i) = Some (after_append (template k) JSON) /\
  exists d, diagnostics d /\
    trace st' = (trace st ++ d ++ if includes JSON "eom" then flush_out i JSON else [])%list.
Proof.
  intros Hg Hb i JSON st'. subst st'. unfold result, exec.
  destruct k; cbn [buffers append_to appended template] in *.
  - destruct (gatewaySendTelemetry_live sn text num st buf Hg Hb) as (dt & d & Hd & E).
    rewrite E. cbn [fst snd]. fields.
    repeat split; auto.
    + apply (js_get_set_same _ _ buf). exact Hb.
    + exists d. split; [exact Hd | reflexivity].
  - destruct (gatewaySendProperty_live sn text num st buf Hg Hb) as (dt & d & Hd & E).
    rewrite E. cbn [fst snd]. fields.
    repeat split; auto.
    + apply (js_get_set_same _ _ buf). exact Hb.
    + exists d. split; [exact Hd | reflexivity].
  - destruct (gatewaySendLog_live sn text num st buf Hg Hb) as (dt & d & Hd & E).
    rewrite E. cbn [fst snd]. fields.
    repeat split; auto.
    + apply (js_get_set_same _ _ buf). exact Hb.
    + exists d. split; [exact Hd | reflexivity].
Qed.


Lemma bind_done {A B : Type} (m : M A) (k : A -> M B) (a : A) (st : State) :
  result m st = Done a ->
  result (bind m k) st = result (k a) (exec m st) /\
  exec (bind m k) st = exec (k a) (exec m st).
Proof.
  unfold result, exec, bind. destruct (m st) as [r s']. simpl.
  intros ->. split; reflexivity.
Qed.

Lemma assembles_one (k : Stream) sn text num buf buf' out :
  buf' = after_append (template k) (appended k buf text num) ->
  (forall i, out i = if includes (appended k buf text num) "eom"
                     then flush_out i (appended k buf text num) else []) ->
  assembles k sn (append_to k sn text num) buf buf' out.
Proof.
  intros -> Hout st Hg Hb.
  destruct (append_summary k sn text num st buf Hg Hb)
    as (Hr & Hm & Hreg & _ & Hbuf & d & Hd & Ht).
  repeat split; auto.
  exists d. split; [exact Hd|]. rewrite Hout. exact Ht.
Qed.

Lemma assembles_seq (k : Stream) sn m1 m2 b0 b1 b2 out :
  assembles k sn m1 b0 b1 (fun _ => []) ->
  assembles k sn m2 b1 b2 out ->
  assembles k sn (m1 ;; m2) b0 b2 out.
Proof.
  intros H1 H2 st Hg Hb.
  destruct (H1 st Hg Hb) as (Hm1 & Hreg1 & Hr1 & Hb1 & d1 & Hd1 & Ht1).
  rewrite <- Hreg1 in Hb1.
  destruct (H2 (exec m1 st) Hm1 Hb1) as (Hm2 & Hreg2 & Hr2 & Hb2 & d2 & Hd2 & Ht2).
  destruct (bind_done m1 (fun _ => m2) tt st Hr1) as [Er Ee].
  unfold ends_with. rewrite Er, Ee. rewrite Hreg1 in *.
  repeat split; auto.
  exists (d1 ++ d2)%list. split; [apply diagnostics_app; assumption|].
  rewrite Ht2, Ht1, app_nil_r, <- !app_assoc. reflexivity.
Qed.

Lemma assembles_ends (k : Stream) sn m buf buf' out st :
  assembles k sn m buf buf' out ->
  deviceMode st = Gateway ->
  js_get (buffers k st) (Int (indexOf (device_registrar st) sn)) = Some buf ->
  ends_with k sn m st buf' (out (indexOf (device_registrar st) sn)).
Proof. intros H Hg Hb. apply (H st Hg Hb). Qed.

(* ================================================================== *)
(** ** The device registry *)
(* ================================================================== *)

(** The registration of a new identity: the four arrays grow by one entry,
    the notification [setId(id,sn)] is sent and both timers are armed with
    the grace deadline. *)
Lemma addMicrobit_new sn st :
  deviceMode st = Gateway ->
  indexOf (device_registrar st) sn < 0 ->
  exists dt d1 d2, diagnostics d1 /\ diagnostics d2 /\
  addMicrobit sn st =
  (Done tt,
   set_timerGatewayRequest (runningTime st + dt + 1000)
     (set_timerRadioRequest (runningTime st + dt + 1000)
        (world dt
           (d1 ++ [RadioSendString
                     ("setId(" ++ show_Z (indexOf (push (device_registrar st) sn) sn)
                      ++ "," ++ show_Z sn ++ ")")] ++ d2)
           (set_device_log (push (device_log st) (Some init_log))
              (set_device_property (push (device_property st) (Some init_property))
                 (set_device_telemetry (push (device_telemetry st) (Some init_telemetry))
                    (set_device_registrar (push (device_registrar st) sn) st))))))).
Proof.
  intros Hg Hi. apply Z.ltb_lt in Hi. unfold addMicrobit, setTimerRadioRequest,
    setTimerGatewayRequest. run_with Hg. rewrite Hi. run_with Hg.
  set (m1 := "addMicrobit(" ++ _). set (m4 := "setId(" ++ _).
  exists (debug_time st + debug_time st + debug_time st + debug_time st),
    (debug_out st m1 None
     ++ debug_out st "id" (Some (Int (indexOf (device_registrar st) sn)))
     ++ debug_out st "id < 0" None)%list,
    (debug_out st m4 None).
  split; [repeat apply diagnostics_app; apply diagnostics_debug_out|].
  split; [apply diagnostics_debug_out|].
  f_equal. subst m1 m4. cbv [or_default Z.eqb].
  state_eq.
Qed.

(** The registration of a known identity changes nothing. *)
Lemma addMicrobit_known sn st :
  deviceMode st = Gateway ->
  0 <= indexOf (device_registrar st) sn ->
  exists dt d, diagnostics d /\ addMicrobit sn st = (Done tt, world dt d st).
Proof.
  intros Hg Hi. apply Z.ltb_ge in Hi. unfold addMicrobit. run. rewrite Hg. run.
  fields. rewrite Hi. run.
  eexists _, _. split; [|rewrite !world_world; reflexivity].
  repeat apply diagnostics_app; apply diagnostics_debug_out.
Qed.

Lemma addMicrobit_endpoint sn st :
  deviceMode st = EndPoint -> addMicrobit sn st = (Done tt, st).
Proof. intros Hg. unfold addMicrobit. run. rewrite Hg. reflexivity. Qed.

(** The deactivation of an active device: its telemetry slot becomes
    [null] and the notification [setId(-1,sn)] is sent. *)
Lemma delMicrobit_live sn st buf :
  deviceMode st = Gateway ->
  js_get (device_telemetry st) (Int (indexOf (device_registrar st) sn)) = Some buf ->
  exists dt d1 d2, diagnostics d1 /\ diagnostics d2 /\
  delMicrobit sn st =
  (Done tt,
   world dt (d1 ++ [RadioSendString ("setId(-1," ++ show_Z sn ++ ")")] ++ d2)
     (set_device_telemetry
        (js_set (device_telemetry st) (Int (indexOf (device_registrar st) sn)) None) st)).
Proof.
  intros Hg Hb.
  assert (Hi : (indexOf (device_registrar st) sn >=? 0) = true).
  { apply js_get_in_range in Hb. apply Z.geb_le. lia. }
  unfold delMicrobit. run_with Hg. rewrite Hi. run_with Hg. rewrite Hb. run_with Hg.
  exists (debug_time st + debug_time st + debug_time st),
    (debug_out st "delMicrobit() > sn" (Some (Int sn))
     ++ debug_out st "delMicrobit() > id"
          (Some (Int (indexOf (device_registrar st) sn))))%list,
    (debug_out st "delMicrobit > radio.sendString > setId(-1,sn)" (Some (Int sn))).
  split; [repeat apply diagnostics_app; apply diagnostics_debug_out|].
  split; [apply diagnostics_debug_out|].
  f_equal. state_eq.
Qed.

(** The deactivation of an unknown or inactive device changes nothing. *)
Lemma delMicrobit_idle sn st :
  deviceMode st = Gateway ->
  js_get (device_telemetry st) (Int (indexOf (device_registrar st) sn)) = None ->
  exists dt d, diagnostics d /\ delMicrobit sn st = (Done tt, world dt d st).
Proof.
  intros Hg Hb. unfold delMicrobit. run_with Hg.
  destruct (indexOf (device_registrar st) sn >=? 0).
  - run_with Hg. rewrite Hb.
    eexists _, _. split; [|rewrite !world_world; reflexivity].
    repeat apply diagnostics_app; apply diagnostics_debug_out.
  - eexists _, _. split; [|rewrite !world_world; reflexivity].
    repeat apply diagnostics_app; apply diagnostics_debug_out.
Qed.

Lemma delMicrobit_endpoint sn st :
  deviceMode st = EndPoint -> delMicrobit sn st = (Done tt, st).
Proof. intros Hg. unfold delMicrobit. run. rewrite Hg. reflexivity. Qed.

(** The three appends at once: what the state is afterwards. *)
Lemma append_cases (k : Stream) sn text num st :
  let i := Int (indexOf (device_registrar st) sn) in
  match deviceMode st with
  | EndPoint => append_to k sn text num st = (Done tt, st)
  | Gateway =>
      exists dt evs,
      match js_get (buffers k st) i with
      | None =>
          append_to k sn text num st =
          (Aborted TypeError, world dt evs (set_microbit_ID i st))
      | Some buf =>
          exists new,
          append_to k sn text num st =
          (Done tt,
           set_buffers k (js_set (buffers k st) i (Some new))
             (world dt evs (set_microbit_ID i st)))
      end
  end.
Proof.
  intros i. destruct (deviceMode st) eqn:Hg.
  - destruct k; cbn [append_to];
      [unfold gatewaySendTelemetry | unfold gatewaySendProperty | unfold gatewaySendLog];
      run; rewrite Hg; reflexivity.
  - destruct (js_get (buffers k st) i) as [buf|] eqn:Hb; subst i.
    + destruct k; cbn [append_to buffers set_buffers] in *.
      * destruct (gatewaySendTelemetry_live sn text num st buf Hg Hb) as (dt & d & _ & E).
        eexists dt, _, _. exact E.
      * destruct (gatewaySendProperty_live sn text num st buf Hg Hb) as (dt & d & _ & E).
        eexists dt, _, _. exact E.
      * destruct (gatewaySendLog_live sn text num st buf Hg Hb) as (dt & d & _ & E).
        eexists dt, _, _. exact E.
    + destruct k; cbn [append_to buffers set_buffers] in *.
      * destruct (gatewaySendTelemetry_null sn text num st Hg Hb) as (dt & d & _ & E).
        eexists dt, _. exact E.
      * destruct (gatewaySendProperty_null sn text num st Hg Hb) as (dt & d & _ & E).
        eexists dt, _. exact E.
      * destruct (gatewaySendLog_null sn text num st Hg Hb) as (dt & d & _ & E).
        eexists dt, _. exact E.
Qed.

(* ================================================================== *)
(** ** The registry stays aligned *)
(* ================================================================== *)

#[global] Instance registry_kept_preorder : PreOrder registry_kept.
Proof.
  split.
  - intros s. split; auto.
  - intros a b c [Hab Iab] [Hbc Ibc]. split; [auto|].
    intros sn Hsn. rewrite Ibc; rewrite Iab; auto.
Qed.

Lemma registry_kept_same s s' :
  device_registrar s' = device_registrar s ->
  List.length (device_telemetry s') = List.length (device_telemetry s) ->
  List.length (device_property s') = List.length (device_property s) ->
  List.length (device_log s') = List.length (device_log s) ->
  registry_kept s s'.
Proof.
  unfold registry_kept, registry_aligned. intros -> -> -> ->. auto.
Qed.

Lemma append_registry_kept (k : Stream) sn text num :
  respects registry_kept (append_to k sn text num).
Proof.
  intros st. unfold exec. pose proof (append_cases k sn text num st) as H.
  cbv zeta in H. destruct (deviceMode st).
  - rewrite H. reflexivity.
  - destruct H as (dt & evs & H).
    destruct (js_get (buffers k st) _) as [buf|] eqn:Hb.
    + destruct H as (new & ->). cbn [snd].
      pose proof (length_js_set_live _ _ _ (Some new) Hb) as Hl.
      destruct k; cbn [set_buffers buffers] in *;
        apply registry_kept_same; fields; auto.
    + rewrite H. cbn [snd]. apply registry_kept_same; reflexivity.
Qed.

Lemma gatewaySendTelemetry_registry_kept sn text num :
  respects registry_kept (gatewaySendTelemetry sn text num).
Proof. exact (append_registry_kept Telemetry sn text num). Qed.

Lemma gatewaySendProperty_registry_kept sn text num :
  respects registry_kept (gatewaySendProperty sn text num).
Proof. exact (append_registry_kept Property sn text num). Qed.

Lemma addMicrobit_registry_kept sn : respects registry_kept (addMicrobit sn).
Proof.
  intros st. unfold exec. destruct (deviceMode st) eqn:Hg.
  - rewrite addMicrobit_endpoint by assumption. reflexivity.
  - destruct (Z.lt_ge_cases (indexOf (device_registrar st) sn) 0) as [Hi|Hi].
    + destruct (addMicrobit_new sn st Hg Hi) as (dt & d1 & d2 & _ & _ & ->).
      cbn [snd]. split.
      * unfold registry_aligned, push. fields. rewrite !length_app. cbn [List.length].
        intros (H1 & H2 & H3). lia.
      * intros x Hx. fields. apply indexOf_app_old. exact Hx.
    + destruct (addMicrobit_known sn st Hg Hi) as (dt & d & _ & ->).
      cbn [snd]. apply registry_kept_same; reflexivity.
Qed.

Lemma delMicrobit_registry_kept sn : respects registry_kept (delMicrobit sn).
Proof.
  intros st. unfold exec. destruct (deviceMode st) eqn:Hg.
  - rewrite delMicrobit_endpoint by assumption. reflexivity.
  - destruct (js_get (device_telemetry st) (Int (indexOf (device_registrar st) sn)))
      as [buf|] eqn:Hb.
    + destruct (delMicrobit_live sn st buf Hg Hb) as (dt & d1 & d2 & _ & _ & ->).
      cbn [snd]. apply registry_kept_same; fields; auto.
      apply (length_js_set_live _ _ buf). exact Hb.
    + destruct (delMicrobit_idle sn st Hg Hb) as (dt & d & _ & ->).
      cbn [snd]. apply registry_kept_same; reflexivity.
Qed.

#[global] Hint Resolve gatewaySendTelemetry_registry_kept
  gatewaySendProperty_registry_kept addMicrobit_registry_kept
  delMicrobit_registry_kept : frame.

Section RegistryKept.

Variable hw : Platform.

Lemma onReceivedValue_registry_kept name value pkt :
  respects registry_kept (onReceivedValue hw name value pkt).
Proof.
  frame. all: apply registry_kept_same; reflexivity.
Qed.

End RegistryKept.

(* ================================================================== *)
(** ** What a radio event changes *)
(* ================================================================== *)

#[global] Instance stray_kept_preorder sn name : PreOrder (stray_kept sn name).
Proof.
  split.
  - intros s. unfold stray_kept. auto.
  - intros a b c (Hr & Hb & Hm & Ha) (Hr' & Hb' & Hm' & Ha').
    unfold stray_kept. rewrite Hr in *.
    split; [congruence|]. split; [|split].
    + intros j Hj. rewrite Hb', Hb by assumption. reflexivity.
    + destruct Hm' as [Hm'|Hm']; [rewrite Hm'; exact Hm | right; exact Hm'].
    + destruct Ha' as [Ha'|Ha']; [rewrite Ha'; exact Ha | right; exact Ha'].
Qed.

Lemma append_stray_kept (k : Stream) sn name text num :
  respects (stray_kept sn name) (append_to k sn text num).
Proof.
  intros st. unfold exec. pose proof (append_cases k sn text num st) as H.
  cbv zeta in H. destruct (deviceMode st).
  - rewrite H. reflexivity.
  - destruct H as (dt & evs & H).
    destruct (js_get (buffers k st) _) as [buf|] eqn:Hb.
    + destruct H as (new & ->). cbn [snd]. unfold stray_kept, buffers_at.
      destruct k; cbn [set_buffers buffers] in *; fields;
        (split; [reflexivity|]; split; [|auto]);
        intros j Hj; rewrite js_get_set_other by congruence; reflexivity.
    + rewrite H. cbn [snd]. unfold stray_kept, buffers_at. fields. auto.
Qed.

Lemma gatewaySendTelemetry_stray_kept sn name text num :
  respects (stray_kept sn name) (gatewaySendTelemetry sn text num).
Proof. exact (append_stray_kept Telemetry sn name text num). Qed.

Lemma gatewaySendProperty_stray_kept sn name text num :
  respects (stray_kept sn name) (gatewaySendProperty sn text num).
Proof. exact (append_stray_kept Property sn name text num). Qed.

#[global] Hint Resolve gatewaySendTelemetry_stray_kept
  gatewaySendProperty_stray_kept : frame.

Section Stray.

Variable hw : Platform.

(** An event that is neither a registration nor a deactivation. *)
Lemma onReceivedValue_stray_kept name value pkt :
  String.eqb name "register" || String.eqb name "del" = false ->
  respects (stray_kept (SerialNumber pkt) name) (onReceivedValue hw name value pkt).
Proof.
  intros Hn. unfold onReceivedValue. rewrite Hn. frame.
  all: unfold stray_kept, buffers_at; fields; repeat split; auto.
  right. split; [apply String.eqb_eq; assumption | reflexivity].
Qed.

End Stray.

Section StrayRegistry.

Variable hw : Platform.

Lemma addMicrobit_total sn st :
  deviceMode st = Gateway ->
  addMicrobit sn st = (Done tt, exec (addMicrobit sn) st) /\
  deviceMode (exec (addMicrobit sn) st) = Gateway.
Proof.
  intros Hg. unfold exec.
  destruct (Z.lt_ge_cases (indexOf (device_registrar st) sn) 0) as [Hi|Hi].
  - destruct (addMicrobit_new sn st Hg Hi) as (dt & d1 & d2 & _ & _ & ->).
    split; [reflexivity | exact Hg].
  - destruct (addMicrobit_known sn st Hg Hi) as (dt & d & _ & ->).
    split; [reflexivity | exact Hg].
Qed.

Lemma delMicrobit_total sn st :
  deviceMode st = Gateway ->
  delMicrobit sn st = (Done tt, exec (delMicrobit sn) st) /\
  deviceMode (exec (delMicrobit sn) st) = Gateway.
Proof.
  intros Hg. unfold exec.
  destruct (js_get (device_telemetry st) (Int (indexOf (device_registrar st) sn)))
    as [buf|] eqn:Hb.
  - destruct (delMicrobit_live sn st buf Hg Hb) as (dt & d1 & d2 & _ & _ & ->).
    split; [reflexivity | exact Hg].
  - destruct (delMicrobit_idle sn st Hg Hb) as (dt & d & _ & ->).
    split; [reflexivity | exact Hg].
Qed.

(** A registration event: the deadline is re-armed, then [addMicrobit]. *)
Lemma onReceivedValue_register name value pkt st :
  String.eqb name "register" = true ->
  deviceMode st = Gateway ->
  exists T dt d, diagnostics d /\
  onReceivedValue hw name value pkt st =
  (Done tt,
   exec (addMicrobit (SerialNumber pkt)) (set_timerRadioRequest T (world dt d st))).
Proof.
  intros Hn Hg. unfold onReceivedValue, setTimerRadioRequest.
  rewrite Hn. cbn [orb]. run_with Hg.
  match goal with |- context [addMicrobit ?sn ?s] => set (s1 := s) end.
  assert (Hg1 : deviceMode s1 = Gateway) by exact Hg.
  destruct (addMicrobit_total (SerialNumber pkt) s1 Hg1) as [E Hg2].
  rewrite E. run. rewrite Hg2.
  set (m1 := "radio.onReceivedValue(" ++ _) in *.
  exists (runningTime st + debug_time st + 400), (debug_time st + debug_time st),
    (debug_out st m1 None
     ++ debug_out st "radio.onReceivedValue() > sn" (Some (Int (SerialNumber pkt))))%list.
  split; [apply diagnostics_app; apply diagnostics_debug_out|].
  do 2 f_equal. subst s1. cbv [or_default]. state_eq.
Qed.

(** A deactivation event: the deadline is re-armed, then [delMicrobit]. *)
Lemma onReceivedValue_del name value pkt st :
  String.eqb name "register" = false ->
  String.eqb name "del" = true ->
  deviceMode st = Gateway ->
  exists T dt d, diagnostics d /\
  onReceivedValue hw name value pkt st =
  (Done tt,
   exec (delMicrobit (SerialNumber pkt)) (set_timerRadioRequest T (world dt d st))).
Proof.
  intros Hn Hn' Hg. unfold onReceivedValue, setTimerRadioRequest.
  rewrite Hn, Hn'. cbn [orb]. run_with Hg.
  match goal with |- context [delMicrobit ?sn ?s] => set (s1 := s) end.
  assert (Hg1 : deviceMode s1 = Gateway) by exact Hg.
  destruct (delMicrobit_total (SerialNumber pkt) s1 Hg1) as [E Hg2].
  rewrite E. run. rewrite Hg2.
  set (m1 := "radio.onReceivedValue(" ++ _) in *.
  exists (runningTime st + debug_time st + 400), (debug_time st + debug_time st),
    (debug_out st m1 None
     ++ debug_out st "radio.onReceivedValue() > sn" (Some (Int (SerialNumber pkt))))%list.
  split; [apply diagnostics_app; apply diagnostics_debug_out|].
  do 2 f_equal. subst s1. cbv [or_default]. state_eq.
Qed.

End StrayRegistry.

(* ================================================================== *)
(** ** The polling scheduler *)
(* ================================================================== *)

#[global] Instance loss_le_preorder : PreOrder loss_le.
Proof.
  split; unfold loss_le.
  - intros s. lia.
  - intros a b c. lia.
Qed.

#[global] Instance active_stays_preorder : PreOrder active_stays.
Proof. split; unfold active_stays; auto. Qed.

#[global] Instance local_kept_preorder own : PreOrder (local_kept own).
Proof.
  split.
  - intros s. unfold local_kept. auto 10.
  - intros a b c (M1 & R1 & L1 & A1 & T1 & C1) (M2 & R2 & L2 & A2 & T2 & C2).
    unfold local_kept. rewrite R1 in *.
    repeat split; try congruence. auto.
Qed.

Lemma radio_snoc_quiet (tr : list Effect) (e : Effect) :
  is_radio e = false -> radio (tr ++ [e]) = radio tr.
Proof. intros H. rewrite radio_app. simpl. rewrite H. apply app_nil_r. Qed.

Lemma last_token_snoc (tr : list Effect) (v : number) :
  last_token (tr ++ [RadioSendValue "token" v]) = Some v.
Proof.
  induction tr as [|e tr IH]; [reflexivity|].
  destruct e; cbn [app last_token]; try exact IH. rewrite IH. reflexivity.
Qed.

Section Scheduler.

Variable hw : Platform.

Lemma handle_loss_le ev : respects loss_le (handle hw ev).
Proof.
  destruct ev; cbn [handle]; frame.
  all: unfold loss_le; fields; lia.
Qed.

Lemma request_next_mb_active_stays : respects active_stays (request_next_mb hw).
Proof.
  frame. all: unfold active_stays; fields; auto.
Qed.

Lemma local_submission_kept :
  respects (local_kept (deviceSerialNumber hw))
    (gatewaySubmitTelemetry hw ;; gatewaySubmitProperty hw).
Proof.
  frame.
  all: unfold local_kept; fields; repeat split; auto.
  all: try (apply radio_snoc_quiet; reflexivity).
  all: intros H0 _; rewrite H0; reflexivity.
Qed.

End Scheduler.

Section SchedulerRuns.

Variable hw : Platform.

(** The request step onto a slot that is [null] or [undefined]. *)
Lemma request_next_mb_null st :
  deviceMode st = Gateway ->
  js_get (device_telemetry st) (next_cursor st) = None ->
  exists dt d, diagnostics d /\
  request_next_mb hw st = (Done tt, world dt d (set_microbit_ID (next_cursor st) st)).
Proof.
  intros Hg Hn. unfold next_cursor in *. unfold request_next_mb. run_with Hg.
  rewrite Hn. run_with Hg.
  eexists _, _. split; [|rewrite !world_world; reflexivity].
  apply diagnostics_app; apply diagnostics_debug_out.
Qed.

(** The request step onto a live remote entry: the token of that entry is
    broadcast, the deadline armed and the in-flight flag set. *)
Lemma request_next_mb_remote st z buf :
  deviceMode st = Gateway ->
  next_cursor st = Int z ->
  0 < z ->
  js_get (device_telemetry st) (Int z) = Some buf ->
  exists T dt d, diagnostics d /\
  request_next_mb hw st =
  (Done tt,
   set_activeRadioRequest true
     (set_timerRadioRequest T
        (world dt
           (d ++ [RadioSendValue "token"
                    (to_number (js_get (map Some (device_registrar st)) (Int z)))])
           (set_microbit_ID (Int z) st)))).
Proof.
  intros Hg Hc Hz Hb. unfold next_cursor in *.
  assert (E1 : (z =? -1) = false) by (apply Z.eqb_neq; lia).
  assert (E2 : (z =? 0) = false) by (apply Z.eqb_neq; lia).
  assert (E3 : (z >? 0) = true) by (apply Z.gtb_lt; lia).
  unfold request_next_mb, setTimerRadioRequest.
  run_using ltac:(cbn [num_eqb num_gtb]; rewrite ?Hg, ?Hc, ?Hb, ?E1, ?E2, ?E3).
  exists (runningTime st + debug_time st + debug_time st + debug_time st + 400),
    (debug_time st + debug_time st + debug_time st),
    (debug_out st "request next microbit" (Some (Int z))
     ++ debug_out st "request data from remote IoT microbit" None
     ++ debug_out st "send token"
          (option_map Int (js_get (map Some (device_registrar st)) (Int z))))%list.
  split; [repeat apply diagnostics_app; apply diagnostics_debug_out|].
  f_equal. cbv [or_default]. state_eq.
Qed.

(** The request step onto the entry 0, live, of a registry whose entry 0
    is the gateway: the local submission, and nothing after it. *)
Lemma request_next_mb_local st buf :
  deviceMode st = Gateway ->
  next_cursor st = Int 0 ->
  js_get (device_telemetry st) (Int 0) = Some buf ->
  indexOf (device_registrar st) (deviceSerialNumber hw) = 0 ->
  exists T dt d, diagnostics d /\
  let s1 := set_timerGatewayRequest T (world dt d (set_microbit_ID (Int 0) st)) in
  exec (request_next_mb hw) st =
  exec (gatewaySubmitTelemetry hw ;; gatewaySubmitProperty hw) s1.
Proof.
  intros Hg Hc Hb H0. unfold next_cursor in *. unfold exec at 1.
  unfold request_next_mb, setTimerGatewayRequest.
  run_using ltac:(cbn [num_eqb num_gtb Z.eqb]; rewrite ?Hg, ?Hc, ?Hb).
  exists (runningTime st + debug_time st + debug_time st + 250),
    (debug_time st + debug_time st),
    (debug_out st "request next microbit" (Some (Int 0))
     ++ debug_out st "request data from gateway" None)%list.
  split; [apply diagnostics_app; apply diagnostics_debug_out|].
  cbv zeta.
  match goal with
  | |- context [gatewaySubmitTelemetry hw ?s] => set (s0 := s)
  end.
  set (s1 := set_timerGatewayRequest _ _).
  assert (Es : s0 = s1) by (subst s0 s1; cbv [or_default]; state_eq).
  rewrite Es. clear s0 Es.
  assert (Hm1 : microbit_ID s1 = Int 0) by reflexivity.
  assert (Hr1 : indexOf (device_registrar s1) (deviceSerialNumber hw) = 0) by exact H0.
  clearbody s1.
  pose proof (local_submission_kept hw s1) as (_ & _ & _ & _ & _ & Hk).
  specialize (Hk Hr1 Hm1). unfold exec in *. cbv [bind] in Hk |- *.
  destruct (gatewaySubmitTelemetry hw s1) as [[[]|e] s2]; [|reflexivity].
  destruct (gatewaySubmitProperty hw s2) as [[[]|e] s3]; [|reflexivity].
  cbn [snd] in Hk. rewrite Hk. reflexivity.
Qed.

(** A tick that finds a request in flight and its deadline passed counts
    one loss and performs one request step, and no second one. *)
Lemma tick_timeout st :
  deviceMode st = Gateway ->
  activeRadioRequest st = true ->
  timerRadioRequest st < runningTime st ->
  exists (dt : Z) (d : list Effect), diagnostics d /\
  runGatewayOrchestrator hw st =
  request_next_mb hw (world dt d (set_packet_loss (packet_loss st + 1) st)).
Proof.
  intros Hg Ha He. apply Z.gtb_lt in He.
  unfold runGatewayOrchestrator.
  run_using ltac:(rewrite ?Hg, ?Ha, ?He).
  match goal with
  | |- context [request_next_mb hw ?s] => set (s0 := s)
  end.
  exists (debug_time st),
    (debug_out st "packet_loss" (Some (Int (packet_loss st + 1)))).
  split; [apply diagnostics_debug_out|].
  change (world _ _ (set_packet_loss _ st)) with s0.
  pose proof (request_next_mb_active_stays hw s0 Ha) as Hk. unfold exec in Hk.
  destruct (request_next_mb hw s0) as [[[]|e] s1]; [|reflexivity].
  cbn [snd] in Hk. rewrite Hk. reflexivity.
Qed.

(** A tick that finds no request in flight performs one request step. *)
Lemma tick_idle st :
  deviceMode st = Gateway ->
  activeRadioRequest st = false ->
  runGatewayOrchestrator hw st = request_next_mb hw st.
Proof.
  intros Hg Ha. unfold runGatewayOrchestrator.
  run_using ltac:(rewrite ?Hg, ?Ha).
  destruct (request_next_mb hw st) as [[[]|e] s1]; reflexivity.
Qed.

End SchedulerRuns.

(* ================================================================== *)
(** ** The uplink command relay *)
(* ================================================================== *)

#[global] Instance radio_kept_preorder : PreOrder radio_kept.
Proof.
  split; unfold radio_kept.
  - intros s. reflexivity.
  - intros a b c H1 H2. congruence.
Qed.

Section Totality.

Lemma total_ret {A : Type} (a : A) : total (ret a).
Proof. intros s. exists a. reflexivity. Qed.

Lemma total_gets {A : Type} (f : State -> A) : total (gets f).
Proof. intros s. exists (f s). reflexivity. Qed.

Lemma total_modify (f : State -> State) : total (modify f).
Proof. intros s. exists tt. reflexivity. Qed.

Lemma total_bind {A B : Type} (m : M A) (k : A -> M B) :
  total m -> (forall a, total (k a)) -> total (bind m k).
Proof.
  intros Hm Hk s. destruct (Hm s) as [a Ha].
  destruct (bind_done m k a s Ha) as [-> _]. apply Hk.
Qed.

Lemma total_when (b : bool) (m : M unit) : total m -> total (when b m).
Proof. intros H. destruct b; [exact H | apply total_ret]. Qed.

Lemma total_unit (m : M unit) : total m -> forall s, result m s = Done tt.
Proof. intros H s. destruct (H s) as [[] E]. exact E. Qed.

End Totality.

(** One step down the structure of a computation that returns. *)
Ltac total_step :=
  cbv beta zeta;
  lazymatch goal with
  | |- total (bind _ _) => apply total_bind; [ | intro ]
  | |- total (ret _) => apply total_ret
  | |- total (gets _) => apply total_gets
  | |- total (modify _) => apply total_modify
  | |- total (when false _) => exact (total_ret tt)
  | |- total (when _ _) => apply total_when
  | |- total (if ?b then _ else _) => destruct b
  | |- total ?m => let h := head_of m in unfold h
  end.

Ltac totality := repeat total_step.

Section Broadcasts.

Lemma broadcasts_quiet (m : M unit) :
  total m -> respects radio_kept m -> broadcasts m [].
Proof.
  intros Ht Hk s. split; [apply total_unit; exact Ht|].
  rewrite app_nil_r. apply Hk.
Qed.

Lemma broadcasts_seq (m k : M unit) (o1 o2 o : list Effect) :
  broadcasts m o1 -> broadcasts k o2 -> o = (o1 ++ o2)%list ->
  broadcasts (m ;; k) o.
Proof.
  intros Hm Hk -> s. destruct (Hm s) as [Hr Ho].
  destruct (bind_done m (fun _ => k) tt s Hr) as [-> ->].
  destruct (Hk (exec m s)) as [Hr' Ho'].
  split; [exact Hr'|]. rewrite Ho', Ho. symmetry. apply app_assoc.
Qed.

Lemma broadcasts_send (s : string) :
  broadcasts (emit (RadioSendString s)) [RadioSendString s].
Proof.
  intros st. unfold result, exec. rewrite emit_run. cbn [fst snd]. fields.
  split; [reflexivity|]. apply radio_app.
Qed.

Lemma broadcasts_forM_ {A : Type} (l : list A) (f : A -> M unit) (g : A -> Effect) :
  (forall a, In a l -> broadcasts (f a) [g a]) ->
  broadcasts (forM_ l f) (map g l).
Proof.
  induction l as [|x r IH]; intros H; cbn [forM_ map].
  - intros s. split; [reflexivity|]. symmetry. apply app_nil_r.
  - apply (broadcasts_seq _ _ [g x] (map g r)).
    + apply H. left. reflexivity.
    + apply IH. intros a Ha. apply H. right. exact Ha.
    + reflexivity.
Qed.

End Broadcasts.

Section Serial.

Variable hw : Platform.

Lemma debug_total s v : total (debug s v).
Proof. intros st. exists tt. unfold result. rewrite debug_run. reflexivity. Qed.

Lemma debug_radio_kept s v : respects radio_kept (debug s v).
Proof.
  intros st. unfold exec, radio_kept. rewrite debug_run. cbn [snd]. fields.
  rewrite radio_app, (diagnostics_radio _ (diagnostics_debug_out st s v)).
  apply app_nil_r.
Qed.

Lemma debug_quiet s v : broadcasts (debug s v) [].
Proof. apply broadcasts_quiet; [apply debug_total | apply debug_radio_kept]. Qed.

Lemma pause_quiet ms : broadcasts (pause ms) [].
Proof.
  intros st. unfold result, exec. rewrite pause_run. cbn [fst snd]. fields.
  split; [reflexivity|]. rewrite !app_nil_r. reflexivity.
Qed.

(** The local execution of a command sends nothing on the radio. *)
Lemma processC2D_radio_kept cmd : respects radio_kept (processC2D hw cmd).
Proof.
  frame.
  all: unfold radio_kept; fields; try reflexivity.
  all: apply radio_snoc_quiet; reflexivity.
Qed.

Lemma invokeCommands_total cmd p1 p2 p3 :
  String.eqb cmd "reset" = false -> total (invokeCommands hw cmd p1 p2 p3).
Proof.
  intros H. unfold invokeCommands. rewrite H. totality.
Qed.

Lemma parseCall_total call : call_ok call = true -> total (parseCall hw call).
Proof.
  unfold call_ok, alen. intros H. apply andb_prop in H. destruct H as [H1 H2].
  apply Z.ltb_lt in H1. apply negb_true_iff in H2.
  unfold parseCall.
  destruct (nth_error (split "(" call) 1) as [args|] eqn:E.
  - cbn [deref]. apply total_bind; [apply total_ret|]. intro.
    apply invokeCommands_total. exact H2.
  - apply nth_error_None in E. lia.
Qed.

(** The local execution of a well-formed command runs to completion. *)
Lemma processC2D_total cmd : command_ok cmd = true -> total (processC2D hw cmd).
Proof.
  unfold command_ok. intros H. apply andb_prop in H. destruct H as [H1 H2].
  unfold processC2D. cbv zeta. apply total_when. apply total_bind.
  - destruct (alen (split ":" cmd) =? 1); cbn [when].
    + apply parseCall_total. exact H1.
    + apply total_ret.
  - intros _. destruct (alen (split ":" cmd) =? 2); cbn [when].
    + apply total_bind; [apply total_gets|]. intro. apply total_when.
      apply parseCall_total. exact H2.
    + apply total_ret.
Qed.

Lemma processC2D_quiet cmd : command_ok cmd = true -> broadcasts (processC2D hw cmd) [].
Proof.
  intros H. apply broadcasts_quiet;
    [apply processC2D_total; exact H | apply processC2D_radio_kept].
Qed.

(** A command executed locally, then relayed. *)
Lemma relay_broadcasts cmd (rest : M unit) :
  command_ok cmd = true ->
  broadcasts rest [] ->
  broadcasts (processC2D hw cmd ;; emit (RadioSendString cmd) ;; rest)
    [RadioSendString cmd].
Proof.
  intros H Hrest.
  apply (broadcasts_seq _ _ [] [RadioSendString cmd]);
    [apply processC2D_quiet; exact H | | reflexivity].
  apply (broadcasts_seq _ _ [RadioSendString cmd] []);
    [apply broadcasts_send | exact Hrest | reflexivity].
Qed.

End Serial.

Section SerialHandler.

Variable hw : Platform.

Lemma gateway_handler (body : M unit) st :
  deviceMode st = Gateway ->
  (mode <- gets deviceMode ;; when (is_gateway mode) body) st = body st.
Proof. intros H. unfold bind, gets. rewrite H. reflexivity. Qed.

Lemma isEmpty_split_one line : isEmpty line = true -> alen (split ":" line) = 1.
Proof. destruct line; [reflexivity | discriminate]. Qed.

(** A line the handler relays nothing of: it is empty, or it has two or
    more [:] separators. *)
Lemma onDataReceived_ignored line st :
  deviceMode st = Gateway ->
  isEmpty line = true \/ 2 < alen (split ":" line) ->
  exists dt d, diagnostics d /\ onDataReceived hw line st = (Done tt, world dt d st).
Proof.
  intros Hg Hl. unfold onDataReceived. rewrite (gateway_handler _ st Hg).
  cbv zeta. unfold bind at 1. rewrite debug_run.
  exists (debug_time st), (debug_out st ("serial.onDataReceived() > serialRead =" ++ line) None).
  split; [apply diagnostics_debug_out|].
  destruct Hl as [Hl|Hl].
  - rewrite Hl. reflexivity.
  - replace (alen (split ":" line) =? 1) with false by (symmetry; apply Z.eqb_neq; lia).
    replace (alen (split ":" line) =? 2) with false by (symmetry; apply Z.eqb_neq; lia).
    destruct (isEmpty line); reflexivity.
Qed.

(** A line without [:]: executed locally, then relayed verbatim. *)
Lemma onDataReceived_global line st :
  deviceMode st = Gateway ->
  isEmpty line = false ->
  alen (split ":" line) = 1 ->
  command_ok line = true ->
  result (onDataReceived hw line) st = Done tt /\
  radio (trace (exec (onDataReceived hw line) st)) =
    (radio (trace st) ++ [RadioSendString line])%list.
Proof.
  intros Hg Hne H1 Hok. unfold result, exec, onDataReceived.
  rewrite (gateway_handler _ st Hg). cbv zeta. rewrite Hne, H1.
  cbn [negb Z.eqb Pos.eqb when].
  match goal with
  | |- fst (?b st) = _ /\ _ => assert (B : broadcasts b [RadioSendString line])
  end.
  { apply (broadcasts_seq _ _ [] [RadioSendString line]);
      [apply debug_quiet | | reflexivity].
    apply (broadcasts_seq _ _ [RadioSendString line] []);
      [ | intros s; split; [reflexivity | symmetry; apply app_nil_r] | reflexivity].
    apply relay_broadcasts; [exact Hok | apply debug_quiet]. }
  exact (B st).
Qed.

(** A line with one [:]: one command per listed address, each executed
    locally, then relayed. *)
Lemma onDataReceived_addressed line st :
  deviceMode st = Gateway ->
  alen (split ":" line) = 2 ->
  (forall cmd, In cmd (fan_out line) -> command_ok cmd = true) ->
  result (onDataReceived hw line) st = Done tt /\
  radio (trace (exec (onDataReceived hw line) st)) =
    (radio (trace st) ++ map RadioSendString (fan_out line))%list.
Proof.
  intros Hg H2 Hok.
  assert (Hne : isEmpty line = false).
  { destruct (isEmpty line) eqn:E; [|reflexivity].
    apply isEmpty_split_one in E. lia. }
  unfold result, exec, onDataReceived.
  rewrite (gateway_handler _ st Hg). cbv zeta. rewrite Hne, H2.
  cbn [negb Z.eqb Pos.eqb when].
  match goal with
  | |- fst (?b st) = _ /\ _ =>
      assert (B : broadcasts b (map RadioSendString (fan_out line)))
  end.
  { apply (broadcasts_seq _ _ [] (map RadioSendString (fan_out line)));
      [apply debug_quiet | | reflexivity].
    apply (broadcasts_seq _ _ [] (map RadioSendString (fan_out line)));
      [intros s; split; [reflexivity | symmetry; apply app_nil_r] | | reflexivity].
    unfold fan_out in *. cbv zeta in *. rewrite map_map.
    apply broadcasts_forM_. intros a Ha.
    apply relay_broadcasts.
    - apply Hok. apply in_map_iff. exists a. split; [reflexivity | exact Ha].
    - apply (broadcasts_seq _ _ [] []);
        [apply debug_quiet | apply pause_quiet | reflexivity]. }
  exact (B st).
Qed.

End SerialHandler.

(* ================================================================== *)
(** ** The uplink command relay, line by line *)
(* ================================================================== *)

Lemma bind_gets {A B : Type} (f : State -> A) (k : A -> M B) (s : State) :
  bind (gets f) k s = k (f s) s.
Proof. reflexivity. Qed.

Lemma bind_run {A B : Type} (m : M A) (k : A -> M B) (a : A) (s s1 : State) :
  m s = (Done a, s1) -> bind m k s = k a s1.
Proof. intros H. unfold bind. rewrite H. reflexivity. Qed.

Lemma bind_abort {A B : Type} (m : M A) (k : A -> M B) (e : Abort) (s s1 : State) :
  m s = (Aborted e, s1) -> bind m k s = (Aborted e, s1).
Proof. intros H. unfold bind. rewrite H. reflexivity. Qed.

Lemma occurs_app c (a b : string) : occurs c (a ++ b) = occurs c a || occurs c b.
Proof.
  induction a as [|x a IH]; simpl; [reflexivity|].
  rewrite IH. apply orb_assoc.
Qed.

Lemma split_absent c s : occurs c s = false -> split c s = [s].
Proof.
  induction s as [|x s IH]; simpl; [reflexivity|].
  intros H. apply orb_false_elim in H. destruct H as [H1 H2].
  rewrite H1, (IH H2). reflexivity.
Qed.

Lemma split_at c (a b : string) :
  occurs c a = false -> split c (a ++ String c b) = a :: split c b.
Proof.
  induction a as [|x a IH]; simpl.
  - intros _. rewrite Ascii.eqb_refl. reflexivity.
  - intros H. apply orb_false_elim in H. destruct H as [H1 H2].
    rewrite H1, (IH H2). reflexivity.
Qed.

(** No part of a text split at [c] holds [c]. *)
Lemma split_parts c s : Forall (fun x => occurs c x = false) (split c s).
Proof.
  induction s as [|x s IH]; simpl.
  - repeat constructor.
  - destruct (Ascii.eqb x c) eqn:E.
    + constructor; [reflexivity | exact IH].
    + destruct (split c s) as [|h t].
      * repeat constructor. simpl. rewrite E. reflexivity.
      * inversion IH as [|? ? Hh Ht]; subst. constructor; [|exact Ht].
        simpl. rewrite E, Hh. reflexivity.
Qed.

(** A character that a text does not hold is in no part of it. *)
Lemma split_keeps_absent d c s :
  occurs d s = false -> Forall (fun x => occurs d x = false) (split c s).
Proof.
  induction s as [|x s IH]; simpl.
  - intros _. repeat constructor.
  - intros H. apply orb_false_elim in H. destruct H as [H1 H2].
    specialize (IH H2). destruct (Ascii.eqb x c).
    + constructor; [reflexivity | exact IH].
    + destruct (split c s) as [|h t].
      * repeat constructor. simpl. rewrite H1. reflexivity.
      * inversion IH as [|? ? Hh Ht]; subst. constructor; [|exact Ht].
        simpl. rewrite H1, Hh. reflexivity.
Qed.

(** A line with one [:]: the addresses and the call, neither with a [:]. *)
Lemma split_one_colon line :
  alen (split ":" line) = 2 ->
  exists a0 call, split ":" line = [a0; call] /\
    occurs ":" a0 = false /\ occurs ":" call = false.
Proof.
  unfold alen. intros H. pose proof (split_parts ":" line) as F.
  destruct (split ":" line) as [|a0 [|call [|x r]]];
    try discriminate; try (cbn [List.length] in H; lia).
  inversion F as [|? ? Ha F']; subst. inversion F' as [|? ? Hc _]; subst.
  exists a0, call. split; [reflexivity|]. split; assumption.
Qed.

Lemma split_command a call :
  occurs ":" a = false -> occurs ":" call = false ->
  split ":" (a ++ ":" ++ call) = [a; call].
Proof.
  intros Ha Hc. change (a ++ ":" ++ call) with (a ++ String ":" call).
  rewrite split_at by exact Ha. rewrite split_absent by exact Hc. reflexivity.
Qed.

Lemma command_not_empty a call : isEmpty (a ++ ":" ++ call) = false.
Proof. destruct a; reflexivity. Qed.

Lemma command_ok_addressed a call :
  occurs ":" a = false -> occurs ":" call = false ->
  command_ok (a ++ ":" ++ call) = call_ok call.
Proof.
  intros Ha Hc. unfold command_ok. rewrite (split_command a call Ha Hc).
  reflexivity.
Qed.

Lemma command_ok_global line :
  alen (split ":" line) = 1 -> command_ok line = call_ok line.
Proof.
  intros H. unfold command_ok. rewrite H. cbn [Z.eqb Pos.eqb].
  apply andb_true_r.
Qed.

Section Relay.

Variable hw : Platform.

Lemma parseCall_malformed call st :
  alen (split "(" call) = 1 -> parseCall hw call st = (Aborted TypeError, st).
Proof.
  unfold alen, parseCall. intros H.
  assert (E : nth_error (split "(" call) 1 = None) by (apply nth_error_None; lia).
  cbv zeta. rewrite E. reflexivity.
Qed.

Lemma processC2D_global s st :
  isEmpty s = false -> alen (split ":" s) = 1 ->
  processC2D hw s st = parseCall hw s st.
Proof.
  intros Hne H1. unfold processC2D. rewrite Hne, H1.
  cbn [negb when Z.eqb Pos.eqb]. cbv zeta. unfold bind.
  destruct (parseCall hw s st) as [[[]|e] s']; reflexivity.
Qed.

Lemma invokeCommands_reset p1 p2 p3 st :
  invokeCommands hw "reset" p1 p2 p3 st =
  (Aborted DeviceReset, world 0 [ShowString "reset"] (set_doCommands false st)).
Proof.
  unfold invokeCommands, setReset, setRGB.
  cbn [String.eqb Ascii.eqb Bool.eqb when]. run. cbn [opt_eqb]. reflexivity.
Qed.

(** A call that is not well formed does not return. *)
Lemma parseCall_aborts call st :
  call_ok call = false -> exists e s', parseCall hw call st = (Aborted e, s').
Proof.
  unfold call_ok. intros H.
  destruct (1 <? alen (split "(" call)) eqn:E1.
  - cbn [andb] in H. apply negb_false_iff in H. apply String.eqb_eq in H.
    apply Z.ltb_lt in E1. unfold alen in E1.
    unfold parseCall. cbv zeta.
    destruct (nth_error (split "(" call) 1) as [args|] eqn:En;
      [|apply nth_error_None in En; lia].
    cbn [deref]. run. rewrite H, invokeCommands_reset. eexists _, _. reflexivity.
  - apply Z.ltb_ge in E1. exists TypeError, st. apply parseCall_malformed.
    unfold alen in *. destruct (split "(" call) as [|x r] eqn:Es.
    + destruct call; simpl in Es; try discriminate.
      destruct (Ascii.eqb a "("); [discriminate|].
      destruct (split "(" call); discriminate.
    + destruct r; [reflexivity | simpl in E1; lia].
Qed.

(** An addressed command: its call is executed if and only if the address
    is the identity of the node. *)
Lemma processC2D_addressed a call st :
  occurs ":" a = false -> occurs ":" call = false ->
  processC2D hw (a ++ ":" ++ call) st =
  if addressed_here hw st a then parseCall hw call st else (Done tt, st).
Proof.
  intros Ha Hc. unfold processC2D, addressed_here.
  rewrite command_not_empty, (split_command a call Ha Hc).
  cbn [negb when alen List.length Z.of_nat Pos.of_succ_nat Pos.succ Z.eqb Pos.eqb hd nth].
  cbv zeta. run.
  destruct (num_eqb (parseFloat hw a) (identity st)); [|reflexivity].
  destruct (parseCall hw call st) as [[[]|e] s']; reflexivity.
Qed.

Lemma relay_one_elsewhere call a st :
  occurs ":" a = false -> occurs ":" call = false ->
  addressed_here hw st a = false ->
  exists dt d, diagnostics d /\
  relay_one hw call a st =
  (Done tt, world dt ([RadioSendString (a ++ ":" ++ call)] ++ d) st).
Proof.
  intros Ha Hc Hh. unfold relay_one. cbv zeta.
  assert (E : processC2D hw (a ++ ":" ++ call) st = (Done tt, st))
    by (rewrite processC2D_addressed, Hh by assumption; reflexivity).
  rewrite (bind_run _ _ tt st st E). run. rewrite !world_world.
  eexists _, _. split; [|reflexivity].
  apply diagnostics_app; [apply diagnostics_debug_out | constructor].
Qed.

Lemma relay_one_here call a st :
  occurs ":" a = false -> occurs ":" call = false ->
  addressed_here hw st a = true -> call_ok call = false ->
  exists e s', relay_one hw call a st = (Aborted e, s') /\
               radio (trace s') = radio (trace st).
Proof.
  intros Ha Hc Hh Hok. unfold relay_one. cbv zeta.
  destruct (parseCall_aborts call st Hok) as (e & s' & E).
  assert (E' : processC2D hw (a ++ ":" ++ call) st = (Aborted e, s'))
    by (rewrite processC2D_addressed, Hh by assumption; exact E).
  rewrite (bind_abort _ _ _ _ _ E'). exists e, s'. split; [reflexivity|].
  pose proof (processC2D_radio_kept hw (a ++ ":" ++ call) st) as K.
  unfold exec, radio_kept in K. rewrite E' in K. exact K.
Qed.

(** The fan-out loop for a call that is not well formed: the commands
    before the first one addressed to the node are sent, and the loop
    returns if and only if none is addressed to it. *)
Lemma relay_loop call addresses st :
  occurs ":" call = false ->
  Forall (fun a => occurs ":" a = false) addresses ->
  call_ok call = false ->
  radio (trace (exec (forM_ addresses (relay_one hw call)) st)) =
    (radio (trace st)
     ++ map RadioSendString
          (map (fun a => (a ++ ":" ++ call)%string)
               (before_first (addressed_here hw st) addresses)))%list /\
  (result (forM_ addresses (relay_one hw call)) st = Done tt <->
   existsb (addressed_here hw st) addresses = false).
Proof.
  intros Hc F Hok. revert st.
  induction F as [|a r Ha F IH]; intros st.
  - cbn. rewrite app_nil_r. split; [reflexivity | split; reflexivity].
  - cbn [forM_ before_first existsb].
    destruct (addressed_here hw st a) eqn:Hh.
    + destruct (relay_one_here call a st Ha Hc Hh Hok) as (e & s' & E & K).
      unfold exec, result. rewrite (bind_abort _ _ _ _ _ E). cbn [fst snd map].
      rewrite K, app_nil_r. split; [reflexivity|]. split; discriminate.
    + destruct (relay_one_elsewhere call a st Ha Hc Hh) as (dt & d & Hd & E).
      unfold exec, result. rewrite (bind_run _ _ tt _ _ E).
      set (s1 := world dt _ st).
      assert (Hs : forall x, addressed_here hw s1 x = addressed_here hw st x)
        by reflexivity.
      destruct (IH s1) as [R1 R2]. unfold exec, result in R1, R2.
      rewrite R1. cbn [orb map]. split.
      * subst s1. fields.
        rewrite !radio_app, (diagnostics_radio d Hd), app_nil_r.
        cbn [radio filter is_radio]. rewrite <- app_assoc. reflexivity.
      * rewrite R2. reflexivity.
Qed.

End Relay.

(* ================================================================== *)
(** ** The message assembler: flushing and the identity guard *)
(* ================================================================== *)

(** C3, as stated, fails: a property whose key is not the terminator key
    but includes its text ([geometry]) flushes the buffer, and the
    terminator key appended to a telemetry buffer without an [id] field is
    dropped and flushes nothing. *)
Lemma flush_not_iff_terminator_key :
  "geometry" <> "eom" /\
  serial (trace (exec (gatewaySendProperty 11 "geometry" (Int 1)) three_nodes)) =
    [dq "{'topic':'property','geometry':1}"; EmptyString] /\
  js_get (device_property (exec (gatewaySendProperty 11 "geometry" (Int 1)) three_nodes))
    (Int 1) = Some init_property /\
  serial (trace (exec (gatewaySendTelemetry 11 "eom" (Int 1)) three_nodes)) = [] /\
  js_get (device_telemetry (exec (gatewaySendTelemetry 11 "eom" (Int 1)) three_nodes))
    (Int 1) = Some (dq "{'topic':'telemetry',").
Proof.
  split; [discriminate|]. repeat split; reflexivity.
Qed.

(** C3 (amended).  For every registered device with a live buffer and for
    each of the three streams, an append returns and flushes the buffer if
    and only if the text of the buffer after the append includes [eom]:
    the trace grows by diagnostic records and, in that case, by the one
    flush of the whole text, after which the buffer holds its empty
    template; otherwise the buffer holds the text.  Appending the
    terminator key [eom] always brings [eom] into a property or log
    buffer, and into a telemetry buffer that holds an [id]. *)
Theorem append_flushes_when_text_includes_eom (k : Stream) sn text num st buf :
  deviceMode st = Gateway ->
  js_get (buffers k st) (Int (indexOf (device_registrar st) sn)) = Some buf ->
  let i := indexOf (device_registrar st) sn in
  let JSON := appended k buf text num in
  ends_with k sn (append_to k sn text num) st
    (if includes JSON "eom" then template k else JSON)
    (if includes JSON "eom" then flush_out i JSON else []) /\
  (text = "eom" ->
   k <> Telemetry \/ includes (reopen buf) "id" = true ->
   includes JSON "eom" = true).
Proof.
  intros Hg Hb i JSON. split.
  - apply (assembles_ends k sn _ buf _
             (fun i => if includes JSON "eom" then flush_out i JSON else []) st);
      [ | exact Hg | exact Hb ].
    apply assembles_one; [reflexivity | intro; reflexivity].
  - intros -> Hk. subst JSON. destruct k; cbn [appended].
    + destruct Hk as [Hk|Hk]; [congruence|].
      unfold telemetry_step. rewrite Hk. cbn [orb].
      apply includes_app_right, field_eom.
    + apply includes_app_right, field_eom.
    + apply includes_app_right, field_eom.
Qed.

Lemma append_flushes_witness :
  deviceMode three_nodes = Gateway /\
  ends_with Property 11 (gatewaySendProperty 11 "eom" (Int 1)) three_nodes
    init_property
    (flush_out 1 (dq "{'topic':'property','eom':1}")).
Proof.
  split; [reflexivity|].
  exact (proj1 (append_flushes_when_text_includes_eom Property 11 "eom" (Int 1)
                  three_nodes init_property eq_refl eq_refl)).
Defined.

(** C4, as stated, fails: appending [temp:21] to an empty telemetry buffer
    drops the field but does not leave the buffer unchanged; the closing
    brace of the template has been replaced by the separator. *)
Lemma dropped_append_changes_buffer :
  js_get (device_telemetry three_nodes) (Int 1) = Some (dq "{'topic':'telemetry'}") /\
  js_get (device_telemetry (exec (gatewaySendTelemetry 11 "temp" (Int 21)) three_nodes))
    (Int 1) = Some (dq "{'topic':'telemetry',") /\
  device_telemetry (exec (gatewaySendTelemetry 11 "temp" (Int 21)) three_nodes)
    <> device_telemetry three_nodes.
Proof.
  repeat split; try reflexivity. discriminate.
Qed.

(** C4 (amended).  Appending [temp:21] to an empty telemetry buffer before
    any [id] field drops the field and flushes nothing, and leaves the
    buffer reopened, its closing brace replaced by the separator.
    Appending [id:3], then [temp:21], then [eom:1] to an empty telemetry
    buffer, or to the buffer the dropped append has left, flushes exactly
    the line [{"topic":"telemetry","id":3,"temp":21,"eom":1}] and leaves
    the empty template. *)
Theorem telemetry_identity_guard sn st :
  deviceMode st = Gateway ->
  js_get (device_telemetry st) (Int (indexOf (device_registrar st) sn))
    = Some init_telemetry ->
  let i := indexOf (device_registrar st) sn in
  let temp := gatewaySendTelemetry sn "temp" (Int 21) in
  let message :=
    gatewaySendTelemetry sn "id" (Int 3) ;;
    gatewaySendTelemetry sn "temp" (Int 21) ;;
    gatewaySendTelemetry sn "eom" (Int 1) in
  let line := dq "{'topic':'telemetry','id':3,'temp':21,'eom':1}" in
  ends_with Telemetry sn temp st (dq "{'topic':'telemetry',") [] /\
  ends_with Telemetry sn message st init_telemetry (flush_out i line) /\
  ends_with Telemetry sn (temp ;; message) st init_telemetry (flush_out i line).
Proof.
  intros Hg Hb i temp message line.
  assert (Htemp : assembles Telemetry sn temp init_telemetry
                    (dq "{'topic':'telemetry',") (fun _ => []))
    by (apply (assembles_one Telemetry); [reflexivity | intro; reflexivity]).
  assert (Hmsg : forall b, b = init_telemetry \/ b = dq "{'topic':'telemetry'," ->
            assembles Telemetry sn message b init_telemetry
              (fun i => flush_out i line)).
  { intros b Hbuf.
    apply (assembles_seq Telemetry sn _ _ b (dq "{'topic':'telemetry','id':3}")).
    - destruct Hbuf as [-> | ->];
        (apply (assembles_one Telemetry); [reflexivity | intro; reflexivity]).
    - apply (assembles_seq Telemetry sn _ _ _ (dq "{'topic':'telemetry','id':3,'temp':21}")).
      + apply (assembles_one Telemetry); [reflexivity | intro; reflexivity].
      + apply (assembles_one Telemetry); [reflexivity | intro; reflexivity]. }
  split; [|split].
  - exact (assembles_ends Telemetry sn temp _ _ (fun _ => []) st Htemp Hg Hb).
  - exact (assembles_ends Telemetry sn message _ _ (fun i => flush_out i line) st
             (Hmsg _ (or_introl eq_refl)) Hg Hb).
  - refine (assembles_ends Telemetry sn (temp ;; message) _ _
              (fun i => flush_out i line) st _ Hg Hb).
    apply (assembles_seq Telemetry sn _ _ _ (dq "{'topic':'telemetry',")).
    + exact Htemp.
    + apply Hmsg. right. reflexivity.
Qed.

Lemma telemetry_identity_guard_witness :
  deviceMode three_nodes = Gateway /\
  ends_with Telemetry 11
    (gatewaySendTelemetry 11 "id" (Int 3) ;;
     gatewaySendTelemetry 11 "temp" (Int 21) ;;
     gatewaySendTelemetry 11 "eom" (Int 1))
    three_nodes init_telemetry
    (flush_out 1 (dq "{'topic':'telemetry','id':3,'temp':21,'eom':1}")).
Proof.
  split; [reflexivity|].
  exact (proj1 (proj2 (telemetry_identity_guard 11 three_nodes eq_refl eq_refl))).
Defined.

(** C6, as stated, fails: the terminator key appended to a telemetry buffer
    that holds [a:1] and [b:2] but no [id] field is dropped by the identity
    guard; nothing is flushed and the buffer is not reset. *)
Lemma terminator_without_id_not_flushed :
  let st := with_buffer_11 (dq "{'topic':'telemetry','a':1,'b':2}") in
  let st' := exec (gatewaySendTelemetry 11 "eom" (Int 1)) st in
  js_get (device_telemetry st) (Int 1) = Some (dq "{'topic':'telemetry','a':1,'b':2}") /\
  result (gatewaySendTelemetry 11 "eom" (Int 1)) st = Done tt /\
  trace st' = [] /\
  js_get (device_telemetry st') (Int 1) = Some (dq "{'topic':'telemetry','a':1,'b':2,").
Proof. repeat split; reflexivity. Qed.

(** C6 (amended).  Appending the terminator key [eom] to a telemetry buffer
    that holds its [id] field and the fields [a:1] and [b:2] produces
    exactly one flushed line,
    [{"topic":"telemetry","id":3,"a":1,"b":2,"eom":1}], and resets the
    buffer to its empty template; the next append after the closure starts
    a fresh object. *)
Theorem buffer_closure sn st :
  deviceMode st = Gateway ->
  js_get (device_telemetry st) (Int (indexOf (device_registrar st) sn))
    = Some (dq "{'topic':'telemetry','id':3,'a':1,'b':2}") ->
  let i := indexOf (device_registrar st) sn in
  let close := gatewaySendTelemetry sn "eom" (Int 1) in
  let line := dq "{'topic':'telemetry','id':3,'a':1,'b':2,'eom':1}" in
  ends_with Telemetry sn close st init_telemetry (flush_out i line) /\
  ends_with Telemetry sn (gatewaySendTelemetry sn "id" (Int 7)) (exec close st)
    (dq "{'topic':'telemetry','id':7}") [].
Proof.
  intros Hg Hb i close line.
  assert (Hclose : assembles Telemetry sn close
                     (dq "{'topic':'telemetry','id':3,'a':1,'b':2}") init_telemetry
                     (fun i => flush_out i line))
    by (apply (assembles_one Telemetry); [reflexivity | intro; reflexivity]).
  destruct (Hclose st Hg Hb) as (Hm & Hreg & Hr & Hbuf & Htr).
  split.
  - exact (assembles_ends Telemetry sn close _ _ (fun i => flush_out i line) st
             Hclose Hg Hb).
  - rewrite <- Hreg in Hbuf.
    pose proof (assembles_ends Telemetry sn (gatewaySendTelemetry sn "id" (Int 7))
                  init_telemetry (dq "{'topic':'telemetry','id':7}") (fun _ => [])
                  (exec close st)) as H.
    cbv beta in H. apply H; [ | exact Hm | exact Hbuf ].
    apply (assembles_one Telemetry); [reflexivity | intro; reflexivity].
Qed.

Lemma buffer_closure_witness :
  let st := with_buffer_11 (dq "{'topic':'telemetry','id':3,'a':1,'b':2}") in
  deviceMode st = Gateway /\
  ends_with Telemetry 11 (gatewaySendTelemetry 11 "eom" (Int 1)) st init_telemetry
    (flush_out 1 (dq "{'topic':'telemetry','id':3,'a':1,'b':2,'eom':1}")).
Proof.
  split; [reflexivity|].
  exact (proj1 (buffer_closure 11
                  (with_buffer_11 (dq "{'topic':'telemetry','id':3,'a':1,'b':2}"))
                  eq_refl eq_refl)).
Defined.

(* ================================================================== *)
(** ** The device registry: registration and alignment *)
(* ================================================================== *)

Lemma alen_nonneg {A : Type} (a : list A) : 0 <= alen a.
Proof. unfold alen. lia. Qed.

(** C2.  On a gateway, registering twice an identity that is not yet in
    the registry returns both times, gives the identity the same id both
    times (its position, the length the registry had), leaves the four
    arrays of the registry unchanged on the second call, and sends on the
    radio, in total, exactly the one notification [setId(id,identity)]. *)
Theorem register_idempotent sn st :
  deviceMode st = Gateway ->
  indexOf (device_registrar st) sn < 0 ->
  let st1 := exec (addMicrobit sn) st in
  let st2 := exec (addMicrobit sn) st1 in
  let id := alen (device_registrar st) in
  result (addMicrobit sn) st = Done tt /\
  result (addMicrobit sn) st1 = Done tt /\
  indexOf (device_registrar st1) sn = id /\
  indexOf (device_registrar st2) sn = id /\
  device_registrar st2 = device_registrar st1 /\
  device_telemetry st2 = device_telemetry st1 /\
  device_property st2 = device_property st1 /\
  device_log st2 = device_log st1 /\
  radio (trace st2) =
    (radio (trace st)
     ++ [RadioSendString ("setId(" ++ show_Z id ++ "," ++ show_Z sn ++ ")")])%list.
Proof.
  intros Hg Hi st1 st2 id.
  assert (Hnew : indexOf (push (device_registrar st) sn) sn = id).
  { apply indexOf_push_new. pose proof (indexOf_lt (device_registrar st) sn). lia. }
  destruct (addMicrobit_new sn st Hg Hi) as (dt & d1 & d2 & Hd1 & Hd2 & E1).
  rewrite Hnew in E1.
  assert (S1 : st1 = snd (addMicrobit sn st)) by reflexivity.
  assert (R1 : result (addMicrobit sn) st = Done tt)
    by (unfold result; rewrite E1; reflexivity).
  rewrite E1 in S1. cbn [snd] in S1. clearbody st1.
  assert (Hg1 : deviceMode st1 = Gateway) by (rewrite S1; exact Hg).
  assert (Hr1 : device_registrar st1 = push (device_registrar st) sn)
    by (rewrite S1; reflexivity).
  assert (Hi1 : 0 <= indexOf (device_registrar st1) sn)
    by (rewrite Hr1, Hnew; apply alen_nonneg).
  destruct (addMicrobit_known sn st1 Hg1 Hi1) as (dt' & d' & Hd' & E2).
  assert (S2 : st2 = snd (addMicrobit sn st1)) by reflexivity.
  assert (R2 : result (addMicrobit sn) st1 = Done tt)
    by (unfold result; rewrite E2; reflexivity).
  rewrite E2 in S2. cbn [snd] in S2. clearbody st2.
  rewrite S2. fields. rewrite Hr1, Hnew.
  repeat split; try assumption; try reflexivity.
  rewrite S1. fields.
  rewrite !radio_app, (diagnostics_radio d1), (diagnostics_radio d2),
    (diagnostics_radio d') by assumption.
  cbn [radio filter is_radio app]. rewrite !app_nil_r. reflexivity.
Qed.

Lemma register_idempotent_witness :
  deviceMode three_nodes = Gateway /\
  indexOf (device_registrar three_nodes) 33 < 0 /\
  radio (trace (exec (addMicrobit 33) (exec (addMicrobit 33) three_nodes))) =
    [RadioSendString "setId(3,33)"].
Proof.
  split; [reflexivity|]. split; [reflexivity|].
  exact (proj2 (proj2 (proj2 (proj2 (proj2 (proj2 (proj2 (proj2
           (register_idempotent 33 three_nodes eq_refl eq_refl))))))))).
Defined.

Section RegistryClaims.

Variable hw : Platform.

(** C9.  Registering a device, deactivating a device and the radio receive
    handler keep the four arrays [device_registrar], [device_telemetry],
    [device_property] and [device_log] equal in length, and keep every
    registered serial number at its index; so every registered serial
    number has, at the index it was assigned, a slot in each of the three
    buffer arrays (the telemetry slot of a deactivated device holds
    [null]). *)
Theorem registry_stays_aligned st :
  registry_aligned st ->
  (forall op,
     (exists sn, op = addMicrobit sn) \/
     (exists sn, op = delMicrobit sn) \/
     (exists name value pkt, op = onReceivedValue hw name value pkt) ->
     registry_aligned (exec op st) /\
     forall sn, 0 <= indexOf (device_registrar st) sn ->
       indexOf (device_registrar (exec op st)) sn = indexOf (device_registrar st) sn) /\
  (forall sn, 0 <= indexOf (device_registrar st) sn ->
     exists t p l,
       nth_error (device_telemetry st) (Z.to_nat (indexOf (device_registrar st) sn)) = Some t /\
       nth_error (device_property st) (Z.to_nat (indexOf (device_registrar st) sn)) = Some p /\
       nth_error (device_log st) (Z.to_nat (indexOf (device_registrar st) sn)) = Some l).
Proof.
  intros Ha. split.
  - intros op Hop.
    assert (H : registry_kept st (exec op st)).
    { destruct Hop as [[sn ->] | [[sn ->] | (name & value & pkt & ->)]].
      - apply addMicrobit_registry_kept.
      - apply delMicrobit_registry_kept.
      - apply onReceivedValue_registry_kept. }
    destruct H as [H1 H2]. split; auto.
  - intros sn Hsn. destruct Ha as (H1 & H2 & H3).
    pose proof (indexOf_lt (device_registrar st) sn) as Hlt. unfold alen in Hlt.
    assert (Hn : (Z.to_nat (indexOf (device_registrar st) sn)
                  < List.length (device_registrar st))%nat) by lia.
    destruct (nth_error (device_telemetry st) _) as [t|] eqn:Et;
      [|apply nth_error_None in Et; lia].
    destruct (nth_error (device_property st) _) as [p|] eqn:Ep;
      [|apply nth_error_None in Ep; lia].
    destruct (nth_error (device_log st) _) as [l|] eqn:El;
      [|apply nth_error_None in El; lia].
    exists t, p, l. repeat split; reflexivity.
Qed.

End RegistryClaims.

Lemma registry_stays_aligned_witness :
  registry_aligned three_nodes /\
  registry_aligned
    (exec (onReceivedValue sample_platform "register" (Int 0) (mkPacket 33 0 0))
       three_nodes).
Proof.
  assert (H : registry_aligned three_nodes) by (repeat split; reflexivity).
  split; [exact H|].
  apply (registry_stays_aligned sample_platform three_nodes H).
  right. right. eauto.
Defined.

(* ================================================================== *)
(** ** Radio events of a device that is not the polled one *)
(* ================================================================== *)

(** C1, as stated, fails: while the gateway awaits the reply of leaf 11
    (entry 1 of the registry), an [eom] event of leaf 22 clears the
    in-flight flag and moves the poll cursor to entry 2, and a [temp] event
    of leaf 22 moves the poll cursor as well, although neither event comes
    from the polled device. *)
Lemma stray_event_changes_flag_and_cursor :
  let eom := onReceivedValue sample_platform "eom" (Int 1) (mkPacket 22 0 0) in
  let temp := onReceivedValue sample_platform "temp" (Int 21) (mkPacket 22 0 0) in
  js_get (map Some (device_registrar polling_11)) (microbit_ID polling_11) = Some 11 /\
  activeRadioRequest polling_11 = true /\
  microbit_ID polling_11 = Int 1 /\
  result eom polling_11 = Done tt /\
  activeRadioRequest (exec eom polling_11) = false /\
  microbit_ID (exec eom polling_11) = Int 2 /\
  result temp polling_11 = Done tt /\
  microbit_ID (exec temp polling_11) = Int 2.
Proof. repeat split; reflexivity. Qed.

Section StrayClaims.

Variable hw : Platform.

(** C1 (amended).  On a gateway whose registry is aligned, a received radio
    value event, whoever its sender is, updates no message buffer but
    those at the registry index of its sender; it changes the in-flight
    flag only if it carries the terminator key [eom] (the flag is then
    cleared, whether or not the sender is the polled device), and it
    changes the poll cursor only by setting it to the index of its
    sender. *)
Theorem radio_event_touches_sender_only st name value pkt :
  deviceMode st = Gateway ->
  registry_aligned st ->
  let sn := SerialNumber pkt in
  let st' := exec (onReceivedValue hw name value pkt) st in
  (forall j, j <> Int (indexOf (device_registrar st') sn) ->
             buffers_at st' j = buffers_at st j) /\
  (activeRadioRequest st' <> activeRadioRequest st ->
   name = "eom" /\ activeRadioRequest st' = false) /\
  (microbit_ID st' <> microbit_ID st ->
   microbit_ID st' = Int (indexOf (device_registrar st') sn)).
Proof.
  intros Hg (Ha1 & Ha2 & Ha3) sn st'.
  destruct (String.eqb name "register") eqn:E1;
    [|destruct (String.eqb name "del") eqn:E2].
  - (* registration *)
    destruct (onReceivedValue_register hw name value pkt st E1 Hg)
      as (T & dt & d & _ & E).
    subst st'. unfold exec at 1 2 3 4 5. rewrite E. cbn [snd]. fold sn.
    set (s1 := set_timerRadioRequest T (world dt d st)).
    assert (Hg1 : deviceMode s1 = Gateway) by exact Hg.
    unfold exec.
    destruct (Z.lt_ge_cases (indexOf (device_registrar s1) sn) 0) as [Hi|Hi].
    + destruct (addMicrobit_new sn s1 Hg1 Hi) as (dt' & d1 & d2 & _ & _ & ->).
      cbn [snd]. unfold buffers_at.
      change (device_registrar s1) with (device_registrar st) in Hi.
      subst s1. fields.
      rewrite indexOf_push_new
        by (pose proof (indexOf_lt (device_registrar st) sn); lia).
      split; [|split; intros H; exfalso; apply H; reflexivity].
      intros j Hj. unfold alen in *.
      rewrite !js_get_push_old by (unfold alen; congruence). reflexivity.
    + destruct (addMicrobit_known sn s1 Hg1 Hi) as (dt' & d' & _ & ->).
      cbn [snd]. unfold buffers_at. subst s1. fields.
      split; [reflexivity|split; intros H; exfalso; apply H; reflexivity].
  - (* deactivation *)
    destruct (onReceivedValue_del hw name value pkt st E1 E2 Hg)
      as (T & dt & d & _ & E).
    subst st'. unfold exec at 1 2 3 4 5. rewrite E. cbn [snd]. fold sn.
    set (s1 := set_timerRadioRequest T (world dt d st)).
    assert (Hg1 : deviceMode s1 = Gateway) by exact Hg.
    unfold exec.
    destruct (js_get (device_telemetry s1) (Int (indexOf (device_registrar s1) sn)))
      as [buf|] eqn:Hb.
    + destruct (delMicrobit_live sn s1 buf Hg1 Hb) as (dt' & d1 & d2 & _ & _ & ->).
      cbn [snd]. unfold buffers_at. subst s1. fields.
      split; [|split; intros H; exfalso; apply H; reflexivity].
      intros j Hj. rewrite js_get_set_other by congruence. reflexivity.
    + destruct (delMicrobit_idle sn s1 Hg1 Hb) as (dt' & d' & _ & ->).
      cbn [snd]. unfold buffers_at. subst s1. fields.
      split; [reflexivity|split; intros H; exfalso; apply H; reflexivity].
  - (* any other event *)
    assert (Hn : String.eqb name "register" || String.eqb name "del" = false)
      by (rewrite E1, E2; reflexivity).
    destruct (onReceivedValue_stray_kept hw name value pkt Hn st)
      as (Hr & Hb & Hm & Hf).
    fold st' in Hr, Hb, Hm, Hf. fold sn in Hb, Hm. rewrite Hr.
    split; [exact Hb|]. split.
    + intros H. destruct Hf as [Hf|Hf]; [contradiction | exact Hf].
    + intros H. destruct Hm as [Hm|Hm]; [contradiction | exact Hm].
Qed.

End StrayClaims.

Lemma radio_event_touches_sender_only_witness :
  deviceMode polling_11 = Gateway /\
  registry_aligned polling_11 /\
  buffers_at
    (exec (onReceivedValue sample_platform "temp" (Int 21) (mkPacket 22 0 0)) polling_11)
    (Int 1)
  = buffers_at polling_11 (Int 1).
Proof.
  assert (H : registry_aligned polling_11) by (repeat split; reflexivity).
  split; [reflexivity|]. split; [exact H|].
  apply (radio_event_touches_sender_only sample_platform polling_11 "temp" (Int 21)
           (mkPacket 22 0 0) eq_refl H).
  discriminate.
Defined.

(* ================================================================== *)
(** ** The polling scheduler: null slots and loss accounting *)
(* ================================================================== *)

Lemma js_get_map_Some (a : list Z) (z : Z) :
  0 <= z < alen a ->
  js_get (map Some a) (Int z) = Some (nth (Z.to_nat z) a 0).
Proof.
  unfold js_get, alen. intros Hz.
  replace (z <? 0) with false by (symmetry; apply Z.ltb_ge; lia).
  rewrite nth_error_map.
  rewrite (nth_error_nth' a 0) by lia. reflexivity.
Qed.

(** C10, as stated, fails: a tick that finds the request to leaf 11 overdue
    advances the poll cursor onto the deactivated entry 2; it counts one
    loss, and the in-flight flag stays set. *)
Lemma timeout_tick_onto_null_slot :
  let st := overdue_before_gap in
  let st' := exec (runGatewayOrchestrator sample_platform) st in
  js_get (device_telemetry st) (next_cursor st) = None /\
  microbit_ID st' = next_cursor st /\
  microbit_ID st' = Int 2 /\
  packet_loss st = 0 /\
  packet_loss st' = 1 /\
  activeRadioRequest st' = true.
Proof. repeat split; reflexivity. Qed.

(** C5, as stated, fails: a tick that finds the request to leaf 11 overdue
    counts the loss and advances the poll cursor, but the next entry is
    deactivated, and the tick issues no request: nothing is broadcast and
    nothing submitted. *)
Lemma timeout_tick_issues_no_request :
  let st := overdue_before_gap in
  let st' := exec (runGatewayOrchestrator sample_platform) st in
  activeRadioRequest st = true /\
  timerRadioRequest st < runningTime st /\
  microbit_ID st = Int 1 /\
  live st (Int 2) = false /\
  trace st = [] /\
  packet_loss st = 0 /\
  result (runGatewayOrchestrator sample_platform) st = Done tt /\
  packet_loss st' = 1 /\
  microbit_ID st' = Int 2 /\
  trace st' = [].
Proof. cbv zeta. repeat apply conj; vm_compute; reflexivity. Qed.

(** C5, as stated, fails in a second way: the gateway awaits the reply of
    leaf 22 when a value of leaf 11 arrives and moves the poll cursor back
    to the entry of leaf 11; the tick that finds the deadline passed
    counts the loss, advances the cursor from there, and polls leaf 22,
    the unresponsive device, again. *)
Lemma timeout_tick_polls_same_device_again :
  let st := stray_while_awaiting_22 in
  let st' := exec (runGatewayOrchestrator sample_platform) st in
  deviceMode st = Gateway /\
  device_registrar st = [100; 11; 22] /\
  activeRadioRequest st = true /\
  timerRadioRequest st < runningTime st /\
  last_token (trace st) = Some (Int 22) /\
  microbit_ID st = Int 1 /\
  result (runGatewayOrchestrator sample_platform) st = Done tt /\
  packet_loss st' = packet_loss st + 1 /\
  microbit_ID st' = Int 2 /\
  radio (trace st') = (radio (trace st) ++ [RadioSendValue "token" (Int 22)])%list.
Proof. cbv zeta. repeat apply conj; vm_compute; reflexivity. Qed.

Section SchedulerClaims.

Variable hw : Platform.

(** C10 (amended).  When a scheduler tick advances the poll cursor onto an
    entry whose telemetry slot is [null] (a deactivated device, or any
    position of an empty registry), the tick returns, broadcasts no token
    and performs no local telemetry or property submission: it adds
    nothing but diagnostic records to the trace and leaves the three
    buffer arrays and the in-flight flag as they were.  If the tick
    started with no request in flight, the in-flight flag is left false
    and the loss counter unchanged. *)
Theorem tick_onto_null_slot st :
  deviceMode st = Gateway ->
  js_get (device_telemetry st) (next_cursor st) = None ->
  activeRadioRequest st = false \/ timerRadioRequest st < runningTime st ->
  let st' := exec (runGatewayOrchestrator hw) st in
  result (runGatewayOrchestrator hw) st = Done tt /\
  microbit_ID st' = next_cursor st /\
  (exists d, diagnostics d /\ trace st' = (trace st ++ d)%list) /\
  device_telemetry st' = device_telemetry st /\
  device_property st' = device_property st /\
  device_log st' = device_log st /\
  activeRadioRequest st' = activeRadioRequest st /\
  (activeRadioRequest st = false ->
   activeRadioRequest st' = false /\ packet_loss st' = packet_loss st).
Proof.
  intros Hg Hn Hadv st'. subst st'. unfold result, exec.
  destruct (activeRadioRequest st) eqn:Ha.
  - destruct Hadv as [Hadv|He]; [discriminate|].
    destruct (tick_timeout hw st Hg Ha He) as (dt0 & d0 & Hd0 & ->).
    set (s0 := world dt0 d0 _).
    destruct (request_next_mb_null hw s0 Hg Hn) as (dt & d & Hd & ->).
    cbn [fst snd]. subst s0. fields.
    repeat split; try reflexivity; try assumption; try discriminate.
    exists (d0 ++ d)%list. split; [apply diagnostics_app; assumption|].
    symmetry. apply app_assoc.
  - rewrite (tick_idle hw st Hg Ha).
    destruct (request_next_mb_null hw st Hg Hn) as (dt & d & Hd & ->).
    cbn [fst snd]. fields.
    repeat split; try reflexivity; try assumption.
    exists d. split; [assumption | reflexivity].
Qed.

(** C5 (amended).  If a request is in flight, the poll cursor is on an
    entry [m] of the registry and the deadline has passed at a tick, that
    tick increases the loss counter by exactly one and leaves the poll
    cursor on the next entry, [(m + 1) % n], which is not [m] if [m] is a
    remote entry; the one request step of the tick is for that entry: if
    it is a live remote entry its token, and no other, is broadcast and
    the request is in flight, otherwise no token is broadcast.  If the
    cursor is still on the entry the last token went to (the device whose
    reply is awaited; no serial number is registered twice), the tick
    therefore does not poll the unresponsive device again; a radio value
    of another device received in the meantime moves the cursor to that
    device, and nothing is said then.  The registry is the one
    [setDeviceMode] sets up, the gateway being its entry 0.  And over
    every run of the program, whatever the events and the calls of the
    exported functions, the loss counter never decreases. *)
Theorem timeout_counts_one_loss_and_advances :
  (forall st m,
     deviceMode st = Gateway ->
     activeRadioRequest st = true ->
     timerRadioRequest st < runningTime st ->
     microbit_ID st = Int m ->
     0 <= m < alen (device_registrar st) ->
     indexOf (device_registrar st) (deviceSerialNumber hw) = 0 ->
     let c := Z.rem (m + 1) (alen (device_registrar st)) in
     let st' := exec (runGatewayOrchestrator hw) st in
     let polled := (0 <? c) && live st (Int c) in
     let next := nth (Z.to_nat c) (device_registrar st) 0 in
     packet_loss st' = packet_loss st + 1 /\
     microbit_ID st' = Int c /\
     (0 < m -> c <> m) /\
     (forall sn,
        last_token (trace st) = Some (Int sn) ->
        nth (Z.to_nat m) (device_registrar st) 0 = sn ->
        0 < m ->
        NoDup (device_registrar st) ->
        next <> sn) /\
     0 <= c < alen (device_registrar st) /\
     radio (trace st') =
       (radio (trace st)
        ++ if polled then [RadioSendValue "token" (Int next)] else [])%list /\
     (polled = true ->
      result (runGatewayOrchestrator hw) st = Done tt /\
      activeRadioRequest st' = true /\
      last_token (trace st') = Some (Int next))) /\
  (forall evs st, packet_loss st <= packet_loss (run_events hw evs st)).
Proof.
  split.
  - intros st m Hg Ha He Hm Hrange H0 c st' polled next.
    set (n := alen (device_registrar st)) in *.
    assert (Hc : 0 <= c < n /\ (0 < m -> c <> m)).
    { subst c. rewrite Z.rem_mod_nonneg by lia.
      destruct (Z.eq_dec (m + 1) n) as [E|E].
      - rewrite E, Z_mod_same_full. lia.
      - rewrite Z.mod_small by lia. lia. }
    assert (Hother : forall sn,
               last_token (trace st) = Some (Int sn) ->
               nth (Z.to_nat m) (device_registrar st) 0 = sn ->
               0 < m ->
               NoDup (device_registrar st) ->
               next <> sn).
    { intros sn _ <- Hpos Hnd Heq. subst next.
      apply (proj1 (NoDup_nth _ 0) Hnd) in Heq; unfold n, alen in *; lia. }
    destruct (tick_timeout hw st Hg Ha He) as (dt0 & d0 & Hd0 & E0).
    set (s0 := world dt0 d0 _) in E0.
    assert (Hnext : next_cursor s0 = Int c).
    { unfold next_cursor. subst s0. fields. rewrite Hm. cbn [num_add num_rem].
      fold n. replace (n =? 0) with false by (symmetry; apply Z.eqb_neq; lia).
      reflexivity. }
    subst st' polled next. unfold result, exec. rewrite E0. unfold live.
    change (device_telemetry st) with (device_telemetry s0).
    destruct (js_get (device_telemetry s0) (Int c)) as [buf|] eqn:Hb.
    + destruct (Z.eq_dec c 0) as [Ec|Ec].
      * (* the gateway itself *)
        rewrite Ec in *. cbn [Z.ltb andb].
        destruct (request_next_mb_local hw s0 buf Hg Hnext Hb H0)
          as (T & dt & d & Hd & E1).
        cbv zeta in E1. unfold exec in E1. rewrite E1.
        set (s1 := set_timerGatewayRequest T _) in *.
        destruct (local_submission_kept hw s1) as (_ & _ & Hl & _ & Hr & Hk).
        unfold exec in Hl, Hr, Hk. rewrite Hl, Hr, Hk by (exact H0 || reflexivity).
        subst s1 s0. fields.
        rewrite !radio_app, (diagnostics_radio d0), (diagnostics_radio d) by assumption.
        rewrite !app_nil_r.
        repeat split; try reflexivity; try lia.
        all: try discriminate. all: try exact Hother.
      * (* a live remote entry *)
        assert (Hpos : 0 < c) by lia.
        replace (0 <? c) with true by (symmetry; apply Z.ltb_lt; lia). cbn [andb].
        destruct (request_next_mb_remote hw s0 c buf Hg Hnext Hpos Hb)
          as (T & dt & d & Hd & ->).
        cbn [fst snd]. subst s0. fields.
        rewrite js_get_map_Some by (fold n; lia).
        rewrite !radio_app, (diagnostics_radio d0), (diagnostics_radio d) by assumption.
        cbn [to_number radio filter is_radio app]. rewrite !app_nil_r.
        repeat split; try reflexivity; try lia. all: try exact Hother.
        rewrite !app_assoc. apply last_token_snoc.
    + rewrite andb_false_r. rewrite <- Hnext in Hb.
      destruct (request_next_mb_null hw s0 Hg Hb) as (dt & d & Hd & ->).
      cbn [fst snd]. rewrite Hnext. subst s0. fields.
      rewrite !radio_app, (diagnostics_radio d0), (diagnostics_radio d) by assumption.
      rewrite !app_nil_r.
      repeat split; try reflexivity; try lia.
      all: try discriminate. all: try exact Hother.
  - induction evs as [|ev evs IH]; intros st; cbn [run_events].
    + lia.
    + pose proof (handle_loss_le hw ev st) as H. unfold exec, loss_le in H.
      destruct (handle hw ev st) as [[[]|e] s']; cbn [snd] in H.
      * specialize (IH s'). lia.
      * exact H.
Qed.

End SchedulerClaims.

Lemma tick_onto_null_slot_witness :
  deviceMode init_state = Gateway /\
  packet_loss (exec (runGatewayOrchestrator sample_platform) init_state) =
  packet_loss init_state.
Proof.
  split; [reflexivity|].
  apply (tick_onto_null_slot sample_platform init_state eq_refl eq_refl
           (or_introl eq_refl)).
  reflexivity.
Defined.

Lemma timeout_counts_one_loss_and_advances_witness :
  deviceMode awaiting_11 = Gateway /\
  activeRadioRequest awaiting_11 = true /\
  timerRadioRequest awaiting_11 < runningTime awaiting_11 /\
  microbit_ID awaiting_11 = Int 1 /\
  0 <= 1 < alen (device_registrar awaiting_11) /\
  indexOf (device_registrar awaiting_11) (deviceSerialNumber sample_platform) = 0 /\
  last_token (trace awaiting_11) = Some (Int 11) /\
  nth (Z.to_nat 1) (device_registrar awaiting_11) 0 = 11 /\
  NoDup (device_registrar awaiting_11) /\
  packet_loss (exec (runGatewayOrchestrator sample_platform) awaiting_11) =
    packet_loss awaiting_11 + 1 /\
  nth (Z.to_nat (Z.rem (1 + 1) (alen (device_registrar awaiting_11))))
      (device_registrar awaiting_11) 0 <> 11.
Proof.
  assert (Hr : 0 <= 1 < alen (device_registrar awaiting_11))
    by (split; [discriminate | reflexivity]).
  assert (Hn : NoDup (device_registrar awaiting_11)).
  { assert (E : device_registrar awaiting_11 = [100; 11; 22])
      by (vm_compute; reflexivity).
    rewrite E. repeat constructor; simpl; lia. }
  repeat (split; [reflexivity|]). split; [exact Hr|].
  repeat (split; [reflexivity|]). split; [exact Hn|].
  destruct (proj1 (timeout_counts_one_loss_and_advances sample_platform)
              awaiting_11 1 eq_refl eq_refl eq_refl eq_refl Hr eq_refl)
    as (L & _ & _ & O & _).
  split; [exact L|].
  exact (O 11 eq_refl eq_refl eq_refl Hn).
Defined.

(* ================================================================== *)
(** ** The uplink: relaying inbound lines *)
(* ================================================================== *)

Section SerialClaims.

Variable hw : Platform.

(** C7.  Given the uplink input line [1,2:rgb(255,0,0)], the gateway
    returns and broadcasts on the radio exactly two strings,
    [1:rgb(255,0,0)] followed by [2:rgb(255,0,0)], and nothing else. *)
Theorem addressed_fan_out st :
  deviceMode st = Gateway ->
  result (onDataReceived hw "1,2:rgb(255,0,0)") st = Done tt /\
  radio (trace (exec (onDataReceived hw "1,2:rgb(255,0,0)") st)) =
    (radio (trace st)
     ++ [RadioSendString "1:rgb(255,0,0)"; RadioSendString "2:rgb(255,0,0)"])%list.
Proof.
  intros Hg.
  apply (onDataReceived_addressed hw "1,2:rgb(255,0,0)" st Hg).
  - reflexivity.
  - intros cmd [<-|[<-|[]]]; reflexivity.
Qed.

(** C8 (amended).  For every inbound serial line on a gateway.  An empty
    line is ignored: the handler returns having written nothing but a
    diagnostic record (no variable changes, nothing is broadcast); so is
    a line with two or more [:] separators.  A non-empty line with no [:]
    is executed and then re-broadcast on the radio verbatim, if its call
    is well formed (an opening parenthesis, a name other than [reset]);
    if it is not, the handler does not return (a TypeError, or the reset
    of the device) and nothing is broadcast.  A line with exactly one [:]
    is re-broadcast as one command per listed address, in the order of
    the addresses; a command is executed by the gateway only if its
    address is the identity of the gateway, and if the call is not well
    formed the handler stops there: the commands before the first one
    addressed to the gateway have been broadcast, that command and the
    commands after it are not.  The handler returns if and only if the
    call is well formed or no address is the identity of the gateway. *)
Theorem serial_line_relay st line :
  deviceMode st = Gateway ->
  let st' := exec (onDataReceived hw line) st in
  let t0 := split ":" line in
  let call := nth 1 t0 EmptyString in
  let addresses := split "," (hd EmptyString t0) in
  (isEmpty line = true \/ 2 < alen t0 ->
   exists dt d, diagnostics d /\
     onDataReceived hw line st = (Done tt, world dt d st)) /\
  (isEmpty line = false ->
   alen t0 = 1 ->
   if call_ok line
   then result (onDataReceived hw line) st = Done tt /\
        radio (trace st') = (radio (trace st) ++ [RadioSendString line])%list
   else (exists e, result (onDataReceived hw line) st = Aborted e) /\
        radio (trace st') = radio (trace st)) /\
  (alen t0 = 2 ->
   radio (trace st') =
     (radio (trace st)
      ++ map RadioSendString
           (map (fun a => (a ++ ":" ++ call)%string)
              (if call_ok call then addresses
               else before_first (addressed_here hw st) addresses)))%list /\
   (result (onDataReceived hw line) st = Done tt <->
    call_ok call = true \/ existsb (addressed_here hw st) addresses = false)).
Proof.
  intros Hg st' t0 call addresses. split; [|split].
  - intros H. apply onDataReceived_ignored; assumption.
  - intros Hne H1. destruct (call_ok line) eqn:Hok.
    + apply onDataReceived_global; try assumption.
      rewrite command_ok_global by exact H1. exact Hok.
    + subst st'. unfold result, exec, onDataReceived.
      rewrite (gateway_handler _ st Hg). cbv zeta.
      fold t0. rewrite Hne, H1. cbn [negb when Z.eqb Pos.eqb].
      rewrite (bind_run _ _ tt st _ (debug_run _ _ st)).
      set (s1 := world _ _ st).
      destruct (parseCall_aborts hw line s1 Hok) as (e & s' & E).
      assert (E' : processC2D hw line s1 = (Aborted e, s'))
        by (rewrite processC2D_global by assumption; exact E).
      rewrite (bind_abort _ _ _ _ _ (bind_abort _ _ _ _ _ E')). cbn [fst snd].
      split; [exists e; reflexivity|].
      pose proof (processC2D_radio_kept hw line s1) as K.
      unfold exec, radio_kept in K. rewrite E' in K. cbn [snd] in K. rewrite K.
      subst s1. fields.
      rewrite radio_app, (diagnostics_radio _ (diagnostics_debug_out st _ _)).
      apply app_nil_r.
  - intros H2.
    destruct (split_one_colon line H2) as (a0 & c0 & Es & Ha0 & Hc0).
    assert (Ecall : call = c0) by (subst call t0; rewrite Es; reflexivity).
    assert (Eaddr : addresses = split "," a0)
      by (subst addresses t0; rewrite Es; reflexivity).
    assert (Fa : Forall (fun a => occurs ":" a = false) addresses)
      by (rewrite Eaddr; apply split_keeps_absent; exact Ha0).
    assert (Hcall : occurs ":" call = false) by (rewrite Ecall; exact Hc0).
    destruct (call_ok call) eqn:Hok.
    + assert (Hall : forall cmd, In cmd (fan_out line) -> command_ok cmd = true).
      { intros cmd Hin. unfold fan_out in Hin. cbv zeta in Hin.
        apply in_map_iff in Hin. destruct Hin as (a & <- & Hin).
        fold t0 in Hin |- *. fold call. fold addresses in Hin.
        rewrite command_ok_addressed; [exact Hok | | exact Hcall].
        exact (proj1 (Forall_forall _ _) Fa a Hin). }
      destruct (onDataReceived_addressed hw line st Hg H2 Hall) as [R T].
      split; [exact T|]. split; [left; reflexivity | intros _; exact R].
    + assert (Hne : isEmpty line = false).
      { destruct (isEmpty line) eqn:E; [|reflexivity].
        apply isEmpty_split_one in E. fold t0 in H2. unfold t0 in H2. lia. }
      subst st'. unfold result, exec, onDataReceived.
      rewrite (gateway_handler _ st Hg). cbv zeta.
      fold t0. rewrite Hne, H2. cbn [negb when Z.eqb Pos.eqb].
      rewrite (bind_run _ _ tt st _ (debug_run _ _ st)).
      set (s1 := world _ _ st).
      rewrite (bind_run (ret tt) _ tt s1 s1 eq_refl).
      fold call. fold addresses.
      change (forM_ addresses _) with (forM_ addresses (relay_one hw call)).
      destruct (relay_loop hw call addresses s1 Hcall Fa Hok) as [T R].
      unfold exec, result in T, R. split.
      * rewrite T. subst s1. fields.
        rewrite radio_app, (diagnostics_radio _ (diagnostics_debug_out st _ _)),
          app_nil_r.
        reflexivity.
      * rewrite R. split; [intros H; right; exact H|].
        intros [H|H]; [discriminate | exact H].
Qed.

End SerialClaims.

Lemma addressed_fan_out_witness :
  deviceMode three_nodes = Gateway /\
  radio (trace (exec (onDataReceived sample_platform "1,2:rgb(255,0,0)") three_nodes)) =
    [RadioSendString "1:rgb(255,0,0)"; RadioSendString "2:rgb(255,0,0)"].
Proof.
  split; [reflexivity|].
  exact (proj2 (addressed_fan_out sample_platform three_nodes eq_refl)).
Defined.

(** C8, as stated, fails: the non-empty line [a:b:c] has two [:]
    separators; the handler returns and broadcasts nothing. *)
Lemma line_with_two_colons_not_relayed :
  isEmpty "a:b:c" = false /\
  split ":" "a:b:c" = ["a"; "b"; "c"] /\
  result (onDataReceived sample_platform "a:b:c") three_nodes = Done tt /\
  radio (trace (exec (onDataReceived sample_platform "a:b:c") three_nodes)) = [].
Proof. repeat split; reflexivity. Qed.

Lemma serial_line_relay_witness :
  deviceMode three_nodes = Gateway /\
  isEmpty "who()" = false /\
  alen (split ":" "who()") = 1 /\
  call_ok "who()" = true /\
  radio (trace (exec (onDataReceived sample_platform "who()") three_nodes)) =
    (radio (trace three_nodes) ++ [RadioSendString "who()"])%list.
Proof.
  split; [reflexivity|]. split; [reflexivity|]. split; [reflexivity|].
  split; [reflexivity|].
  exact (proj2 (proj1 (proj2 (serial_line_relay sample_platform three_nodes "who()"
                                 eq_refl))
                  eq_refl eq_refl)).
Defined.

(* ================================================================== *)
(** ** The registry: deactivation, re-registration, unknown senders *)
(* ================================================================== *)

Lemma indexOf_neg_not_In (a : list Z) (x : Z) : indexOf a x < 0 -> ~ In x a.
Proof.
  induction a as [|y r IH]; simpl indexOf; [intros _ []|].
  destruct (y =? x) eqn:E; [lia|].
  destruct (indexOf r x <? 0) eqn:E'; [|apply Z.ltb_ge in E'; lia].
  apply Z.ltb_lt in E'. intros _ [H|H].
  - apply Z.eqb_neq in E. contradiction.
  - exact (IH E' H).
Qed.

Lemma js_get_negative {A : Type} (a : list (option A)) (z : Z) :
  z < 0 -> js_get a (Int z) = None.
Proof. intros H. unfold js_get. apply Z.ltb_lt in H. rewrite H. reflexivity. Qed.

(** X1.  Deactivating an active registered device returns, sets its
    telemetry slot to [null], leaves the registrar and the other buffer
    arrays as they are and sends the one notification [setId(-1,sn)];
    deactivating it again is a no-op: it returns, nothing more is sent,
    none of the four arrays changes, and no variable of the program
    changes at all (diagnostic records are written, if they are on). *)
Theorem deactivation_happens_once sn st buf :
  deviceMode st = Gateway ->
  js_get (device_telemetry st) (Int (indexOf (device_registrar st) sn)) = Some buf ->
  let i := Int (indexOf (device_registrar st) sn) in
  let st1 := exec (delMicrobit sn) st in
  let st2 := exec (delMicrobit sn) st1 in
  result (delMicrobit sn) st = Done tt /\
  js_get (device_telemetry st1) i = None /\
  (forall j, j <> i -> js_get (device_telemetry st1) j = js_get (device_telemetry st) j) /\
  device_registrar st1 = device_registrar st /\
  device_property st1 = device_property st /\
  device_log st1 = device_log st /\
  radio (trace st1) =
    (radio (trace st) ++ [RadioSendString ("setId(-1," ++ show_Z sn ++ ")")])%list /\
  result (delMicrobit sn) st1 = Done tt /\
  radio (trace st2) = radio (trace st1) /\
  device_telemetry st2 = device_telemetry st1 /\
  device_registrar st2 = device_registrar st1 /\
  device_property st2 = device_property st1 /\
  device_log st2 = device_log st1 /\
  exists dt d, diagnostics d /\ st2 = world dt d st1.
Proof.
  intros Hg Hb i st1 st2.
  destruct (delMicrobit_live sn st buf Hg Hb) as (dt & d1 & d2 & Hd1 & Hd2 & E1).
  assert (S1 : st1 = snd (delMicrobit sn st)) by reflexivity.
  assert (R1 : result (delMicrobit sn) st = Done tt)
    by (unfold result; rewrite E1; reflexivity).
  rewrite E1 in S1. cbn [snd] in S1. clearbody st1.
  assert (Hg1 : deviceMode st1 = Gateway) by (rewrite S1; exact Hg).
  assert (Hn : js_get (js_set (device_telemetry st) i None) i = None)
    by (apply (js_get_set_same _ _ buf); exact Hb).
  assert (Hn1 : js_get (device_telemetry st1) (Int (indexOf (device_registrar st1) sn))
                = None) by (rewrite S1; exact Hn).
  destruct (delMicrobit_idle sn st1 Hg1 Hn1) as (dt' & d' & Hd' & E2).
  assert (S2 : st2 = snd (delMicrobit sn st1)) by reflexivity.
  assert (R2 : result (delMicrobit sn) st1 = Done tt)
    by (unfold result; rewrite E2; reflexivity).
  rewrite E2 in S2. cbn [snd] in S2. clearbody st2.
  assert (T2 : radio (trace st2) = radio (trace st1)).
  { rewrite S2. fields.
    rewrite radio_app, (diagnostics_radio d'), app_nil_r by assumption. reflexivity. }
  assert (T1 : radio (trace st1) =
    (radio (trace st) ++ [RadioSendString ("setId(-1," ++ show_Z sn ++ ")")])%list).
  { rewrite S1. fields.
    rewrite !radio_app, (diagnostics_radio d1), (diagnostics_radio d2) by assumption.
    cbn [radio filter is_radio app]. rewrite ?app_nil_r. reflexivity. }
  assert (W : exists dt d, diagnostics d /\ st2 = world dt d st1)
    by (exists dt', d'; split; assumption).
  repeat (split; [first [assumption | rewrite S2; reflexivity
                        | rewrite S1; reflexivity | idtac]|]);
    try exact W.
  - rewrite S1. exact Hn.
  - intros j Hj. rewrite S1. fields. apply js_get_set_other.
    intro E. apply Hj. symmetry. exact E.
Qed.

Lemma deactivation_happens_once_witness :
  deviceMode three_nodes = Gateway /\
  js_get (device_telemetry three_nodes)
         (Int (indexOf (device_registrar three_nodes) 11)) = Some init_telemetry /\
  result (delMicrobit 11) three_nodes = Done tt.
Proof.
  split; [reflexivity|]. split; [reflexivity|].
  exact (proj1 (deactivation_happens_once 11 three_nodes init_telemetry eq_refl eq_refl)).
Defined.

(** X2.  Deactivation is permanent: when a deactivated device registers
    again, the registration returns but sends no [setId], appends nothing
    to the registry and leaves the telemetry slot [null]. *)
Theorem no_reactivation sn st buf :
  deviceMode st = Gateway ->
  js_get (device_telemetry st) (Int (indexOf (device_registrar st) sn)) = Some buf ->
  let st1 := exec (delMicrobit sn) st in
  let st2 := exec (addMicrobit sn) st1 in
  result (addMicrobit sn) st1 = Done tt /\
  js_get (device_telemetry st2) (Int (indexOf (device_registrar st2) sn)) = None /\
  device_registrar st2 = device_registrar st /\
  List.length (device_telemetry st2) = List.length (device_telemetry st) /\
  device_property st2 = device_property st /\
  device_log st2 = device_log st /\
  radio (trace st2) = radio (trace st1).
Proof.
  intros Hg Hb st1 st2.
  destruct (delMicrobit_live sn st buf Hg Hb) as (dt & d1 & d2 & Hd1 & Hd2 & E1).
  assert (S1 : st1 = snd (delMicrobit sn st)) by reflexivity.
  rewrite E1 in S1. cbn [snd] in S1. clearbody st1.
  assert (Hg1 : deviceMode st1 = Gateway) by (rewrite S1; exact Hg).
  assert (Hi : 0 <= indexOf (device_registrar st1) sn).
  { rewrite S1. apply js_get_in_range in Hb. fields. lia. }
  destruct (addMicrobit_known sn st1 Hg1 Hi) as (dt' & d' & Hd' & E2).
  assert (S2 : st2 = snd (addMicrobit sn st1)) by reflexivity.
  assert (R2 : result (addMicrobit sn) st1 = Done tt)
    by (unfold result; rewrite E2; reflexivity).
  rewrite E2 in S2. cbn [snd] in S2. clearbody st2.
  repeat split; try assumption; rewrite S2; fields.
  - rewrite S1. fields. apply (js_get_set_same _ _ buf). exact Hb.
  - rewrite S1. reflexivity.
  - rewrite S1. fields. apply (length_js_set_live _ _ buf). exact Hb.
  - rewrite S1. reflexivity.
  - rewrite S1. reflexivity.
  - rewrite radio_app, (diagnostics_radio d'), app_nil_r by assumption. reflexivity.
Qed.

Lemma no_reactivation_witness :
  deviceMode three_nodes = Gateway /\
  js_get (device_telemetry three_nodes)
         (Int (indexOf (device_registrar three_nodes) 11)) = Some init_telemetry /\
  js_get (device_telemetry (exec (addMicrobit 11) (exec (delMicrobit 11) three_nodes)))
         (Int 1) = None.
Proof.
  split; [reflexivity|]. split; [reflexivity|].
  exact (proj1 (proj2 (no_reactivation 11 three_nodes init_telemetry eq_refl eq_refl))).
Defined.

Section StraySenders.

Variable hw : Platform.

Lemma onReceivedValue_eom_null value pkt st :
  deviceMode st = Gateway ->
  js_get (device_telemetry st)
         (Int (indexOf (device_registrar st) (SerialNumber pkt))) = None ->
  exists T dt d1 d2, diagnostics d1 /\ diagnostics d2 /\
  onReceivedValue hw "eom" value pkt st =
  (Aborted TypeError,
   set_microbit_ID (Int (indexOf (device_registrar st) (SerialNumber pkt)))
     (set_timerRadioRequest T
        (world dt
           (d1 ++ [LedPlot (Int (indexOf (device_registrar st) (SerialNumber pkt))) 3]
            ++ d2) st))).
Proof.
  intros Hg Hb.
  unfold onReceivedValue, setTimerRadioRequest. cbn [String.eqb Ascii.eqb Bool.eqb orb].
  run_with Hg.
  match goal with |- context [gatewaySendTelemetry ?sn _ _ ?s] => set (s1 := s) end.
  assert (Hg1 : deviceMode s1 = Gateway) by exact Hg.
  assert (Hb1 : js_get (device_telemetry s1)
                  (Int (indexOf (device_registrar s1) (SerialNumber pkt))) = None)
    by exact Hb.
  destruct (gatewaySendTelemetry_null (SerialNumber pkt) "eom" value s1 Hg1 Hb1)
    as (dt & d & Hd & E).
  rewrite E.
  change (indexOf (device_registrar s1) (SerialNumber pkt))
    with (indexOf (device_registrar st) (SerialNumber pkt)).
  set (i := indexOf (device_registrar st) (SerialNumber pkt)) in *.
  set (m1 := "radio.onReceivedValue(" ++ _) in *.
  exists (runningTime st + debug_time st + 400),
    (debug_time st + debug_time st + debug_time st + dt),
    (debug_out st m1 None
     ++ debug_out st "radio.onReceivedValue() > sn" (Some (Int (SerialNumber pkt)))
     ++ debug_out st "radio.onReceivedValue() > id" (Some (Int i)))%list, d.
  split; [repeat apply diagnostics_app; apply diagnostics_debug_out|].
  split; [exact Hd|].
  f_equal. subst s1. clearbody i m1. clear. cbv [or_default].
  destruct st; cbv [debug_time debug_out]; setters.
  f_equal; rewrite <- ?app_assoc, ?app_nil_r; cbn [app]; try lia; try reflexivity.
Qed.

(** X3.  A closing value [eom] from a sender whose telemetry slot is
    [null] or missing (a deactivated or unregistered device) makes the
    radio handler of the gateway raise a TypeError before the in-flight
    flag is cleared: the flag, the loss counter, the registry and every
    buffer stay as they were, nothing is sent, and nothing is flushed to
    the serial line. *)
Theorem closing_value_of_dead_sender value pkt st :
  deviceMode st = Gateway ->
  js_get (device_telemetry st)
         (Int (indexOf (device_registrar st) (SerialNumber pkt))) = None ->
  let st' := exec (onReceivedValue hw "eom" value pkt) st in
  result (onReceivedValue hw "eom" value pkt) st = Aborted TypeError /\
  activeRadioRequest st' = activeRadioRequest st /\
  packet_loss st' = packet_loss st /\
  device_registrar st' = device_registrar st /\
  device_telemetry st' = device_telemetry st /\
  device_property st' = device_property st /\
  device_log st' = device_log st /\
  exists d1 d2, diagnostics d1 /\ diagnostics d2 /\
    trace st' =
    (trace st ++ d1 ++
     [LedPlot (Int (indexOf (device_registrar st) (SerialNumber pkt))) 3] ++ d2)%list.
Proof.
  intros Hg Hb st'.
  destruct (onReceivedValue_eom_null value pkt st Hg Hb)
    as (T & dt & d1 & d2 & Hd1 & Hd2 & E).
  subst st'. unfold exec, result. rewrite E. cbn [fst snd]. fields.
  repeat split. exists d1, d2. repeat split; assumption.
Qed.

End StraySenders.

Lemma closing_value_of_dead_sender_witness :
  deviceMode three_nodes = Gateway /\
  js_get (device_telemetry three_nodes)
         (Int (indexOf (device_registrar three_nodes) 77)) = None /\
  result (onReceivedValue sample_platform "eom" (Int 1) (mkPacket 77 0 0)) three_nodes
  = Aborted TypeError.
Proof.
  split; [reflexivity|]. split; [reflexivity|].
  exact (proj1 (closing_value_of_dead_sender sample_platform (Int 1) (mkPacket 77 0 0) three_nodes
                  eq_refl eq_refl)).
Defined.

(* ================================================================== *)
(** ** The reported properties *)
(* ================================================================== *)

Lemma indexOf_str_lt (a : list string) (x : string) : -1 <= indexOf_str a x < alen a.
Proof.
  unfold alen. induction a as [|y r IH]; simpl indexOf_str.
  - simpl. lia.
  - rewrite length_cons. destruct (String.eqb y x).
    + lia.
    + destruct (indexOf_str r x <? 0) eqn:E; [lia|].
      apply Z.ltb_ge in E. lia.
Qed.

Lemma indexOf_str_nth (a : list string) (x : string) :
  0 <= indexOf_str a x -> nth_error a (Z.to_nat (indexOf_str a x)) = Some x.
Proof.
  induction a as [|y r IH]; simpl indexOf_str.
  - lia.
  - destruct (String.eqb y x) eqn:E.
    + apply String.eqb_eq in E. subst. reflexivity.
    + destruct (indexOf_str r x <? 0) eqn:E'; [lia|].
      apply Z.ltb_ge in E'. intros _.
      replace (Z.to_nat (indexOf_str r x + 1))
        with (S (Z.to_nat (indexOf_str r x))) by lia.
      simpl. auto.
Qed.

Lemma indexOf_str_not_In (a : list string) (x : string) :
  indexOf_str a x < 0 -> ~ In x a.
Proof.
  induction a as [|y r IH]; simpl indexOf_str; [intros _ []|].
  destruct (String.eqb y x) eqn:E; [lia|].
  destruct (indexOf_str r x <? 0) eqn:E'; [|apply Z.ltb_ge in E'; lia].
  apply Z.ltb_lt in E'. intros _ [H|H].
  - apply String.eqb_neq in E. contradiction.
  - exact (IH E' H).
Qed.

Lemma indexOf_str_push (a : list string) (p q : string) :
  indexOf_str (push a p) q =
  if indexOf_str a q <? 0
  then if String.eqb p q then alen a else -1
  else indexOf_str a q.
Proof.
  unfold push, alen. induction a as [|y r IH].
  - simpl. destruct (String.eqb p q); reflexivity.
  - cbn [app indexOf_str]. rewrite length_cons.
    destruct (String.eqb y q); [reflexivity|].
    cbv zeta. rewrite IH. pose proof (indexOf_str_lt r q) as Hr. unfold alen in Hr.
    destruct (indexOf_str r q <? 0) eqn:E.
    + cbn [Z.ltb Z.compare]. destruct (String.eqb p q).
      * destruct (Z.of_nat (List.length r) <? 0) eqn:E2;
          [apply Z.ltb_lt in E2|]; lia.
      * reflexivity.
    + rewrite E. apply Z.ltb_ge in E.
      destruct (indexOf_str r q + 1 <? 0) eqn:E2; [apply Z.ltb_lt in E2; lia|].
      reflexivity.
Qed.

(** Writing a key over itself leaves the keys as they are. *)
Lemma replace_nth_same {A : Type} (a : list A) (n : nat) (x : A) :
  nth_error a n = Some x -> replace_nth a n x = a.
Proof.
  revert n. induction a as [|y r IH]; intros [|n]; simpl; try discriminate.
  - intros [= ->]. reflexivity.
  - intros H. rewrite IH by assumption. reflexivity.
Qed.

Lemma nth_error_push_old {A : Type} (a : list A) (x : A) (n : nat) :
  (n < List.length a)%nat -> nth_error (push a x) n = nth_error a n.
Proof. intros H. unfold push. apply nth_error_app1. exact H. Qed.

Lemma nth_error_push_new {A : Type} (a : list A) (x : A) :
  nth_error (push a x) (List.length a) = Some x.
Proof.
  unfold push. rewrite nth_error_app2 by lia. rewrite Nat.sub_diag. reflexivity.
Qed.

Lemma addProperty_new p v st :
  indexOf_str (propString st) p < 0 ->
  addProperty p v st =
  (Done tt, set_propValue (push (propValue st) v)
              (set_propString (push (propString st) p) st)).
Proof.
  intros H. apply Z.ltb_lt in H. unfold addProperty. run. rewrite H. run. reflexivity.
Qed.

Lemma addProperty_known p v st :
  0 <= indexOf_str (propString st) p ->
  addProperty p v st =
  (Done tt,
   set_propValue (replace_nth (propValue st) (Z.to_nat (indexOf_str (propString st) p)) v) st).
Proof.
  intros H. pose proof (indexOf_str_nth _ _ H) as Hn.
  apply Z.ltb_ge in H. unfold addProperty. run. rewrite H. run. fields.
  rewrite (replace_nth_same _ _ _ Hn). destruct st. reflexivity.
Qed.

(** X4.  [addProperty(p, v)] keeps the reported properties a map: the two
    arrays stay equal in length and no key appears twice; afterwards the
    value reported for [p] is [v], the value reported for every other key
    is as before, and the keys are the old keys, with [p] added at the end
    if and only if it was not among them. *)
Theorem addProperty_updates_map p v st :
  properties_ok st ->
  let st' := exec (addProperty p v) st in
  result (addProperty p v) st = Done tt /\
  properties_ok st' /\
  reported st' p = Some v /\
  (forall q, q <> p -> reported st' q = reported st q) /\
  propString st' =
    (if indexOf_str (propString st) p <? 0
     then propString st ++ [p] else propString st)%list.
Proof.
  intros [Hl Hn] st'. subst st'. unfold exec, result.
  pose proof (indexOf_str_lt (propString st) p) as Hlt. unfold alen in Hlt.
  destruct (indexOf_str (propString st) p <? 0) eqn:E.
  - apply Z.ltb_lt in E. rewrite (addProperty_new p v st E). cbn [fst snd].
    unfold properties_ok, reported. fields.
    split; [reflexivity|]. split; [|split; [|split; [|reflexivity]]].
    + split.
      * unfold push. rewrite !length_app. simpl. lia.
      * unfold push. apply NoDup_app; [exact Hn | repeat constructor; intros [] | ].
        intros x Hx [<-|[]]. exact (indexOf_str_not_In _ _ E Hx).
    + rewrite indexOf_str_push. apply Z.ltb_lt in E. rewrite E, String.eqb_refl.
      destruct (alen (propString st) <? 0) eqn:E2;
        [apply Z.ltb_lt in E2; unfold alen in E2; lia|].
      unfold alen. rewrite Nat2Z.id, Hl. apply nth_error_push_new.
    + intros q Hq. rewrite indexOf_str_push.
      pose proof (indexOf_str_lt (propString st) q) as Hq'. unfold alen in Hq'.
      destruct (indexOf_str (propString st) q <? 0) eqn:E3.
      * apply String.eqb_neq in Hq. rewrite String.eqb_sym in Hq. rewrite Hq.
        reflexivity.
      * rewrite E3. apply Z.ltb_ge in E3. apply nth_error_push_old. lia.
  - apply Z.ltb_ge in E. rewrite (addProperty_known p v st E). cbn [fst snd].
    unfold properties_ok, reported. fields.
    split; [reflexivity|]. split; [|split; [|split; [|reflexivity]]].
    + split; [rewrite length_replace_nth; exact Hl | exact Hn].
    + apply Z.ltb_ge in E. rewrite E. apply Z.ltb_ge in E.
      rewrite nth_error_replace_nth, Nat.eqb_refl.
      destruct (nth_error (propValue st) (Z.to_nat (indexOf_str (propString st) p)))
        eqn:En; [reflexivity|].
      apply nth_error_None in En. lia.
    + intros q Hq. destruct (indexOf_str (propString st) q <? 0) eqn:E3; [reflexivity|].
      apply Z.ltb_ge in E3. rewrite nth_error_replace_nth.
      destruct (Nat.eqb _ _) eqn:E4; [|reflexivity].
      apply Nat.eqb_eq in E4. exfalso. apply Hq.
      pose proof (indexOf_str_nth _ _ E) as N1.
      pose proof (indexOf_str_nth _ _ E3) as N2.
      rewrite E4 in N1. congruence.
Qed.

Lemma addProperty_updates_map_witness :
  properties_ok init_state /\
  reported (exec (addProperty "colour" (Int 3))
                 (exec (addProperty "colour" (Int 2)) init_state)) "colour"
  = Some (Int 3).
Proof.
  assert (H0 : properties_ok init_state) by (split; [reflexivity | constructor]).
  split; [exact H0|].
  apply (addProperty_updates_map "colour" (Int 3)
           (exec (addProperty "colour" (Int 2)) init_state)).
  apply (addProperty_updates_map "colour" (Int 2) init_state H0).
Defined.

(* ================================================================== *)
(** ** Invariants of every run *)
(* ================================================================== *)

Lemma respects_run_events (R : State -> State -> Prop) {HR : PreOrder R} hw :
  (forall ev, respects R (handle hw ev)) ->
  forall evs st, R st (run_events hw evs st).
Proof.
  intros H evs. induction evs as [|ev evs IH]; intros st; cbn [run_events].
  - reflexivity.
  - specialize (H ev st). unfold exec in H.
    destruct (handle hw ev st) as [[[]|e] s']; cbn [snd] in H.
    + etransitivity; [exact H | apply IH].
    + exact H.
Qed.

#[global] Instance registry_grows_preorder : PreOrder registry_grows.
Proof.
  split.
  - intros s. split; [auto|]. split; [auto|].
    exists nil. rewrite app_nil_r. reflexivity.
  - intros a b c (A1 & N1 & e1 & E1) (A2 & N2 & e2 & E2).
    split; [auto|]. split; [auto|].
    exists (e1 ++ e2)%list. rewrite E2, E1, app_assoc. reflexivity.
Qed.

Lemma registry_grows_same s s' :
  device_registrar s' = device_registrar s ->
  List.length (device_telemetry s') = List.length (device_telemetry s) ->
  List.length (device_property s') = List.length (device_property s) ->
  List.length (device_log s') = List.length (device_log s) ->
  registry_grows s s'.
Proof.
  unfold registry_grows, registry_aligned. intros -> -> -> ->.
  split; [tauto|]. split; [auto|]. exists nil. rewrite app_nil_r. reflexivity.
Qed.

Lemma append_registry_grows (k : Stream) sn text num :
  respects registry_grows (append_to k sn text num).
Proof.
  intros st. unfold exec. pose proof (append_cases k sn text num st) as H.
  cbv zeta in H. destruct (deviceMode st).
  - rewrite H. reflexivity.
  - destruct H as (dt & evs & H).
    destruct (js_get (buffers k st) _) as [buf|] eqn:Hb.
    + destruct H as (new & ->). cbn [snd].
      pose proof (length_js_set_live _ _ _ (Some new) Hb) as Hl.
      destruct k; cbn [set_buffers buffers] in *;
        apply registry_grows_same; fields; auto.
    + rewrite H. cbn [snd]. apply registry_grows_same; reflexivity.
Qed.

Lemma gatewaySendTelemetry_registry_grows sn text num :
  respects registry_grows (gatewaySendTelemetry sn text num).
Proof. exact (append_registry_grows Telemetry sn text num). Qed.

Lemma gatewaySendProperty_registry_grows sn text num :
  respects registry_grows (gatewaySendProperty sn text num).
Proof. exact (append_registry_grows Property sn text num). Qed.

Lemma addMicrobit_registry_grows sn : respects registry_grows (addMicrobit sn).
Proof.
  intros st. unfold exec. destruct (deviceMode st) eqn:Hg.
  - rewrite addMicrobit_endpoint by assumption. reflexivity.
  - destruct (Z.lt_ge_cases (indexOf (device_registrar st) sn) 0) as [Hi|Hi].
    + destruct (addMicrobit_new sn st Hg Hi) as (dt & d1 & d2 & _ & _ & ->).
      cbn [snd]. unfold registry_grows, registry_aligned, push. fields.
      split; [|split].
      * rewrite !length_app. cbn [List.length]. intros (H1 & H2 & H3). lia.
      * intros Hn. apply NoDup_app; [exact Hn | repeat constructor; intros [] | ].
        intros x Hx [<-|[]]. exact (indexOf_neg_not_In _ _ Hi Hx).
      * exists [sn]. reflexivity.
    + destruct (addMicrobit_known sn st Hg Hi) as (dt & d & _ & ->).
      cbn [snd]. apply registry_grows_same; reflexivity.
Qed.

Lemma delMicrobit_registry_grows sn : respects registry_grows (delMicrobit sn).
Proof.
  intros st. unfold exec. destruct (deviceMode st) eqn:Hg.
  - rewrite delMicrobit_endpoint by assumption. reflexivity.
  - destruct (js_get (device_telemetry st) (Int (indexOf (device_registrar st) sn)))
      as [buf|] eqn:Hb.
    + destruct (delMicrobit_live sn st buf Hg Hb) as (dt & d1 & d2 & _ & _ & ->).
      cbn [snd]. apply registry_grows_same; fields; auto.
      apply (length_js_set_live _ _ buf). exact Hb.
    + destruct (delMicrobit_idle sn st Hg Hb) as (dt & d & _ & ->).
      cbn [snd]. apply registry_grows_same; reflexivity.
Qed.

#[global] Hint Resolve gatewaySendTelemetry_registry_grows
  gatewaySendProperty_registry_grows addMicrobit_registry_grows
  delMicrobit_registry_grows : frame.

#[global] Instance properties_kept_preorder : PreOrder properties_kept.
Proof. split; unfold properties_kept; [intros s; auto | intros a b c; auto]. Qed.

Lemma addProperty_properties_kept p v : respects properties_kept (addProperty p v).
Proof.
  intros st [Hl Hn]. unfold exec.
  pose proof (indexOf_str_lt (propString st) p) as Hlt. unfold alen in Hlt.
  destruct (Z.lt_ge_cases (indexOf_str (propString st) p) 0) as [E|E].
  - rewrite (addProperty_new p v st E). cbn [snd].
    unfold properties_ok, push. fields. split.
    + rewrite !length_app. simpl. lia.
    + apply NoDup_app; [exact Hn | repeat constructor; intros [] | ].
      intros x Hx [<-|[]]. exact (indexOf_str_not_In _ _ E Hx).
  - rewrite (addProperty_known p v st E). cbn [snd].
    unfold properties_ok. fields.
    split; [rewrite length_replace_nth; exact Hl | exact Hn].
Qed.

#[global] Hint Resolve addProperty_properties_kept : frame.

Lemma combine_keys {A B : Type} (a : list A) (b : list B) :
  List.length a = List.length b -> map fst (combine a b) = a.
Proof.
  revert b. induction a as [|x r IH]; intros [|y b]; simpl; try discriminate; auto.
  intros [= H]. rewrite IH by assumption. reflexivity.
Qed.

Section Runs.

Variable hw : Platform.

Lemma handle_registry_grows ev : respects registry_grows (handle hw ev).
Proof.
  destruct ev; cbn [handle]; frame.
  all: apply registry_grows_same; reflexivity.
Qed.

Lemma handle_properties_kept ev : respects properties_kept (handle hw ev).
Proof.
  destruct ev; cbn [handle]; frame.
  all: unfold properties_kept, properties_ok; fields; auto.
Qed.

(** X5.  Over every run of the program (radio values, radio texts,
    serial lines, ticks and calls of the exported functions, in any order
    and with any arguments) the registry stays well formed: the four
    arrays keep one length and no serial number is registered twice; the registrar only
    grows at its end, so every registered serial number keeps the index
    it was assigned, and the registrar holds it at that index. *)
Theorem registry_invariant_of_runs evs st :
  registry_ok st ->
  let st' := run_events hw evs st in
  registry_ok st' /\
  (exists ext, device_registrar st' = (device_registrar st ++ ext)%list) /\
  (forall sn, 0 <= indexOf (device_registrar st) sn ->
     indexOf (device_registrar st') sn = indexOf (device_registrar st) sn /\
     js_get (map Some (device_registrar st'))
            (Int (indexOf (device_registrar st') sn)) = Some sn).
Proof.
  intros [Ha Hn] st'.
  destruct (respects_run_events registry_grows hw handle_registry_grows evs st)
    as (A & N & ext & E).
  fold st' in A, N, E. split; [split; auto|]. split; [exists ext; exact E|].
  intros sn Hsn.
  assert (Hi : indexOf (device_registrar st') sn = indexOf (device_registrar st) sn)
    by (rewrite E; apply indexOf_app_old; exact Hsn).
  split; [exact Hi|]. rewrite Hi. unfold js_get.
  destruct (indexOf (device_registrar st) sn <? 0) eqn:E0; [apply Z.ltb_lt in E0; lia|].
  rewrite nth_error_map, E, nth_error_app1, indexOf_nth by
    (try assumption; pose proof (indexOf_lt (device_registrar st) sn) as Hl;
     unfold alen in Hl; lia).
  reflexivity.
Qed.

(** X6.  Over every run the reported properties stay a map: [propString]
    and [propValue] keep one length and no key appears twice, so the loop
    that sends them pairwise reaches every key. *)
Theorem properties_invariant_of_runs evs st :
  properties_ok st ->
  let st' := run_events hw evs st in
  properties_ok st' /\
  map fst (combine (propString st') (propValue st')) = propString st'.
Proof.
  intros H st'.
  pose proof (respects_run_events properties_kept hw handle_properties_kept evs st H)
    as H'.
  split; [exact H'|]. apply combine_keys. exact (proj1 H').
Qed.

End Runs.

Lemma registry_invariant_of_runs_witness :
  registry_ok three_nodes /\
  indexOf (device_registrar
             (run_events sample_platform
                [RadioValue "register" (Int 0) (mkPacket 33 0 0); Tick; SerialLine "who()";
                 SendCompass true; UnregisterDevice]
                three_nodes)) 22
  = indexOf (device_registrar three_nodes) 22.
Proof.
  assert (H0 : registry_ok three_nodes).
  { split; [vm_compute; repeat split | ].
    assert (E : device_registrar three_nodes = [100; 11; 22]) by (vm_compute; reflexivity).
    rewrite E. repeat constructor; simpl; lia. }
  split; [exact H0|].
  assert (H1 : 0 <= indexOf (device_registrar three_nodes) 22)
    by (vm_compute; discriminate).
  exact (proj1 (proj2 (proj2 (registry_invariant_of_runs sample_platform
           [RadioValue "register" (Int 0) (mkPacket 33 0 0); Tick; SerialLine "who()";
                 SendCompass true; UnregisterDevice]
           three_nodes H0)) 22 H1)).
Defined.

Lemma properties_invariant_of_runs_witness :
  properties_ok init_state /\
  properties_ok (run_events sample_platform
                   [AddProperty "a" (Int 1); Tick; AddProperty "a" (Int 2)] init_state).
Proof.
  assert (H0 : properties_ok init_state) by (split; [reflexivity | constructor]).
  split; [exact H0|].
  exact (proj1 (properties_invariant_of_runs sample_platform
                  [AddProperty "a" (Int 1); Tick; AddProperty "a" (Int 2)]
                  init_state H0)).
Defined.

(* ================================================================== *)
(** ** The gateway in its own registry; the scheduler at rest *)
(* ================================================================== *)

Section GatewaySetup.

Variable hw : Platform.

(** X7.  [setDeviceMode(Mode.Gateway)] on a node with an empty registry
    makes the gateway the entry 0 of its own registry: the call returns,
    the mode is gateway, the identity 0, the registrar holds the serial
    number of the node alone, each buffer array gets one slot with its
    empty template, and [setId(0,sn)] is the one thing sent.  The gateway
    keeps the index 0 over every run that follows. *)
Theorem gateway_takes_entry_zero st :
  device_registrar st = [] ->
  let own := deviceSerialNumber hw in
  let st0 := exec (setDeviceMode hw Gateway) st in
  result (setDeviceMode hw Gateway) st = Done tt /\
  deviceMode st0 = Gateway /\
  identity st0 = Int 0 /\
  device_registrar st0 = [own] /\
  device_telemetry st0 = (device_telemetry st ++ [Some init_telemetry])%list /\
  device_property st0 = (device_property st ++ [Some init_property])%list /\
  device_log st0 = (device_log st ++ [Some init_log])%list /\
  radio (trace st0) =
    (radio (trace st) ++ [RadioSendString ("setId(0," ++ show_Z own ++ ")")])%list /\
  forall evs, indexOf (device_registrar (run_events hw evs st0)) own = 0.
Proof.
  intros Hr own st0. subst st0. unfold exec, result.
  cbn [setDeviceMode]. run.
  set (s1 := set_identity (Int 0) (set_deviceMode Gateway st)).
  assert (Hg : deviceMode s1 = Gateway) by reflexivity.
  assert (Hi : indexOf (device_registrar s1) own < 0).
  { change (device_registrar s1) with (device_registrar st). rewrite Hr. simpl. lia. }
  destruct (addMicrobit_new own s1 Hg Hi) as (dt & d1 & d2 & Hd1 & Hd2 & E).
  fold own. rewrite E. cbn [fst snd]. subst s1. fields.
  assert (E0 : indexOf (push (device_registrar st) own) own = 0).
  { rewrite Hr. unfold push. simpl. rewrite Z.eqb_refl. reflexivity. }
  rewrite E0, Hr.
  repeat split.
  - rewrite !radio_app, (diagnostics_radio d1), (diagnostics_radio d2) by assumption.
    reflexivity.
  - intros evs.
    match goal with |- context [run_events hw evs ?s] => set (s0 := s) end.
    destruct (respects_run_events registry_grows hw (handle_registry_grows hw) evs s0)
      as (_ & _ & ext & Hx).
    rewrite Hx. subst s0. fields. rewrite ?Hr. unfold push. simpl.
    rewrite Z.eqb_refl. reflexivity.
Qed.

End GatewaySetup.

Lemma gateway_takes_entry_zero_witness :
  device_registrar init_state = [] /\
  indexOf (device_registrar
     (run_events sample_platform
        [RadioValue "register" (Int 0) (mkPacket 11 0 0); Tick]
        (exec (setDeviceMode sample_platform Gateway) init_state)))
     (deviceSerialNumber sample_platform) = 0.
Proof.
  split; [reflexivity|].
  exact (proj2 (proj2 (proj2 (proj2 (proj2 (proj2 (proj2 (proj2
    (gateway_takes_entry_zero sample_platform init_state eq_refl))))))))
    [RadioValue "register" (Int 0) (mkPacket 11 0 0); Tick]).
Defined.

Section SchedulerAtRest.

Variable hw : Platform.

(** A tick of a gateway that awaits a reply not yet overdue. *)
Lemma tick_in_flight st :
  deviceMode st = Gateway ->
  activeRadioRequest st = true ->
  runningTime st <= timerRadioRequest st ->
  runGatewayOrchestrator hw st = (Done tt, st).
Proof.
  intros Hg Ha Ht. unfold runGatewayOrchestrator.
  run_using ltac:(rewrite ?Hg, ?Ha).
  assert (E : (runningTime st >? timerRadioRequest st) = false).
  { rewrite Z.gtb_ltb. apply Z.ltb_ge. exact Ht. }
  rewrite E. run_using ltac:(rewrite ?Ha). reflexivity.
Qed.

(** X8.  A scheduler tick does nothing at all (it returns and the state
    is the one before) on an endpoint, and on a gateway that has a
    request in flight whose deadline has not passed. *)
Theorem tick_waits st :
  deviceMode st = EndPoint \/
  (activeRadioRequest st = true /\ runningTime st <= timerRadioRequest st) ->
  runGatewayOrchestrator hw st = (Done tt, st).
Proof.
  intros H. destruct (deviceMode st) eqn:Hg.
  - unfold runGatewayOrchestrator. run. rewrite Hg. reflexivity.
  - destruct H as [H|[Ha Ht]]; [discriminate|].
    apply tick_in_flight; assumption.
Qed.

(** The request step onto a live remote entry, with the deadline it arms. *)
Lemma request_next_mb_deadline st z buf :
  deviceMode st = Gateway ->
  next_cursor st = Int z ->
  0 < z ->
  js_get (device_telemetry st) (Int z) = Some buf ->
  exists dt d, diagnostics d /\
  request_next_mb hw st =
  (Done tt,
   set_activeRadioRequest true
     (set_timerRadioRequest (runningTime st + dt + 400)
        (world dt
           (d ++ [RadioSendValue "token"
                    (to_number (js_get (map Some (device_registrar st)) (Int z)))])
           (set_microbit_ID (Int z) st)))).
Proof.
  intros Hg Hc Hz Hb. unfold next_cursor in *.
  assert (E1 : (z =? -1) = false) by (apply Z.eqb_neq; lia).
  assert (E2 : (z =? 0) = false) by (apply Z.eqb_neq; lia).
  assert (E3 : (z >? 0) = true) by (apply Z.gtb_lt; lia).
  unfold request_next_mb, setTimerRadioRequest.
  run_using ltac:(cbn [num_eqb num_gtb]; rewrite ?Hg, ?Hc, ?Hb, ?E1, ?E2, ?E3).
  exists (debug_time st + debug_time st + debug_time st),
    (debug_out st "request next microbit" (Some (Int z))
     ++ debug_out st "request data from remote IoT microbit" None
     ++ debug_out st "send token"
          (option_map Int (js_get (map Some (device_registrar st)) (Int z))))%list.
  split; [repeat apply diagnostics_app; apply diagnostics_debug_out|].
  f_equal. cbv [or_default]. state_eq.
Qed.

Lemma registrar_at (a : list Z) (z : Z) :
  0 <= z < alen a ->
  to_number (js_get (map Some a) (Int z)) = Int (nth (Z.to_nat z) a 0).
Proof.
  unfold js_get, alen. intros Hz.
  replace (z <? 0) with false by (symmetry; apply Z.ltb_ge; lia).
  rewrite nth_error_map.
  rewrite (nth_error_nth' a 0) by lia. reflexivity.
Qed.

Lemma next_cursor_in_range st c :
  next_cursor st = Int c -> c < alen (device_registrar st).
Proof.
  unfold next_cursor, num_rem, num_add.
  destruct (microbit_ID st) as [m|]; [|discriminate].
  destruct (alen (device_registrar st) =? 0) eqn:E; [discriminate|].
  apply Z.eqb_neq in E. intros [= <-].
  pose proof (Z.rem_bound_abs (m + 1) (alen (device_registrar st)) E).
  unfold alen in *. lia.
Qed.

(** X9.  A tick of an idle gateway (no request in flight) whose next
    entry is a live remote entry returns and issues the poll of that
    entry: the token carrying the serial number registered there is the
    one thing sent, the poll cursor is on the entry, the request is in
    flight with its deadline 400 ms after the moment of issue, and the
    loss counter and the buffers are unchanged.  A further tick at that
    moment does nothing. *)
Theorem idle_tick_polls_next_entry st c buf :
  deviceMode st = Gateway ->
  activeRadioRequest st = false ->
  next_cursor st = Int c ->
  0 < c ->
  js_get (device_telemetry st) (Int c) = Some buf ->
  let st' := exec (runGatewayOrchestrator hw) st in
  result (runGatewayOrchestrator hw) st = Done tt /\
  radio (trace st') =
    (radio (trace st)
     ++ [RadioSendValue "token" (Int (nth (Z.to_nat c) (device_registrar st) 0))])%list /\
  microbit_ID st' = Int c /\
  activeRadioRequest st' = true /\
  timerRadioRequest st' = runningTime st' + 400 /\
  packet_loss st' = packet_loss st /\
  device_telemetry st' = device_telemetry st /\
  device_property st' = device_property st /\
  device_log st' = device_log st /\
  device_registrar st' = device_registrar st /\
  runGatewayOrchestrator hw st' = (Done tt, st').
Proof.
  intros Hg Ha Hc Hz Hb st'. subst st'. unfold exec, result.
  rewrite (tick_idle hw st Hg Ha).
  destruct (request_next_mb_deadline st c buf Hg Hc Hz Hb) as (dt & d & Hd & E).
  rewrite E. cbn [fst snd].
  rewrite registrar_at by (pose proof (next_cursor_in_range st c Hc); lia).
  split; [reflexivity|]. split.
  { fields. rewrite !radio_app, (diagnostics_radio d) by assumption. reflexivity. }
  fields. repeat split; try lia.
  apply tick_in_flight; fields; [exact Hg | reflexivity | lia].
Qed.

End SchedulerAtRest.

Lemma tick_waits_witness :
  (deviceMode polling_11 = EndPoint \/
   (activeRadioRequest polling_11 = true /\
    runningTime polling_11 <= timerRadioRequest polling_11)) /\
  runGatewayOrchestrator sample_platform polling_11 = (Done tt, polling_11).
Proof.
  assert (H : deviceMode polling_11 = EndPoint \/
   (activeRadioRequest polling_11 = true /\
    runningTime polling_11 <= timerRadioRequest polling_11)).
  { right. split; [reflexivity | vm_compute; discriminate]. }
  split; [exact H|]. exact (tick_waits sample_platform polling_11 H).
Defined.

Lemma idle_tick_polls_next_entry_witness :
  deviceMode three_nodes = Gateway /\
  activeRadioRequest three_nodes = false /\
  next_cursor three_nodes = Int 1 /\
  0 < 1 /\
  js_get (device_telemetry three_nodes) (Int 1) = Some init_telemetry /\
  result (runGatewayOrchestrator sample_platform) three_nodes = Done tt.
Proof.
  repeat (split; [reflexivity|]).
  exact (proj1 (idle_tick_polls_next_entry sample_platform three_nodes 1 init_telemetry
                  eq_refl eq_refl eq_refl eq_refl eq_refl)).
Defined.

(* ================================================================== *)
(** ** The leaf side of the handshake *)
(* ================================================================== *)

#[global] Instance sends_values_preorder : PreOrder sends_values.
Proof.
  split.
  - intros s. exists 0, nil. symmetry. apply world_0.
  - intros a b c (d1 & v1 & ->) (d2 & v2 & ->).
    exists (d1 + d2), (v1 ++ v2)%list. unfold values_out.
    rewrite world_world, map_app. reflexivity.
Qed.

Lemma send_sends_values name v : respects sends_values (emit (RadioSendValue name v)).
Proof.
  intros s. unfold exec. rewrite emit_run. exists 0, [(name, v)]. reflexivity.
Qed.

Lemma pause_sends_values ms : respects sends_values (pause ms).
Proof.
  intros s. unfold exec. rewrite pause_run. exists ms, nil. reflexivity.
Qed.

#[global] Hint Resolve send_sends_values pause_sends_values : frame.

Lemma total_forM_ {A : Type} (l : list A) (f : A -> M unit) :
  (forall a, total (f a)) -> total (forM_ l f).
Proof.
  intros H. induction l as [|x r IH]; simpl.
  - apply total_ret.
  - apply total_bind; auto.
Qed.

(** A computation that returns and only sends values, as an equation. *)
Lemma sends_run (m : M unit) :
  total m -> respects sends_values m ->
  forall s, exists dt vals, m s = (Done tt, world dt (values_out vals) s).
Proof.
  intros Ht Hr s. pose proof (total_unit m Ht s) as H1.
  destruct (Hr s) as (dt & vals & H2). exists dt, vals.
  unfold result, exec in *. destruct (m s) as [r s']. simpl in *. congruence.
Qed.

Section Leaf.

Variable hw : Platform.

Lemma leafSendTelemetry_total : total (leafSendTelemetry hw).
Proof. totality. Qed.

Lemma leafSendTelemetry_sends_values : respects sends_values (leafSendTelemetry hw).
Proof. frame. Qed.

(** The telemetry of a leaf begins with its identity. *)
Lemma leafSendTelemetry_run st :
  deviceMode st = EndPoint ->
  exists dt vals,
  leafSendTelemetry hw st = (Done tt, world dt (values_out vals) st) /\
  (doTelemetry st = false -> vals = []) /\
  (doTelemetry st = true -> exists rest, vals = ("id", identity st) :: rest).
Proof.
  intros Hg. unfold leafSendTelemetry.
  rewrite bind_gets, Hg. cbn [is_endpoint when]. rewrite bind_gets.
  destruct (doTelemetry st) eqn:Ht; cbn [when].
  - cbv zeta.
    match goal with |- context [bind ?m ?k st] => set (first := m); set (rest := k) end.
    assert (H1 : first st = (Done tt, world delay (values_out [("id", identity st)]) st)).
    { subst first. run. rewrite world_world. reflexivity. }
    rewrite (bind_run first rest tt st _ H1).
    assert (Tk : total (rest tt)) by (subst rest; totality).
    assert (Rk : respects sends_values (rest tt)) by (subst rest; frame).
    destruct (sends_run (rest tt) Tk Rk (world delay (values_out [("id", identity st)]) st))
      as (dt & vals & ->).
    exists (delay + dt), (("id", identity st) :: vals).
    rewrite world_world. split; [reflexivity|]. split; [discriminate|].
    intros _. exists vals. reflexivity.
  - exists 0, nil. rewrite world_0. split; [reflexivity|]. split; [reflexivity|discriminate].
Qed.

Lemma forM_send_run (props : list (string * number)) st :
  forM_ props (fun p => emit (RadioSendValue (fst p) (snd p)) ;; pause delay) st =
  (Done tt, world (delay * alen props) (values_out props) st).
Proof.
  unfold alen. revert st. induction props as [|p r IH]; intros st.
  - simpl. rewrite world_0. reflexivity.
  - cbn [forM_]. run. rewrite IH. rewrite !world_world.
    cbn [values_out map app List.length]. do 2 f_equal. lia.
Qed.

(** The properties of a leaf: one value per key, in the order of the keys. *)
Lemma leafSendProperty_run st :
  deviceMode st = EndPoint ->
  leafSendProperty st =
  (Done tt,
   if doProperty st
   then world (delay * alen (combine (propString st) (propValue st)))
              (values_out (combine (propString st) (propValue st))) st
   else st).
Proof.
  intros Hg. unfold leafSendProperty.
  rewrite bind_gets, Hg. cbn [is_endpoint when]. rewrite bind_gets.
  destruct (doProperty st); cbn [when]; [|reflexivity].
  rewrite bind_gets. apply forM_send_run.
Qed.

Lemma leafSendEndOfMessage_run st :
  deviceMode st = EndPoint ->
  leafSendEndOfMessage st = (Done tt, world delay (values_out [("eom", Int 1)]) st).
Proof.
  intros Hg. unfold leafSendEndOfMessage. rewrite bind_gets, Hg. cbn [is_endpoint when].
  run. rewrite world_world. reflexivity.
Qed.

(** X10.  An endpoint answers the token that carries its own serial
    number, once it has an identity: the radio handler returns, changes no
    variable of the program, and sends named values only, ending with
    [eom = 1].  With telemetry on, the first value is [id] with the
    identity of the leaf; the reported properties, if they are on, are the
    last values before the terminator, one per key. *)
Theorem leaf_answers_its_token pkt st :
  deviceMode st = EndPoint ->
  num_geb (identity st) (Int 0) = true ->
  let m := onReceivedValue hw "token" (Int (deviceSerialNumber hw)) pkt in
  let props := if doProperty st then combine (propString st) (propValue st) else [] in
  result m st = Done tt /\
  exists dt tel,
    exec m st = world dt (values_out (tel ++ props ++ [("eom", Int 1)])) st /\
    (doTelemetry st = false -> tel = []) /\
    (doTelemetry st = true -> exists rest, tel = ("id", identity st) :: rest).
Proof.
  intros Hg Hi m props. subst m. unfold result, exec.
  destruct (leafSendTelemetry_run st Hg) as (dt & tel & E1 & Hoff & Hon).
  unfold onReceivedValue.
  run_using ltac:(rewrite ?Hg, ?Hi, ?E1; cbn [String.eqb Ascii.eqb Bool.eqb andb num_eqb];
                  rewrite ?Z.eqb_refl).
  rewrite leafSendProperty_run by exact Hg.
  set (s1 := world dt (values_out tel) st).
  set (s2 := if doProperty s1 then _ else s1).
  rewrite leafSendEndOfMessage_run by (subst s2 s1; destruct (doProperty _); exact Hg).
  cbn [fst snd]. split; [reflexivity|].
  subst s2 s1 props. fields.
  destruct (doProperty st).
  - exists (dt + delay * alen (combine (propString st) (propValue st)) + delay), tel.
    split; [|split; assumption].
    rewrite !world_world. unfold values_out. rewrite !map_app. f_equal. lia.
  - exists (dt + delay), tel. split; [|split; assumption].
    rewrite !world_world. unfold values_out. rewrite !map_app. reflexivity.
Qed.

(** X11.  An endpoint does nothing at all on a radio value that is not
    the token with its own serial number, and on any radio value while it
    has no identity (its identity is negative): the handler returns and
    the state is the one before. *)
Theorem leaf_ignores_other_values name value pkt st :
  deviceMode st = EndPoint ->
  num_geb (identity st) (Int 0)
  && (String.eqb name "token" && num_eqb value (Int (deviceSerialNumber hw))) = false ->
  onReceivedValue hw name value pkt st = (Done tt, st).
Proof.
  intros Hg H. unfold onReceivedValue.
  run_with Hg.
  destruct (num_geb (identity st) (Int 0)); [|reflexivity].
  cbn [andb] in H. rewrite H. reflexivity.
Qed.


End Leaf.

Lemma leaf_answers_its_token_witness :
  deviceMode leaf_1 = EndPoint /\
  num_geb (identity leaf_1) (Int 0) = true /\
  result (onReceivedValue sample_platform "token" (Int 100) (mkPacket 7 0 0)) leaf_1
  = Done tt.
Proof.
  split; [reflexivity|]. split; [reflexivity|].
  exact (proj1 (leaf_answers_its_token sample_platform (mkPacket 7 0 0) leaf_1
                  eq_refl eq_refl)).
Defined.

Lemma leaf_ignores_other_values_witness :
  deviceMode fresh_leaf = EndPoint /\
  num_geb (identity fresh_leaf) (Int 0)
  && (String.eqb "token" "token" && num_eqb (Int 100) (Int 100)) = false /\
  onReceivedValue sample_platform "token" (Int 100) (mkPacket 7 0 0) fresh_leaf
  = (Done tt, fresh_leaf).
Proof.
  split; [reflexivity|]. split; [reflexivity|].
  exact (leaf_ignores_other_values sample_platform "token" (Int 100) (mkPacket 7 0 0)
           fresh_leaf eq_refl eq_refl).
Defined.

(* ================================================================== *)
(** ** Commands: what is executed, what is ignored, what stops the handler *)
(* ================================================================== *)

Lemma serial_app (a b : list Effect) : serial (a ++ b) = (serial a ++ serial b)%list.
Proof.
  induction a as [|e a IH]; [reflexivity|].
  destruct e; simpl; rewrite IH; reflexivity.
Qed.

Lemma diagnostics_off_serial st s v :
  showDebug st = false -> debug_out st s v = [].
Proof. intros H. unfold debug_out. rewrite H, andb_false_r. reflexivity. Qed.

#[global] Instance command_kept_preorder : PreOrder command_kept.
Proof.
  split.
  - intros s. split; [destruct s; reflexivity | split; reflexivity].
  - intros a b c (A1 & A2 & A3) (B1 & B2 & B3).
    split; [|split; congruence].
    destruct a, b, c. revert A1 B1. setters. intros [= ] [= ]. subst. reflexivity.
Qed.

Lemma command_kept_display s e :
  is_radio e = false -> serial [e] = [] ->
  command_kept s (set_trace (trace s ++ [e]) s).
Proof.
  intros H1 H2. split; [destruct s; reflexivity|]. fields. split.
  - apply radio_snoc_quiet. exact H1.
  - rewrite serial_app, H2. apply app_nil_r.
Qed.

Section Commands.

Variable hw : Platform.

(** X12.  The execution of a command, whatever the command and whether
    it returns or not, sends nothing on the radio and writes nothing to
    the serial line; of the variables of the program it changes the
    identity and the flag [doCommands] at most. *)
Theorem commands_are_local s st : command_kept st (exec (processC2D hw s) st).
Proof.
  revert st. change (respects command_kept (processC2D hw s)). frame.
  all: try (apply command_kept_display; reflexivity).
  all: match goal with |- command_kept ?x _ => destruct x end.
  all: split; [reflexivity | split; reflexivity].
Qed.

(** X13.  A command whose name is none of the names the dispatcher acts
    on, and the commands [rgb] and [brightness], whose functions have no
    body, are silent: the dispatcher returns and sets [doCommands] to
    false, and nothing else happens. *)
Theorem inert_command_is_silent cmd p1 p2 p3 st :
  inert_command cmd = true ->
  invokeCommands hw cmd p1 p2 p3 st = (Done tt, set_doCommands false st).
Proof.
  unfold inert_command, effective_commands. cbn [existsb]. intros H.
  apply negb_true_iff in H.
  repeat (apply orb_false_elim in H; let E := fresh "E" in destruct H as [E H]).
  unfold invokeCommands. rewrite E, E0, E1, E2, E3, E4, E5, E6, E7.
  unfold setRGB, setBrightness.
  destruct (String.eqb cmd "rgb"), (String.eqb cmd "brightness"); reflexivity.
Qed.

(** X14.  [processC2D] does nothing at all with a text that is empty,
    that has two or more [:] separators, or whose address, read as a
    number, is not the identity of the node (an address that is no
    number matches no identity): it returns and the state is the one
    before. *)
Theorem command_for_another_node_is_ignored s st :
  isEmpty s = true \/
  2 < alen (split ":" s) \/
  (alen (split ":" s) = 2 /\
   num_eqb (parseFloat hw (hd EmptyString (split ":" s))) (identity st) = false) ->
  processC2D hw s st = (Done tt, st).
Proof.
  intros H. unfold processC2D. destruct (isEmpty s) eqn:Hne; [reflexivity|].
  cbn [negb when]. cbv zeta.
  destruct H as [H|[H|[H Hid]]]; [discriminate| |].
  - replace (alen (split ":" s) =? 1) with false by (symmetry; apply Z.eqb_neq; lia).
    replace (alen (split ":" s) =? 2) with false by (symmetry; apply Z.eqb_neq; lia).
    reflexivity.
  - rewrite H. cbn [Z.eqb Pos.eqb when]. run. rewrite Hid. reflexivity.
Qed.

(** X15.  A serial line without [:] and without an opening parenthesis
    makes the serial handler of the gateway raise a TypeError when it
    executes the line: the line is not relayed, nothing is sent on the
    radio and no variable of the program changes.  A leaf that receives
    such a text raises the TypeError as well, with [doCommands] set. *)
Theorem malformed_line_raises line st :
  isEmpty line = false ->
  alen (split ":" line) = 1 ->
  alen (split "(" line) = 1 ->
  match deviceMode st with
  | Gateway =>
      exists dt d, diagnostics d /\
      onDataReceived hw line st = (Aborted TypeError, world dt d st)
  | EndPoint =>
      onReceivedString hw line st = (Aborted TypeError, set_doCommands true st)
  end.
Proof.
  intros Hne H1 Hp. destruct (deviceMode st) eqn:Hg.
  - unfold onReceivedString. rewrite bind_gets, Hg. cbn [is_endpoint when].
    run. rewrite processC2D_global, parseCall_malformed by assumption. reflexivity.
  - unfold onDataReceived. rewrite (gateway_handler _ st Hg).
    cbv zeta. rewrite Hne, H1. cbn [negb when Z.eqb Pos.eqb]. run.
    rewrite processC2D_global, parseCall_malformed by assumption.
    eexists _, _. split; [apply diagnostics_debug_out | reflexivity].
Qed.

(** X16.  A serial line without [:] that calls [reset] restarts the
    gateway before the line is relayed: the handler stops with the
    device reset, having shown the text [reset] and set [doCommands] to
    false, and the line is never sent on the radio. *)
Theorem reset_line_is_not_relayed line st :
  deviceMode st = Gateway ->
  alen (split ":" line) = 1 ->
  1 < alen (split "(" line) ->
  hd EmptyString (split "(" line) = "reset" ->
  exists dt d, diagnostics d /\
  onDataReceived hw line st =
  (Aborted DeviceReset,
   world dt (d ++ [ShowString "reset"]) (set_doCommands false st)) /\
  radio (trace (exec (onDataReceived hw line) st)) = radio (trace st).
Proof.
  intros Hg H1 Hp Hn.
  assert (Hne : isEmpty line = false).
  { destruct line; [discriminate Hn | reflexivity]. }
  assert (E : onDataReceived hw line st =
    (Aborted DeviceReset,
     world (debug_time st)
       (debug_out st ("serial.onDataReceived() > serialRead =" ++ line) None
        ++ [ShowString "reset"]) (set_doCommands false st))).
  { unfold onDataReceived. rewrite (gateway_handler _ st Hg).
    cbv zeta. rewrite Hne, H1. cbn [negb when Z.eqb Pos.eqb]. run.
    rewrite processC2D_global by assumption.
    unfold parseCall. cbv zeta.
    destruct (nth_error (split "(" line) 1) as [args|] eqn:En;
      [|apply nth_error_None in En; unfold alen in Hp; lia].
    cbn [deref]. run. rewrite Hn, invokeCommands_reset. f_equal.
    clear. destruct st. cbv [debug_time debug_out]. setters.
    f_equal; rewrite <- ?app_assoc, ?app_nil_r; cbn [app]; try lia; reflexivity. }
  eexists _, _. split; [apply diagnostics_debug_out|]. split; [exact E|].
  unfold exec. rewrite E. cbn [snd]. fields.
  rewrite !radio_app, (diagnostics_radio _ (diagnostics_debug_out st _ _)).
  cbn [radio filter is_radio app]. apply app_nil_r.
Qed.

End Commands.

Lemma inert_command_is_silent_witness :
  inert_command "blink" = true /\
  invokeCommands sample_platform "blink" (Some "1") None None three_nodes
  = (Done tt, set_doCommands false three_nodes).
Proof.
  split; [reflexivity|].
  exact (inert_command_is_silent sample_platform "blink" (Some "1") None None
           three_nodes eq_refl).
Defined.

Lemma command_for_another_node_is_ignored_witness :
  (isEmpty "2:who()" = true \/
   2 < alen (split ":" "2:who()") \/
   (alen (split ":" "2:who()") = 2 /\
    num_eqb (parseFloat sample_platform (hd EmptyString (split ":" "2:who()")))
            (identity leaf_1) = false)) /\
  processC2D sample_platform "2:who()" leaf_1 = (Done tt, leaf_1).
Proof.
  assert (H : isEmpty "2:who()" = true \/
   2 < alen (split ":" "2:who()") \/
   (alen (split ":" "2:who()") = 2 /\
    num_eqb (parseFloat sample_platform (hd EmptyString (split ":" "2:who()")))
            (identity leaf_1) = false)).
  { right. right. split; reflexivity. }
  split; [exact H|].
  exact (command_for_another_node_is_ignored sample_platform "2:who()" leaf_1 H).
Defined.

Lemma malformed_line_raises_witness :
  isEmpty "who" = false /\
  alen (split ":" "who") = 1 /\
  alen (split "(" "who") = 1 /\
  onReceivedString sample_platform "who" leaf_1
  = (Aborted TypeError, set_doCommands true leaf_1).
Proof.
  split; [reflexivity|]. split; [reflexivity|]. split; [reflexivity|].
  exact (malformed_line_raises sample_platform "who" leaf_1 eq_refl eq_refl eq_refl).
Defined.

Lemma reset_line_is_not_relayed_witness :
  deviceMode three_nodes = Gateway /\
  alen (split ":" "reset()") = 1 /\
  1 < alen (split "(" "reset()") /\
  hd EmptyString (split "(" "reset()") = "reset" /\
  radio (trace (exec (onDataReceived sample_platform "reset()") three_nodes))
  = radio (trace three_nodes).
Proof.
  split; [reflexivity|]. split; [reflexivity|]. split; [reflexivity|].
  split; [reflexivity|].
  destruct (reset_line_is_not_relayed sample_platform "reset()" three_nodes
              eq_refl eq_refl eq_refl eq_refl) as (dt & d & _ & _ & H).
  exact H.
Defined.

(* ================================================================== *)
(** ** The registration handshake, from the gateway to the leaf *)
(* ================================================================== *)

Lemma append_assoc (a b c : string) : (a ++ b) ++ c = a ++ (b ++ c).
Proof. induction a as [|x a IH]; simpl; [reflexivity | rewrite IH; reflexivity]. Qed.

Lemma plain_parts s :
  plain s = true ->
  occurs ":" s = false /\ occurs "(" s = false /\
  occurs ")" s = false /\ occurs "," s = false.
Proof.
  unfold plain. intros H. apply negb_true_iff in H.
  repeat (apply orb_false_elim in H; destruct H as [H ?]). auto.
Qed.

Lemma uint_plain (d : Decimal.uint) : plain (NilEmpty.string_of_uint d) = true.
Proof.
  unfold plain. induction d; [reflexivity|..]; simpl in *; exact IHd.
Qed.

(** The decimal text of an integer has none of the separators. *)
Lemma show_Z_plain (z : Z) : plain (show_Z z) = true.
Proof.
  unfold show_Z, NilZero.string_of_int, NilZero.string_of_uint.
  destruct (Z.to_int z) as [d|d]; destruct d; try reflexivity;
    first [ exact (uint_plain (_ d)) | idtac ].
  all: match goal with
       | |- plain (String "-" (NilEmpty.string_of_uint ?u)) = true =>
           pose proof (uint_plain u) as H; unfold plain in *; simpl in *; exact H
       | |- plain (NilEmpty.string_of_uint ?u) = true => exact (uint_plain u)
       end.
Qed.

Section Handshake.

Variable hw : Platform.

(** A [setId] text with plain arguments is taken apart into its two
    arguments. *)
Lemma parseCall_setId (a b : string) st :
  plain a = true -> plain b = true ->
  let msg := "setId(" ++ a ++ "," ++ b ++ ")" in
  isEmpty msg = false /\
  alen (split ":" msg) = 1 /\
  parseCall hw msg st = invokeCommands hw "setId" (Some a) (Some b) None st.
Proof.
  intros Ha Hb msg.
  destruct (plain_parts a Ha) as (A1 & A2 & A3 & A4).
  destruct (plain_parts b Hb) as (B1 & B2 & B3 & B4).
  split; [reflexivity|]. split.
  - subst msg. rewrite split_absent; [reflexivity|].
    rewrite !occurs_app. cbn [occurs Ascii.eqb Bool.eqb orb].
    rewrite A1, ?occurs_app, B1. reflexivity.
  - unfold parseCall. cbv zeta.
    assert (E1 : split "(" msg = ["setId"; a ++ "," ++ b ++ ")"]).
    { subst msg. change ("setId(" ++ a ++ "," ++ b ++ ")")
        with ("setId" ++ String "(" (a ++ "," ++ b ++ ")")).
      rewrite split_at by reflexivity. rewrite split_absent; [reflexivity|].
      rewrite !occurs_app. cbn [occurs Ascii.eqb Bool.eqb orb].
      rewrite A2, B2. reflexivity. }
    rewrite E1. cbn [nth_error deref hd]. run.
    assert (E2 : split ")" (a ++ "," ++ b ++ ")") = [a ++ "," ++ b; EmptyString]).
    { change (a ++ "," ++ b ++ ")") with (a ++ String "," (b ++ String ")" EmptyString)).
      replace (a ++ String "," (b ++ String ")" EmptyString))
        with ((a ++ "," ++ b) ++ String ")" EmptyString)
        by (rewrite append_assoc; reflexivity).
      rewrite split_at; [reflexivity|].
      rewrite !occurs_app. cbn [occurs Ascii.eqb Bool.eqb orb].
      rewrite A3, B3. reflexivity. }
    rewrite E2. cbn [hd].
    assert (E3 : split "," (a ++ "," ++ b) = [a; b]).
    { change (a ++ "," ++ b) with (a ++ String "," b).
      rewrite split_at by exact A4. rewrite split_absent by exact B4. reflexivity. }
    rewrite E3. reflexivity.
Qed.

Lemma invokeCommands_setId (a b : string) st :
  invokeCommands hw "setId" (Some a) (Some b) None st =
  (Done tt,
   if num_eqb (parseFloat hw b) (Int (deviceSerialNumber hw))
   then world 0 [ShowNumber (parseFloat hw a)]
          (set_identity (parseFloat hw a) (set_doCommands false st))
   else set_doCommands false st).
Proof.
  unfold invokeCommands, setIdentity, who, setRGB.
  cbn [String.eqb Ascii.eqb Bool.eqb when parseFloat_arg]. run.
  destruct (num_eqb (parseFloat hw b) (Int (deviceSerialNumber hw))); run; reflexivity.
Qed.

(** What a leaf does with the text [setId(i,sn)] it receives. *)
Lemma onReceivedString_setId (i sn : Z) st :
  deviceMode st = EndPoint ->
  onReceivedString hw ("setId(" ++ show_Z i ++ "," ++ show_Z sn ++ ")") st =
  (Done tt,
   if num_eqb (parseFloat hw (show_Z sn)) (Int (deviceSerialNumber hw))
   then world 0 [ShowNumber (parseFloat hw (show_Z i))]
          (set_identity (parseFloat hw (show_Z i)) (set_doCommands false st))
   else set_doCommands false st).
Proof.
  intros Hg. unfold onReceivedString. rewrite bind_gets, Hg. cbn [is_endpoint when].
  run.
  destruct (parseCall_setId (show_Z i) (show_Z sn) (set_doCommands true st)
              (show_Z_plain i) (show_Z_plain sn)) as (Hne & H1 & E).
  cbv zeta in *. rewrite processC2D_global by assumption.
  rewrite E, invokeCommands_setId.
  destruct (num_eqb _ _); destruct st; reflexivity.
Qed.

End Handshake.

(** X17.  The registration reaches the leaf: the text the gateway sends
    when it registers a new serial number, received by the leaf with that
    serial number, is executed to completion and gives the leaf the index
    it was registered at as its identity; a leaf with another serial
    number executes it too and keeps its identity.  (The platform of each
    leaf reads the decimal text of the two numbers of the message as what
    they are.) *)
Theorem registration_reaches_the_leaf (leaf : Platform) g l :
  deviceMode g = Gateway ->
  deviceMode l = EndPoint ->
  let sn := deviceSerialNumber leaf in
  let i := alen (device_registrar g) in
  indexOf (device_registrar g) sn < 0 ->
  parseFloat leaf (show_Z i) = Int i ->
  parseFloat leaf (show_Z sn) = Int sn ->
  exists msg,
    radio (trace (exec (addMicrobit sn) g)) =
      (radio (trace g) ++ [RadioSendString msg])%list /\
    indexOf (device_registrar (exec (addMicrobit sn) g)) sn = i /\
    result (onReceivedString leaf msg) l = Done tt /\
    identity (exec (onReceivedString leaf msg) l) = Int i /\
    forall (other : Platform) l',
      deviceMode l' = EndPoint ->
      parseFloat other (show_Z sn) = Int sn ->
      deviceSerialNumber other <> sn ->
      result (onReceivedString other msg) l' = Done tt /\
      identity (exec (onReceivedString other msg) l') = identity l'.
Proof.
  intros Hg Hl sn i Hnew Pi Psn.
  destruct (addMicrobit_new sn g Hg Hnew) as (dt & d1 & d2 & Hd1 & Hd2 & E).
  assert (Ei : indexOf (push (device_registrar g) sn) sn = i).
  { apply indexOf_push_new. pose proof (indexOf_lt (device_registrar g) sn). lia. }
  rewrite Ei in E.
  exists ("setId(" ++ show_Z i ++ "," ++ show_Z sn ++ ")").
  unfold exec, result. rewrite E. cbn [fst snd]. fields.
  split; [|split; [exact Ei|]].
  { rewrite !radio_app, (diagnostics_radio d1), (diagnostics_radio d2) by assumption.
    reflexivity. }
  rewrite (onReceivedString_setId leaf i sn l Hl). cbn [fst snd].
  rewrite Psn, Pi. cbn [num_eqb]. fold sn. rewrite Z.eqb_refl. fields.
  split; [reflexivity|]. split; [reflexivity|].
  intros other l' Hl' Po Hne.
  rewrite (onReceivedString_setId other i sn l' Hl'). cbn [fst snd].
  rewrite Po. cbn [num_eqb].
  replace (sn =? deviceSerialNumber other) with false
    by (symmetry; apply Z.eqb_neq; congruence).
  split; reflexivity.
Qed.

(** X18.  The deactivation reaches the leaf: the text the gateway sends
    when it deactivates an active device, received by the leaf with that
    serial number, is executed to completion and sets the identity of the
    leaf to -1; from then on the leaf answers no token: every radio value
    leaves its state as it is. *)
Theorem deactivation_silences_the_leaf (leaf : Platform) g l buf :
  deviceMode g = Gateway ->
  deviceMode l = EndPoint ->
  let sn := deviceSerialNumber leaf in
  js_get (device_telemetry g) (Int (indexOf (device_registrar g) sn)) = Some buf ->
  parseFloat leaf (show_Z (-1)) = Int (-1) ->
  parseFloat leaf (show_Z sn) = Int sn ->
  exists msg,
    radio (trace (exec (delMicrobit sn) g)) =
      (radio (trace g) ++ [RadioSendString msg])%list /\
    let l' := exec (onReceivedString leaf msg) l in
    result (onReceivedString leaf msg) l = Done tt /\
    identity l' = Int (-1) /\
    forall name value pkt, onReceivedValue leaf name value pkt l' = (Done tt, l').
Proof.
  intros Hg Hl sn Hb Pi Psn.
  destruct (delMicrobit_live sn g buf Hg Hb) as (dt & d1 & d2 & Hd1 & Hd2 & E).
  exists ("setId(-1," ++ show_Z sn ++ ")").
  unfold exec, result. rewrite E. cbn [fst snd]. fields.
  split.
  { rewrite !radio_app, (diagnostics_radio d1), (diagnostics_radio d2) by assumption.
    cbn [radio filter is_radio app]. rewrite ?app_nil_r. reflexivity. }
  change ("setId(-1," ++ show_Z sn ++ ")")
    with ("setId(" ++ show_Z (-1) ++ "," ++ show_Z sn ++ ")").
  rewrite (onReceivedString_setId leaf (-1) sn l Hl). cbn [fst snd].
  rewrite Psn, Pi. cbn [num_eqb]. fold sn. rewrite Z.eqb_refl.
  split; [reflexivity|]. split; [reflexivity|].
  intros name value pkt.
  set (l' := world 0 _ _).
  assert (Hl' : deviceMode l' = EndPoint) by exact Hl.
  assert (Hi' : identity l' = Int (-1)) by reflexivity.
  clearbody l'. unfold onReceivedValue. run_with Hl'. rewrite Hi'. reflexivity.
Qed.

Lemma registration_reaches_the_leaf_witness :
  deviceMode three_nodes = Gateway /\
  deviceMode fresh_leaf = EndPoint /\
  indexOf (device_registrar three_nodes) 33 < 0 /\
  parseFloat (sample_leaf 33) (show_Z (alen (device_registrar three_nodes)))
  = Int (alen (device_registrar three_nodes)) /\
  parseFloat (sample_leaf 33) (show_Z 33) = Int 33 /\
  exists msg,
    radio (trace (exec (addMicrobit 33) three_nodes)) =
      (radio (trace three_nodes) ++ [RadioSendString msg])%list /\
    identity (exec (onReceivedString (sample_leaf 33) msg) fresh_leaf) = Int 3.
Proof.
  split; [reflexivity|]. split; [reflexivity|]. split; [reflexivity|].
  split; [reflexivity|]. split; [reflexivity|].
  destruct (registration_reaches_the_leaf (sample_leaf 33) three_nodes fresh_leaf
              eq_refl eq_refl eq_refl eq_refl eq_refl) as (msg & H1 & _ & _ & H2 & _).
  exists msg. split; [exact H1 | exact H2].
Defined.

Lemma deactivation_silences_the_leaf_witness :
  deviceMode three_nodes = Gateway /\
  deviceMode leaf_1 = EndPoint /\
  js_get (device_telemetry three_nodes) (Int (indexOf (device_registrar three_nodes) 11))
  = Some init_telemetry /\
  parseFloat (sample_leaf 11) (show_Z (-1)) = Int (-1) /\
  parseFloat (sample_leaf 11) (show_Z 11) = Int 11 /\
  exists msg,
    radio (trace (exec (delMicrobit 11) three_nodes)) =
      (radio (trace three_nodes) ++ [RadioSendString msg])%list /\
    identity (exec (onReceivedString (sample_leaf 11) msg) leaf_1) = Int (-1).
Proof.
  split; [reflexivity|]. split; [reflexivity|]. split; [reflexivity|].
  split; [reflexivity|]. split; [reflexivity|].
  destruct (deactivation_silences_the_leaf (sample_leaf 11) three_nodes leaf_1
              init_telemetry eq_refl eq_refl eq_refl eq_refl eq_refl)
    as (msg & H1 & _ & H2 & _).
  exists msg. split; [exact H1 | exact H2].
Defined.

(* ================================================================== *)
(** ** The serial uplink with diagnostics off *)
(* ================================================================== *)

#[global] Instance uplink_kept_preorder : PreOrder uplink_kept.
Proof.
  split.
  - intros s H. split; [exact H|]. exists nil. split; [|constructor].
    symmetry. apply app_nil_r.
  - intros a b c Hab Hbc Ha. destruct (Hab Ha) as (Hb & m1 & E1 & F1).
    destruct (Hbc Hb) as (Hc & m2 & E2 & F2). split; [exact Hc|].
    exists (m1 ++ m2)%list. split; [|apply Forall_app; split; assumption].
    unfold framed in *. rewrite E2, E1, flat_map_app, app_assoc. reflexivity.
Qed.

Lemma uplink_kept_same s s' :
  showDebug s' = showDebug s -> serial (trace s') = serial (trace s) ->
  uplink_kept s s'.
Proof.
  intros H1 H2 H. split; [congruence|]. exists nil. split; [|constructor].
  rewrite H2. symmetry. apply app_nil_r.
Qed.

Lemma uplink_kept_display s e :
  serial [e] = [] -> uplink_kept s (set_trace (trace s ++ [e]) s).
Proof.
  intros H. apply uplink_kept_same; [reflexivity|]. fields.
  rewrite serial_app, H. apply app_nil_r.
Qed.

Lemma debug_uplink_kept s v : respects uplink_kept (debug s v).
Proof.
  intros st H. unfold exec. rewrite debug_run. cbn [snd]. fields.
  split; [exact H|]. exists nil. split; [|constructor].
  rewrite (diagnostics_off_serial st s v H), !app_nil_r. reflexivity.
Qed.

Lemma flush_uplink_kept sn JSON :
  includes JSON "eom" = true -> respects uplink_kept (flush sn JSON).
Proof.
  intros Hj st H. unfold exec. rewrite flush_run. cbn [snd]. fields.
  split; [exact H|]. exists [JSON]. split; [|repeat constructor; exact Hj].
  rewrite serial_app. reflexivity.
Qed.

#[global] Hint Resolve debug_uplink_kept flush_uplink_kept : frame.

Section Uplink.

Variable hw : Platform.

Lemma handle_uplink_kept ev :
  keeps_diagnostics_off ev -> respects uplink_kept (handle hw ev).
Proof.
  intros Hev.
  destruct ev; cbn [handle];
    try (destruct on; [exfalso; apply Hev; reflexivity|]);
    frame.
  all: try (apply uplink_kept_display; reflexivity).
  all: try (apply uplink_kept_same; reflexivity).
  intros _. split; [reflexivity|]. exists nil. split; [|constructor].
  symmetry. apply app_nil_r.
Qed.

Lemma respects_run_events_on (P : Event -> Prop) (R : State -> State -> Prop)
    {HR : PreOrder R} :
  (forall ev, P ev -> respects R (handle hw ev)) ->
  forall evs st, Forall P evs -> R st (run_events hw evs st).
Proof.
  intros H evs. induction evs as [|ev evs IH]; intros st F; cbn [run_events].
  - reflexivity.
  - inversion F as [|? ? Hev F']; subst. specialize (H ev Hev st). unfold exec in H.
    destruct (handle hw ev st) as [[[]|e] s']; cbn [snd] in H.
    + etransitivity; [exact H | apply IH; exact F'].
    + exact H.
Qed.

(** X19.  With the diagnostics off, and as long as no call switches them
    on, the serial line of the gateway carries flushed buffer texts only:
    over every run, what is written is a sequence of texts that passed
    the flush test of the assembler, each followed by one empty line.
    The flush test is that the text includes [eom]; it does not tell
    whether the text ends with the terminator key (a text with a key
    such as [geometry] passes it as well). *)
Theorem uplink_carries_flushed_texts_only evs st :
  showDebug st = false ->
  Forall keeps_diagnostics_off evs ->
  let st' := run_events hw evs st in
  showDebug st' = false /\
  exists msgs,
    serial (trace st') = (serial (trace st) ++ framed msgs)%list /\
    Forall (fun m => includes m "eom" = true) msgs.
Proof.
  intros H F.
  exact (respects_run_events_on keeps_diagnostics_off uplink_kept
           handle_uplink_kept evs st F H).
Qed.

End Uplink.

Lemma uplink_carries_flushed_texts_only_witness :
  showDebug three_nodes = false /\
  Forall keeps_diagnostics_off
    [RadioValue "id" (Int 1) (mkPacket 11 0 0); RadioValue "eom" (Int 1) (mkPacket 11 0 0)] /\
  showDebug (run_events sample_platform
    [RadioValue "id" (Int 1) (mkPacket 11 0 0); RadioValue "eom" (Int 1) (mkPacket 11 0 0)]
    three_nodes) = false.
Proof.
  assert (F : Forall keeps_diagnostics_off
    [RadioValue "id" (Int 1) (mkPacket 11 0 0); RadioValue "eom" (Int 1) (mkPacket 11 0 0)])
    by (repeat constructor; discriminate).
  split; [reflexivity|]. split; [exact F|].
  exact (proj1 (uplink_carries_flushed_texts_only sample_platform _ three_nodes eq_refl F)).
Defined.

(* ================================================================== *)
(** ** The scheduler tick returns *)
(* ================================================================== *)

Section Safety.

Variable sn : Z.

Lemma safe_ret {A : Type} (a : A) : safe sn (ret a).
Proof. intros s H. exists a. split; [reflexivity | exact H]. Qed.

Lemma safe_gets {A : Type} (f : State -> A) : safe sn (gets f).
Proof. intros s H. exists (f s). split; [reflexivity | exact H]. Qed.

Lemma safe_modify (f : State -> State) :
  (forall s, ready sn s -> ready sn (f s)) -> safe sn (modify f).
Proof. intros Hf s H. exists tt. split; [reflexivity | exact (Hf s H)]. Qed.

Lemma safe_bind {A B : Type} (m : M A) (k : A -> M B) :
  safe sn m -> (forall a, safe sn (k a)) -> safe sn (bind m k).
Proof.
  intros Hm Hk s H. destruct (Hm s H) as (a & Ra & Ia).
  destruct (bind_done m k a s Ra) as [-> ->]. apply Hk. exact Ia.
Qed.

Lemma safe_when (b : bool) (m : M unit) : safe sn m -> safe sn (when b m).
Proof. intros H. destruct b; [exact H | apply safe_ret]. Qed.

Lemma safe_forM_ {A : Type} (l : list A) (f : A -> M unit) :
  (forall a, safe sn (f a)) -> safe sn (forM_ l f).
Proof.
  intros H. induction l as [|x r IH]; simpl.
  - apply safe_ret.
  - apply safe_bind; auto.
Qed.

Lemma safe_debug s v : safe sn (debug s v).
Proof.
  intros st H. exists tt. unfold result, exec. rewrite debug_run.
  split; [reflexivity | exact H].
Qed.

Lemma safe_append (k : Stream) text num :
  k <> Log -> safe sn (append_to k sn text num).
Proof.
  intros Hk st (Hg & Ht & Hp).
  pose proof (append_cases k sn text num st) as H. cbv zeta in H.
  rewrite Hg in H. destruct H as (dt & evs & H).
  destruct (js_get (buffers k st) (Int (indexOf (device_registrar st) sn)))
    as [buf|] eqn:Hb.
  - destruct H as (new & E). exists tt. unfold result, exec. rewrite E. cbn [fst snd].
    split; [reflexivity|].
    destruct k; [| |contradiction]; cbn [set_buffers buffers] in *;
      unfold ready; fields.
    + repeat split; try assumption.
      rewrite (js_get_set_same _ _ buf) by exact Hb. discriminate.
    + repeat split; try assumption.
      rewrite (js_get_set_same _ _ buf) by exact Hb. discriminate.
  - destruct k; [| |contradiction]; cbn [buffers] in Hb; contradiction.
Qed.

Lemma safe_telemetry text num : safe sn (gatewaySendTelemetry sn text num).
Proof. apply (safe_append Telemetry). discriminate. Qed.

Lemma safe_property text num : safe sn (gatewaySendProperty sn text num).
Proof. apply (safe_append Property). discriminate. Qed.

End Safety.

(** One step down the structure of a computation of the ready gateway. *)
Ltac safe_step :=
  cbv beta zeta;
  lazymatch goal with
  | |- safe _ (bind _ _) => apply safe_bind; [ | intro ]
  | |- safe _ (ret _) => apply safe_ret
  | |- safe _ (gets _) => apply safe_gets
  | |- safe _ (modify _) =>
      apply safe_modify; let s := fresh "s" in let H := fresh "H" in
      intros s H; exact H
  | |- safe _ (when _ _) => apply safe_when
  | |- safe _ (forM_ _ _) => apply safe_forM_; intro
  | |- safe _ (debug _ _) => apply safe_debug
  | |- safe _ (gatewaySendTelemetry _ _ _) => apply safe_telemetry
  | |- safe _ (gatewaySendProperty _ _ _) => apply safe_property
  | |- safe _ (if ?b then _ else _) => destruct b
  | |- safe _ ?m => let h := head_of m in unfold h
  end.

Ltac safety := repeat safe_step.

Section GatewayFirst.

Variable own : Z.

#[global] Instance gateway_first_kept_preorder : PreOrder (gateway_first_kept own).
Proof.
  split; unfold gateway_first_kept; [intros s; auto | intros a b c; auto].
Qed.

Lemma gateway_first_kept_same s s' :
  device_registrar s' = device_registrar s ->
  device_property s' = device_property s ->
  gateway_first_kept own s s'.
Proof. unfold gateway_first_kept, gateway_first. intros -> ->. auto. Qed.

Lemma append_gateway_first_kept (k : Stream) sn text num :
  respects (gateway_first_kept own) (append_to k sn text num).
Proof.
  intros st. unfold exec. pose proof (append_cases k sn text num st) as H.
  cbv zeta in H. destruct (deviceMode st).
  - rewrite H. reflexivity.
  - destruct H as (dt & evs & H).
    destruct (js_get (buffers k st) _) as [buf|] eqn:Hb.
    + destruct H as (new & ->). cbn [snd].
      destruct k; cbn [set_buffers buffers] in *;
        try (apply gateway_first_kept_same; reflexivity).
      intros [H0 Hp]. split; [exact H0|]. fields.
      destruct (Z.eq_dec (indexOf (device_registrar st) sn) 0) as [E|E].
      * rewrite E in *. rewrite (js_get_set_same _ _ buf) by exact Hb. discriminate.
      * rewrite js_get_set_other by congruence. exact Hp.
    + rewrite H. cbn [snd]. apply gateway_first_kept_same; reflexivity.
Qed.

Lemma gatewaySendTelemetry_gateway_first_kept sn text num :
  respects (gateway_first_kept own) (gatewaySendTelemetry sn text num).
Proof. exact (append_gateway_first_kept Telemetry sn text num). Qed.

Lemma gatewaySendProperty_gateway_first_kept sn text num :
  respects (gateway_first_kept own) (gatewaySendProperty sn text num).
Proof. exact (append_gateway_first_kept Property sn text num). Qed.

Lemma addMicrobit_gateway_first_kept sn :
  respects (gateway_first_kept own) (addMicrobit sn).
Proof.
  intros st. unfold exec. destruct (deviceMode st) eqn:Hg.
  - rewrite addMicrobit_endpoint by assumption. reflexivity.
  - destruct (Z.lt_ge_cases (indexOf (device_registrar st) sn) 0) as [Hi|Hi].
    + destruct (addMicrobit_new sn st Hg Hi) as (dt & d1 & d2 & _ & _ & ->).
      cbn [snd]. intros [H0 Hp]. split; fields.
      * unfold push. rewrite indexOf_app_old by lia. exact H0.
      * destruct (js_get (device_property st) (Int 0)) as [x|] eqn:Hx;
          [|contradiction].
        pose proof (js_get_in_range _ _ _ Hx) as Hr.
        rewrite js_get_push_old by (intros [= E]; lia). rewrite Hx. discriminate.
    + destruct (addMicrobit_known sn st Hg Hi) as (dt & d & _ & ->).
      cbn [snd]. apply gateway_first_kept_same; reflexivity.
Qed.

Lemma delMicrobit_gateway_first_kept sn :
  respects (gateway_first_kept own) (delMicrobit sn).
Proof.
  intros st. unfold exec. destruct (deviceMode st) eqn:Hg.
  - rewrite delMicrobit_endpoint by assumption. reflexivity.
  - destruct (js_get (device_telemetry st) (Int (indexOf (device_registrar st) sn)))
      as [buf|] eqn:Hb.
    + destruct (delMicrobit_live sn st buf Hg Hb) as (dt & d1 & d2 & _ & _ & ->).
      cbn [snd]. apply gateway_first_kept_same; reflexivity.
    + destruct (delMicrobit_idle sn st Hg Hb) as (dt & d & _ & ->).
      cbn [snd]. apply gateway_first_kept_same; reflexivity.
Qed.

End GatewayFirst.

#[global] Hint Resolve gatewaySendTelemetry_gateway_first_kept
  gatewaySendProperty_gateway_first_kept addMicrobit_gateway_first_kept
  delMicrobit_gateway_first_kept : frame.

Section TickReturns.

Variable hw : Platform.

Lemma local_submission_safe :
  safe (deviceSerialNumber hw) (gatewaySubmitTelemetry hw ;; gatewaySubmitProperty hw).
Proof. safety. Qed.

(** The request step onto the live entry 0 of a registry whose entry 0 is
    the gateway is the local submission. *)
Lemma request_next_mb_local_run st buf :
  deviceMode st = Gateway ->
  next_cursor st = Int 0 ->
  js_get (device_telemetry st) (Int 0) = Some buf ->
  indexOf (device_registrar st) (deviceSerialNumber hw) = 0 ->
  exists T dt d, diagnostics d /\
  request_next_mb hw st =
  (gatewaySubmitTelemetry hw ;; gatewaySubmitProperty hw)
    (set_timerGatewayRequest T (world dt d (set_microbit_ID (Int 0) st))).
Proof.
  intros Hg Hc Hb H0. unfold next_cursor in *.
  unfold request_next_mb, setTimerGatewayRequest.
  run_using ltac:(cbn [num_eqb num_gtb Z.eqb]; rewrite ?Hg, ?Hc, ?Hb).
  exists (runningTime st + debug_time st + debug_time st + 250),
    (debug_time st + debug_time st),
    (debug_out st "request next microbit" (Some (Int 0))
     ++ debug_out st "request data from gateway" None)%list.
  split; [apply diagnostics_app; apply diagnostics_debug_out|].
  match goal with
  | |- context [gatewaySubmitTelemetry hw ?s] => set (s0 := s)
  end.
  set (s1 := set_timerGatewayRequest _ _).
  assert (Es : s0 = s1) by (subst s0 s1; cbv [or_default]; state_eq).
  rewrite Es. clear s0 Es.
  assert (Hm1 : microbit_ID s1 = Int 0) by reflexivity.
  assert (Hr1 : indexOf (device_registrar s1) (deviceSerialNumber hw) = 0) by exact H0.
  clearbody s1.
  pose proof (local_submission_kept hw s1) as (_ & _ & _ & _ & _ & Hk).
  specialize (Hk Hr1 Hm1). unfold exec in *. cbv [bind] in Hk |- *.
  destruct (gatewaySubmitTelemetry hw s1) as [[[]|e] s2]; [|reflexivity].
  destruct (gatewaySubmitProperty hw s2) as [[[]|e] s3]; [|reflexivity].
  cbn [snd] in Hk. rewrite Hk. reflexivity.
Qed.

Lemma request_next_mb_returns st :
  deviceMode st = Gateway ->
  indexOf (device_registrar st) (deviceSerialNumber hw) = 0 ->
  js_get (device_property st) (Int 0) <> None ->
  result (request_next_mb hw) st = Done tt.
Proof.
  intros Hg H0 Hp. unfold result.
  destruct (js_get (device_telemetry st) (next_cursor st)) as [buf|] eqn:Hb.
  - destruct (next_cursor st) as [z|] eqn:Hc; [|discriminate Hb].
    pose proof (js_get_in_range _ _ _ Hb) as Hz.
    destruct (Z.eq_dec z 0) as [->|Hnz].
    + destruct (request_next_mb_local_run st buf Hg Hc Hb H0) as (T & dt & d & _ & ->).
      set (s1 := set_timerGatewayRequest _ _).
      assert (R1 : ready (deviceSerialNumber hw) s1).
      { subst s1. unfold ready. fields. rewrite H0. repeat split; try assumption.
        rewrite Hb. discriminate. }
      destruct (local_submission_safe s1 R1) as ([] & R & _). exact R.
    + destruct (request_next_mb_remote hw st z buf Hg Hc ltac:(lia) Hb)
        as (T & dt & d & _ & ->). reflexivity.
  - destruct (request_next_mb_null hw st Hg Hb) as (dt & d & _ & ->). reflexivity.
Qed.

Lemma handle_gateway_first_kept ev :
  respects (gateway_first_kept (deviceSerialNumber hw)) (handle hw ev).
Proof.
  destruct ev; cbn [handle]; frame.
  all: apply gateway_first_kept_same; reflexivity.
Qed.

Lemma tick_of_gateway_first st :
  gateway_first (deviceSerialNumber hw) st ->
  result (runGatewayOrchestrator hw) st = Done tt.
Proof.
  intros [H0 Hp]. destruct (deviceMode st) eqn:Hg.
  { unfold result, runGatewayOrchestrator. run. rewrite Hg. reflexivity. }
  destruct (activeRadioRequest st) eqn:Ha.
  - destruct (Z_lt_le_dec (timerRadioRequest st) (runningTime st)) as [He|He].
    + destruct (tick_timeout hw st Hg Ha He) as (dt & d & _ & E).
      unfold result. rewrite E. apply request_next_mb_returns; assumption.
    + unfold result. rewrite (tick_in_flight hw st Hg Ha He). reflexivity.
  - unfold result. rewrite (tick_idle hw st Hg Ha).
    apply request_next_mb_returns; assumption.
Qed.

(** X20.  A scheduler tick of a gateway that is the entry 0 of its own
    registry, with the property slot of that entry live, returns,
    whatever the poll cursor, the in-flight flag, the clock and the
    buffers are: it raises no TypeError, whether it waits, counts a loss,
    lands on a deactivated entry, polls a leaf or submits the values of
    the gateway itself.  A node set up by [setDeviceMode(Mode.Gateway)]
    on an empty registry is such a gateway, and stays one: at every state
    a run reaches from there, a tick returns. *)
Theorem tick_never_raises :
  (forall st,
     indexOf (device_registrar st) (deviceSerialNumber hw) = 0 ->
     js_get (device_property st) (Int 0) <> None ->
     result (runGatewayOrchestrator hw) st = Done tt) /\
  (forall st evs,
     device_registrar st = [] ->
     device_property st = [] ->
     result (runGatewayOrchestrator hw)
       (run_events hw evs (exec (setDeviceMode hw Gateway) st)) = Done tt).
Proof.
  split.
  - intros st H0 Hp. apply tick_of_gateway_first. split; assumption.
  - intros st evs Hr Hp. apply tick_of_gateway_first.
    apply (respects_run_events (gateway_first_kept (deviceSerialNumber hw)) hw
             handle_gateway_first_kept evs).
    unfold exec. cbn [setDeviceMode]. run.
    set (s1 := set_identity (Int 0) (set_deviceMode Gateway st)).
    assert (Hg : deviceMode s1 = Gateway) by reflexivity.
    assert (Hi : indexOf (device_registrar s1) (deviceSerialNumber hw) < 0).
    { change (device_registrar s1) with (device_registrar st). rewrite Hr. simpl. lia. }
    destruct (addMicrobit_new _ s1 Hg Hi) as (dt & d1 & d2 & _ & _ & ->).
    cbn [snd]. subst s1. unfold gateway_first. fields. rewrite Hr, Hp.
    unfold push. simpl. rewrite Z.eqb_refl. split; [reflexivity | discriminate].
Qed.

(** The local telemetry of a gateway that is not in its registry. *)
Lemma gatewaySubmitTelemetry_unregistered st :
  deviceMode st = Gateway ->
  doTelemetry st = true ->
  indexOf (device_registrar st) (deviceSerialNumber hw) < 0 ->
  exists dt d, diagnostics d /\
  gatewaySubmitTelemetry hw st =
  (Aborted TypeError, world dt d (set_microbit_ID (Int (-1)) st)).
Proof.
  intros Hg Ht Hi. unfold gatewaySubmitTelemetry.
  rewrite bind_gets, Hg. cbn [is_gateway when]. rewrite bind_gets, Ht. cbn [when].
  cbv zeta. rewrite (bind_run _ _ tt st _ (debug_run _ _ st)).
  set (s1 := world _ _ st).
  assert (Hg1 : deviceMode s1 = Gateway) by exact Hg.
  assert (Hi1 : indexOf (device_registrar s1) (deviceSerialNumber hw) = -1).
  { change (device_registrar s1) with (device_registrar st).
    pose proof (indexOf_lt (device_registrar st) (deviceSerialNumber hw)). lia. }
  assert (Hb1 : js_get (device_telemetry s1)
                  (Int (indexOf (device_registrar s1) (deviceSerialNumber hw))) = None)
    by (rewrite Hi1; reflexivity).
  destruct (gatewaySendTelemetry_null (deviceSerialNumber hw) "id" (Int 0) s1 Hg1 Hb1)
    as (dt & d & Hd & E).
  rewrite Hi1 in E. rewrite (bind_abort _ _ _ _ _ E).
  exists (debug_time st + dt),
    (debug_out st "submit gateway telemetry data" None ++ d)%list.
  split; [apply diagnostics_app; [apply diagnostics_debug_out | exact Hd]|].
  f_equal. subst s1. clear. destruct st. cbv [debug_time debug_out]. setters.
  f_equal; rewrite <- ?app_assoc, ?app_nil_r; cbn [app]; try lia; reflexivity.
Qed.

(** X21.  A gateway that is not in its own registry (it was never set up
    with [setDeviceMode]) treats the entry 0 as itself: an idle tick that
    moves the poll cursor onto a live entry 0 starts the local submission,
    and with telemetry on the first append, for a serial number that is
    not registered, raises a TypeError.  No token is sent, the in-flight
    flag stays cleared and no buffer changes. *)
Theorem unregistered_gateway_tick_raises st buf :
  deviceMode st = Gateway ->
  activeRadioRequest st = false ->
  next_cursor st = Int 0 ->
  js_get (device_telemetry st) (Int 0) = Some buf ->
  indexOf (device_registrar st) (deviceSerialNumber hw) < 0 ->
  doTelemetry st = true ->
  let st' := exec (runGatewayOrchestrator hw) st in
  result (runGatewayOrchestrator hw) st = Aborted TypeError /\
  radio (trace st') = radio (trace st) /\
  activeRadioRequest st' = false /\
  device_telemetry st' = device_telemetry st /\
  device_property st' = device_property st /\
  microbit_ID st' = Int (-1).
Proof.
  intros Hg Ha Hc Hb Hi Ht st'. subst st'. unfold result, exec.
  rewrite (tick_idle hw st Hg Ha). unfold next_cursor in *.
  unfold request_next_mb, setTimerGatewayRequest.
  run_using ltac:(cbn [num_eqb num_gtb Z.eqb]; rewrite ?Hg, ?Hc, ?Hb).
  match goal with
  | |- context [gatewaySubmitTelemetry hw ?s] => set (s0 := s)
  end.
  set (d0 := (debug_out st "request next microbit" (Some (Int 0))
              ++ debug_out st "request data from gateway" None)%list).
  set (s1 := set_timerGatewayRequest
               (runningTime st + debug_time st + debug_time st + 250)
               (world (debug_time st + debug_time st) d0 (set_microbit_ID (Int 0) st))).
  assert (Es : s0 = s1) by (subst s0 s1 d0; cbv [or_default]; state_eq).
  rewrite Es. clear s0 Es.
  assert (Hd0 : diagnostics d0)
    by (subst d0; apply diagnostics_app; apply diagnostics_debug_out).
  destruct (gatewaySubmitTelemetry_unregistered s1 Hg Ht Hi) as (dt & d & Hd & E).
  rewrite E. cbn [fst snd]. subst s1. clearbody d0. fields.
  repeat split.
  - rewrite !radio_app, (diagnostics_radio d Hd), (diagnostics_radio d0 Hd0), !app_nil_r.
    reflexivity.
  - exact Ha.
Qed.

Lemma leaf_reply_safe sn :
  safe sn (leafSendTelemetry hw ;; leafSendProperty ;; leafSendEndOfMessage).
Proof. safety. Qed.

(** X22.  The radio handler of the gateway returns for every value,
    whatever its name, of a sender whose telemetry and property slots are
    live (a registered device that has not been deactivated): no such
    event raises a TypeError. *)
Theorem live_sender_never_raises name value pkt st :
  ready (SerialNumber pkt) st ->
  result (onReceivedValue hw name value pkt) st = Done tt.
Proof.
  intros H. pose proof H as (Hg & _ & _).
  destruct (String.eqb name "register") eqn:E1.
  { destruct (onReceivedValue_register hw name value pkt st E1 Hg)
      as (T & dt & d & _ & E). unfold result. rewrite E. reflexivity. }
  destruct (String.eqb name "del") eqn:E2.
  { destruct (onReceivedValue_del hw name value pkt st E1 E2 Hg)
      as (T & dt & d & _ & E). unfold result. rewrite E. reflexivity. }
  assert (S : safe (SerialNumber pkt) (onReceivedValue hw name value pkt)).
  { unfold onReceivedValue. rewrite E1, E2. cbn [orb].
    pose proof (leaf_reply_safe (SerialNumber pkt)) as L.
    repeat first [ exact L | safe_step ]. }
  destruct (S st H) as ([] & R & _). exact R.
Qed.

End TickReturns.

Lemma live_sender_never_raises_witness :
  ready 11 three_nodes /\
  result (onReceivedValue sample_platform "temp" (Int 21) (mkPacket 11 0 0)) three_nodes
  = Done tt.
Proof.
  assert (H : ready 11 three_nodes)
    by (split; [reflexivity | split; vm_compute; discriminate]).
  split; [exact H|].
  exact (live_sender_never_raises sample_platform "temp" (Int 21) (mkPacket 11 0 0)
           three_nodes H).
Defined.

Lemma tick_never_raises_witness :
  indexOf (device_registrar three_nodes) (deviceSerialNumber sample_platform) = 0 /\
  js_get (device_property three_nodes) (Int 0) <> None /\
  result (runGatewayOrchestrator sample_platform) three_nodes = Done tt.
Proof.
  assert (H : js_get (device_property three_nodes) (Int 0) <> None)
    by (vm_compute; discriminate).
  split; [reflexivity|]. split; [exact H|].
  exact (proj1 (tick_never_raises sample_platform) three_nodes eq_refl H).
Defined.

Lemma unregistered_gateway_tick_raises_witness :
  deviceMode unset_gateway = Gateway /\
  activeRadioRequest unset_gateway = false /\
  next_cursor unset_gateway = Int 0 /\
  js_get (device_telemetry unset_gateway) (Int 0) = Some init_telemetry /\
  indexOf (device_registrar unset_gateway) (deviceSerialNumber sample_platform) < 0 /\
  doTelemetry unset_gateway = true /\
  result (runGatewayOrchestrator sample_platform) unset_gateway = Aborted TypeError.
Proof.
  repeat (split; [reflexivity|]).
  exact (proj1 (unregistered_gateway_tick_raises sample_platform unset_gateway
                  init_telemetry eq_refl eq_refl eq_refl eq_refl eq_refl eq_refl)).
Defined.

(* ================================================================== *)
(** ** What only a tick, and only [setDeviceMode], may change *)
(* ================================================================== *)

#[global] Instance polling_kept_preorder : PreOrder polling_kept.
Proof.
  split.
  - intros s. split; auto.
  - intros a b c [A1 A2] [B1 B2]. split; [congruence | auto].
Qed.

#[global] Instance mode_kept_preorder : PreOrder mode_kept.
Proof.
  split; unfold mode_kept; [intros s; reflexivity | intros a b c; congruence].
Qed.

Section OnlyTicks.

Variable hw : Platform.

(** X23.  Only a scheduler tick counts a loss or raises the in-flight
    flag: a radio value, a radio text, a serial line and a call of any
    other exported function leave the loss counter as it is and, if no
    request is in flight, leave none in flight. *)
Theorem only_ticks_poll ev st :
  ev <> Tick ->
  let st' := exec (handle hw ev) st in
  packet_loss st' = packet_loss st /\
  (activeRadioRequest st = false -> activeRadioRequest st' = false).
Proof.
  intros Hev. revert st. change (respects polling_kept (handle hw ev)).
  destruct ev; [contradiction| ..]; cbn [handle]; frame.
  all: split; fields; auto.
Qed.

(** X24.  The mode of the node changes by [setDeviceMode] and by nothing
    else: over every run without such a call, whatever the radio values,
    the radio texts, the serial lines, the ticks and the calls of the
    other exported functions, the node stays in the mode it is in. *)
Theorem mode_changes_by_setDeviceMode_only evs st :
  Forall (fun ev => forall mode, ev <> SetDeviceMode mode) evs ->
  deviceMode (run_events hw evs st) = deviceMode st.
Proof.
  intros F.
  apply (respects_run_events_on hw (fun ev => forall mode, ev <> SetDeviceMode mode)
           mode_kept); [|exact F].
  intros ev Hev. destruct ev; try (exfalso; exact (Hev _ eq_refl)); cbn [handle]; frame.
  all: reflexivity.
Qed.

End OnlyTicks.

Lemma only_ticks_poll_witness :
  RadioValue "eom" (Int 1) (mkPacket 11 0 0) <> Tick /\
  packet_loss (exec (handle sample_platform (RadioValue "eom" (Int 1) (mkPacket 11 0 0)))
                    polling_11)
  = packet_loss polling_11.
Proof.
  assert (H : RadioValue "eom" (Int 1) (mkPacket 11 0 0) <> Tick) by discriminate.
  split; [exact H|].
  exact (proj1 (only_ticks_poll sample_platform _ polling_11 H)).
Defined.

Lemma mode_changes_by_setDeviceMode_only_witness :
  Forall (fun ev => forall mode, ev <> SetDeviceMode mode)
    [Tick; SerialLine "who()"; RadioValue "register" (Int 0) (mkPacket 33 0 0);
     SendRotation false; UnregisterDevice; RegisterDevice 2] /\
  deviceMode (run_events sample_platform
    [Tick; SerialLine "who()"; RadioValue "register" (Int 0) (mkPacket 33 0 0);
     SendRotation false; UnregisterDevice; RegisterDevice 2] three_nodes)
  = deviceMode three_nodes.
Proof.
  assert (F : Forall (fun ev => forall mode, ev <> SetDeviceMode mode)
    [Tick; SerialLine "who()"; RadioValue "register" (Int 0) (mkPacket 33 0 0);
     SendRotation false; UnregisterDevice; RegisterDevice 2])
    by (repeat constructor; discriminate).
  split; [exact F|].
  exact (mode_changes_by_setDeviceMode_only sample_platform _ three_nodes F).
Defined.

(* ================================================================== *)
(** ** Registration and deregistration, on the side of the leaf *)
(* ================================================================== *)

Section Registration.

Variable hw : Platform.



End Registration.

(** X26.  The deregistration handshake.  [unregisterDevice] on a leaf
    whose identity is not negative returns having sent the one value
    [del] with the serial number of the leaf, and leaves the identity of
    the leaf as it is.  The gateway that receives this value in a packet
    with that serial number, the device being active, returns, sets the
    telemetry slot of the device to [null], keeps it in the registrar
    and sends [setId(-1,sn)]; and the leaf that receives this text sets
    its identity to -1.  (The platform of the leaf reads the decimal text
    of the two numbers of the text as what they are.) *)
Theorem deregistration_handshake (gw leaf : Platform) g l pkt buf :
  deviceMode g = Gateway ->
  deviceMode l = EndPoint ->
  num_geb (identity l) (Int 0) = true ->
  let sn := deviceSerialNumber leaf in
  SerialNumber pkt = sn ->
  js_get (device_telemetry g) (Int (indexOf (device_registrar g) sn)) = Some buf ->
  parseFloat leaf (show_Z (-1)) = Int (-1) ->
  parseFloat leaf (show_Z sn) = Int sn ->
  let msg := "setId(-1," ++ show_Z sn ++ ")" in
  let g' := exec (onReceivedValue gw "del" (Int sn) pkt) g in
  let l1 := exec (unregisterDevice leaf) l in
  unregisterDevice leaf l =
    (Done tt,
     world 1000 [ClearScreen; RadioSendValue "del" (Int sn); LedToggle 2 2] l) /\
  result (onReceivedValue gw "del" (Int sn) pkt) g = Done tt /\
  js_get (device_telemetry g') (Int (indexOf (device_registrar g') sn)) = None /\
  device_registrar g' = device_registrar g /\
  radio (trace g') = (radio (trace g) ++ [RadioSendString msg])%list /\
  identity l1 = identity l /\
  result (onReceivedString leaf msg) l1 = Done tt /\
  identity (exec (onReceivedString leaf msg) l1) = Int (-1).
Proof.
  intros Hg Hl Hi sn Hp Hb Pi Psn.
  assert (U : unregisterDevice leaf l =
    (Done tt, world 1000 [ClearScreen; RadioSendValue "del" (Int sn); LedToggle 2 2] l)).
  { unfold unregisterDevice.
    rewrite (bind_run _ _ tt l _ (emit_run _ l)). rewrite bind_gets. fields.
    rewrite Hi. run. rewrite !world_world. reflexivity. }
  cbv zeta. split; [exact U|]. unfold exec, result. rewrite U. cbn [snd].
  destruct (onReceivedValue_del gw "del" (Int sn) pkt g eq_refl eq_refl Hg)
    as (T & dt & d & Hd & E).
  rewrite Hp in E.
  set (g1 := set_timerRadioRequest T (world dt d g)) in E.
  assert (Hg1 : deviceMode g1 = Gateway) by exact Hg.
  assert (Hb1 : js_get (device_telemetry g1) (Int (indexOf (device_registrar g1) sn))
                = Some buf) by exact Hb.
  destruct (delMicrobit_live sn g1 buf Hg1 Hb1) as (dt' & d1 & d2 & Hd1 & Hd2 & E1).
  unfold exec in E. rewrite E1 in E. cbn [snd] in E.
  rewrite E. cbn [fst snd]. subst g1. fields.
  split; [reflexivity|]. split.
  { apply (js_get_set_same _ _ buf). exact Hb. }
  split; [reflexivity|].
  split.
  { rewrite !radio_app, (diagnostics_radio d), (diagnostics_radio d1),
      (diagnostics_radio d2) by assumption.
    cbn [radio filter is_radio app]. rewrite ?app_nil_r. reflexivity. }
  split; [reflexivity|].
  set (l1 := world 1000 _ l).
  assert (Hl1 : deviceMode l1 = EndPoint) by exact Hl.
  change ("setId(-1," ++ show_Z sn ++ ")")
    with ("setId(" ++ show_Z (-1) ++ "," ++ show_Z sn ++ ")").
  rewrite (onReceivedString_setId leaf (-1) sn l1 Hl1). cbn [fst snd].
  rewrite Psn. cbn [num_eqb]. fold sn. rewrite Z.eqb_refl, Pi.
  split; reflexivity.
Qed.

Lemma deregistration_handshake_witness :
  deviceMode three_nodes = Gateway /\
  deviceMode leaf_1 = EndPoint /\
  num_geb (identity leaf_1) (Int 0) = true /\
  SerialNumber (mkPacket 11 0 0) = deviceSerialNumber (sample_leaf 11) /\
  js_get (device_telemetry three_nodes)
         (Int (indexOf (device_registrar three_nodes) 11)) = Some init_telemetry /\
  parseFloat (sample_leaf 11) (show_Z (-1)) = Int (-1) /\
  parseFloat (sample_leaf 11) (show_Z 11) = Int 11 /\
  unregisterDevice (sample_leaf 11) leaf_1 =
    (Done tt,
     world 1000 [ClearScreen; RadioSendValue "del" (Int 11); LedToggle 2 2] leaf_1) /\
  radio (trace (exec (onReceivedValue sample_platform "del" (Int 11) (mkPacket 11 0 0))
                     three_nodes)) =
    (radio (trace three_nodes) ++ [RadioSendString "setId(-1,11)"])%list.
Proof.
  do 7 (split; [reflexivity|]).
  destruct (deregistration_handshake sample_platform (sample_leaf 11) three_nodes leaf_1
              (mkPacket 11 0 0) init_telemetry
              eq_refl eq_refl eq_refl eq_refl eq_refl eq_refl eq_refl)
    as (U & _ & _ & _ & R & _).
  split; [exact U | exact R].
Defined.
